(** * ccode: a curses launcher for a model-configured command line program

    A shallow embedding of [ccode.py] and the verification of its
    specification.  Python values are modelled as follows.

    - [str] is [string]; one [ascii] stands for one character, so the
      model covers the code points below 256.  Comparison of strings is
      the lexicographic order on code points, [String.le].
    - [int] is [Z]; [//] and [%] with a positive divisor are [Z.div] and
      [Z.modulo] (both round towards minus infinity, as Python does).
    - [str | None] is [option string]; truthiness is [Py.truthy].
    - a [dict] with string keys is a [gmap string _].
    - a call that may raise returns its exception in the result type.
    - [save_config] writes the configuration to disk: the model records
      every written configuration in the [disk] log of the application. *)

From Stdlib Require Import Ascii.
From stdpp Require Import base gmap list strings sorting pretty.

#[local] Set Warnings "-register-all".
#[local] Open Scope string_scope.
#[local] Open Scope Z_scope.

(** ** Python builtins used by the program *)

Module Py.

(** [bool(v)] for [v : str | None]: [None] and [""] are false. *)
Definition truthy (v : option string) : bool :=
  match v with
  | Some s => negb (String.eqb s "")
  | None => false
  end.

(** [len(s)] *)
Definition len (s : string) : Z := Z.of_nat (String.length s).

(** [str.isspace] on one character, for code points below 256. *)
Definition isspace (c : Ascii.ascii) : bool :=
  let n := Z.of_N (Ascii.N_of_ascii c) in
  ((9 <=? n) && (n <=? 13)) || ((28 <=? n) && (n <=? 32))
  || (n =? 133) || (n =? 160).

Fixpoint lstrip (s : string) : string :=
  match s with
  | String c s' => if isspace c then lstrip s' else s
  | EmptyString => EmptyString
  end.

Definition rstrip (s : string) : string := String.rev (lstrip (String.rev s)).

(** [s.strip()] *)
Definition strip (s : string) : string := rstrip (lstrip s).

Fixpoint lstrip_char (c : Ascii.ascii) (s : string) : string :=
  match s with
  | String c' s' => if Ascii.eqb c' c then lstrip_char c s' else s
  | EmptyString => EmptyString
  end.

(** [s.rstrip(c)] for a one-character argument. *)
Definition rstrip_char (c : Ascii.ascii) (s : string) : string :=
  String.rev (lstrip_char c (String.rev s)).

(** [s[n:]], with Python's treatment of negative and large bounds. *)
Definition slice_from (n : Z) (s : string) : string :=
  let start := if n <? 0 then Z.max (len s + n) 0 else n in
  String.substring (Z.to_nat start) (String.length s - Z.to_nat start) s.

(** [s[:n]] *)
Definition slice_to (n : Z) (s : string) : string :=
  let stop := if n <? 0 then Z.max (len s + n) 0 else n in
  String.substring 0 (Z.to_nat stop) s.

(** [c.upper()] on the ASCII letters. *)
Definition upper_char (c : Ascii.ascii) : Ascii.ascii :=
  let n := Ascii.N_of_ascii c in
  if ((97 <=? n) && (n <=? 122))%N then Ascii.ascii_of_N (n - 32) else c.

Fixpoint upper (s : string) : string :=
  match s with
  | String c s' => String (upper_char c) (upper s')
  | EmptyString => EmptyString
  end.

(** [str(n)] for an [int]. *)
Definition str (n : Z) : string := pretty n.

(** [c * n]: the one-character string repeated. *)
Definition repeat_char (c : Ascii.ascii) (n : nat) : string :=
  String.string_of_list_ascii (replicate n c).

(** [sorted(l)] on a list of strings.  Python's sort is a stable merge
    sort; on a total antisymmetric order every sort has the same
    result. *)
Definition sorted (l : list string) : list string := merge_sort String.le l.

(** [v in l] where [v] may be [None] and [l] holds strings. *)
Definition contains (l : list string) (v : option string) : bool :=
  match v with
  | Some s => bool_decide (s ∈ l)
  | None => false
  end.

(** [l.index(s)]: the first position of [s]; the program calls it only
    after [s in l]. *)
Fixpoint index (l : list string) (s : string) : option Z :=
  match l with
  | [] => None
  | x :: l' => if String.eqb x s then Some 0
               else (λ i, i + 1) <$> index l' s
  end.

End Py.

(** ** Selection model *)

(** One catalog record, [{"id": ..., "owned_by": ...}], as [fetch_models]
    builds them: both fields are strings. *)
Record model := Model { model_id : string; model_owned_by : string }.

(** [by_owner.setdefault(owned_by, []).append(model_id)] *)
Definition setdefault_append (by_owner : gmap string (list string))
    (owned_by model_id : string) : gmap string (list string) :=
  <[owned_by := (default [] (by_owner !! owned_by) ++ [model_id])%list]> by_owner.

(** The [isinstance] tests of the source hold of every [model]. *)
Definition build_models_by_owner (models_data : option (list model))
    : gmap string (list string) :=
  let by_owner :=
    foldl (λ by_owner item,
             setdefault_append by_owner (model_owned_by item) (model_id item))
          ∅ (default [] models_data) in
  Py.sorted <$> by_owner.

Definition owner_options (models_by_owner : gmap string (list string))
    : list string :=
  Py.sorted (elements (dom models_by_owner)).

Definition model_options (models_by_owner : gmap string (list string))
    (owner : string) : list string :=
  default [] (models_by_owner !! owner).

(** The ids the catalog lists under [owner], in catalog order. *)
Definition ids_of_owner (owner : string) (catalog : list model) : list string :=
  model_id <$> filter (λ item, model_owned_by item = owner) catalog.

(** ** Exceptions *)

(** The exception classes that the program raises, catches or lets
    through.  [HTTPException] stands for [http.client.HTTPException] and
    [OSError] for [OSError], each with the name of the subclass raised. *)
Inductive exn :=
  | RuntimeError (message : string)
  | AttributeError
  | IndexError
  | ValueError
  | UnicodeDecodeError
  | HTTPException (name : string)
  | OSError (name : string).

Inductive result (A : Type) :=
  | Ok (a : A)
  | Raise (e : exn).
Arguments Ok {A} a.
Arguments Raise {A} e.

#[global] Instance result_ret : MRet result := λ A a, Ok a.
#[global] Instance result_bind : MBind result := λ A B f m,
  match m with
  | Ok a => f a
  | Raise e => Raise e
  end.

(** [l[i]] on a list or tuple: negative indices count from the end. *)
Definition getitem {A} (l : list A) (i : Z) : result A :=
  let n := Z.of_nat (length l) in
  let j := if i <? 0 then i + n else i in
  if (j <? 0) || (n <=? j) then Raise IndexError
  else match l !! Z.to_nat j with
       | Some x => Ok x
       | None => Raise IndexError
       end.

(** [max(xs)] over integers. *)
Definition py_max (xs : list Z) : result Z :=
  match xs with
  | [] => Raise ValueError
  | x :: xs' => Ok (foldl Z.max x xs')
  end.

(** [enumerate(l)] *)
Definition enumerate {A} (l : list A) : list (Z * A) :=
  imap (λ i x, (Z.of_nat i, x)) l.

(** ** Configuration *)

Definition DEFAULT_BASE_URL : string := "http://127.0.0.1:8317".
Definition MODEL_KEYS : list string := ["opus"; "sonnet"; "haiku"].

(** The keys of [TOGGLE_LABELS] and of [DEFAULT_TOGGLES], in their order. *)
Definition TOGGLE_KEYS : list string :=
  ["CLAUDE_CODE_ENABLE_TELEMETRY"; "DISABLE_COST_WARNINGS";
   "CLAUDE_CODE_DISABLE_NONESSENTIAL_TRAFFIC"].

Definition DEFAULT_TOGGLES : gmap string Z :=
  <["CLAUDE_CODE_DISABLE_NONESSENTIAL_TRAFFIC" := 1]>
    (<["DISABLE_COST_WARNINGS" := 1]>
       (<["CLAUDE_CODE_ENABLE_TELEMETRY" := 0]> ∅)).

(** One slot, [{"owned_by": ..., "id": ...}]. *)
Record entry := Entry {
  entry_owned_by : option string;
  entry_id : option string
}.

Record Config := MkConfig {
  base_url : string;
  api_key : string;
  models : gmap string entry;
  toggles : gmap string Z
}.

Definition set_base_url (v : string) (c : Config) : Config :=
  MkConfig v (api_key c) (models c) (toggles c).
Definition set_api_key (v : string) (c : Config) : Config :=
  MkConfig (base_url c) v (models c) (toggles c).
Definition set_model (key : string) (e : entry) (c : Config) : Config :=
  MkConfig (base_url c) (api_key c) (<[key := e]> (models c)) (toggles c).
Definition set_toggle (key : string) (v : Z) (c : Config) : Config :=
  MkConfig (base_url c) (api_key c) (models c) (<[key := v]> (toggles c)).

(** [config["models"].get(key, {})]: the empty dict answers [None] to
    both [.get("owned_by")] and [.get("id")]. *)
Definition get_entry (config : Config) (key : string) : entry :=
  default (Entry None None) (models config !! key).

Definition default_config : Config :=
  MkConfig DEFAULT_BASE_URL ""
    (<["haiku" := Entry None None]>
       (<["sonnet" := Entry None None]>
          (<["opus" := Entry None None]> ∅)))
    DEFAULT_TOGGLES.

(** What [json.loads] returns. *)
Inductive json :=
  | JNull
  | JBool (b : bool)
  | JInt (n : Z)
  | JFloat (literal : string)
  | JStr (s : string)
  | JList (l : list json)
  | JDict (d : gmap string json).

(** [v if isinstance(v, str) else None] for [v = d.get(k)]. *)
Definition str_or_none (v : option json) : option string :=
  match v with
  | Some (JStr s) => Some s
  | _ => None
  end.

(** [load_config]; [file] is the outcome of reading and decoding the
    configuration file, [None] when either raised an exception that the
    [except] clauses catch.  The exceptions that they do not catch are in
    [File.load_config] below. *)
Definition load_config (file : option json) : Config :=
  let config := default_config in
  match file with
  | Some (JDict data) =>
      let config :=
        match data !! "base_url" with
        | Some (JStr base_url) => set_base_url base_url config
        | _ => config
        end in
      let config :=
        match data !! "api_key" with
        | Some (JStr api_key) => set_api_key api_key config
        | _ => config
        end in
      let config :=
        match data !! "models" with
        | Some (JDict models) =>
            foldl (λ config key,
                     match models !! key with
                     | Some (JDict entry) =>
                         set_model key
                           (Entry (str_or_none (entry !! "owned_by"))
                                  (str_or_none (entry !! "id")))
                           config
                     | _ => config
                     end)
                  config MODEL_KEYS
        | _ => config
        end in
      match data !! "toggles" with
      | Some (JDict toggles) =>
          foldl (λ config key,
                   match toggles !! key with
                   | Some (JBool value) =>
                       set_toggle key (if value then 1 else 0) config
                   | Some (JInt value) =>
                       if (value =? 0) || (value =? 1)
                       then set_toggle key value config
                       else config
                   | _ => config
                   end)
                config TOGGLE_KEYS
      | _ => config
      end
  | _ => config
  end.

(** ** Reading the configuration file

    The [try] block of [load_config] (lines 54-60) reads and decodes the
    file.  Its [except] clauses name [FileNotFoundError], [OSError] and
    [JSONDecodeError], for which the default configuration is returned;
    every other exception leaves [load_config]: [UnicodeDecodeError] from
    [read_text] for bytes that are not UTF-8, or the [ValueError] of
    [json.loads] for an integer literal beyond the digit limit.
    [File.load_config] is [load_config] with that block; the definition
    above is what it returns once the block has raised nothing that
    escapes. *)
Module File.
Inductive read :=
  | NotFound
  | ReadOSError (name : string)
  | JSONDecodeError
  | Decoded (data : json)
  | Escapes (e : exn).

Definition load_config (file : read) : result Config :=
  match file with
  | NotFound | ReadOSError _ | JSONDecodeError => Ok (load_config None)
  | Decoded data => Ok (load_config (Some data))
  | Escapes e => Raise e
  end.
End File.

(** [save_config] appends the written configuration to the disk log. *)
Definition save_config (config : Config) (disk : list Config) : list Config :=
  (disk ++ [config])%list.

Definition mask_secret (value : string) : string :=
  if String.eqb value "" then "<unset>"
  else if Py.len value <=? 8 then Py.repeat_char "*"%char (String.length value)
  else Py.slice_to 4 value +:+ "..." +:+ Py.slice_from (-4) value.

Definition update_model_owner (config : Config) (key : string)
    (owner : option string) (disk : list Config) : Config * list Config :=
  let config :=
    set_model key (Entry (if Py.truthy owner then owner else None) None) config in
  (config, save_config config disk).

Definition update_model_id (config : Config) (key : string)
    (owner model_id : option string) (disk : list Config)
    : Config * list Config :=
  let config :=
    if Py.truthy owner && Py.truthy model_id
    then set_model key (Entry owner model_id) config
    else set_model key (Entry (if Py.truthy owner then owner else None) None) config in
  (config, save_config config disk).

(** [(owned_by, model_id) not in valid], evaluated only when both are
    non-empty strings. *)
Definition pair_in (valid : gset (string * string))
    (owned_by model_id : option string) : bool :=
  match owned_by, model_id with
  | Some o, Some i => bool_decide ((o, i) ∈ valid)
  | _, _ => false
  end.

(** The body of the loop of [validate_models], on the configuration and
    the [changed] flag. *)
Definition validate_models_step (valid : gset (string * string))
    (state : Config * bool) (key : string) : Config * bool :=
  let '(config, changed) := state in
  let entry := get_entry config key in
  let owned_by := entry_owned_by entry in
  let model_id := entry_id entry in
  if negb (Py.truthy owned_by) || negb (Py.truthy model_id)
     || negb (pair_in valid owned_by model_id)
  then
    if bool_decide (entry_owned_by entry ≠ None)
       || bool_decide (entry_id entry ≠ None)
    then (set_model key (Entry None None) config, true)
    else (config, changed)
  else (config, changed).

Definition validate_models (config : Config) (models : list model)
    : Config * bool :=
  let valid : gset (string * string) :=
    list_to_set ((λ item, (model_owned_by item, model_id item)) <$> models) in
  foldl (validate_models_step valid) (config, false) MODEL_KEYS.

(** [os.environ] is the argument [environ]. *)
Definition build_env (environ : gmap string string) (config : Config)
    (masked : bool) : gmap string string :=
  let env := environ in
  let env := <["ANTHROPIC_BASE_URL" := base_url config]> env in
  let env :=
    <["ANTHROPIC_AUTH_TOKEN" :=
        if masked then mask_secret (api_key config) else api_key config]> env in
  let env :=
    foldl (λ env key,
             let model_id := entry_id (get_entry config key) in
             if Py.truthy model_id
             then <["ANTHROPIC_DEFAULT_" +:+ Py.upper key +:+ "_MODEL" :=
                      default "" model_id]> env
             else env)
          env MODEL_KEYS in
  map_fold (λ key value env, <[key := Py.str value]> env) env (toggles config).

(** The loop of [validate_launch_requirements] over the slots, which
    returns at the first slot that fails the test. *)
Fixpoint check_selections (config : Config) (keys : list string)
    : option string :=
  match keys with
  | [] => None
  | key :: keys' =>
      let entry := get_entry config key in
      if negb (Py.truthy (entry_owned_by entry))
         || negb (Py.truthy (entry_id entry))
      then Some "OPUS, SONNET, and HAIKU selections are required."
      else check_selections config keys'
  end.

Definition validate_launch_requirements (config : Config) : option string :=
  let base_url := Py.strip (base_url config) in
  let api_key := Py.strip (api_key config) in
  if String.eqb base_url "" || String.eqb api_key ""
  then Some "Base URL and API key are required."
  else check_selections config MODEL_KEYS.

(** ** The collaborators outside the program *)

(** What building the request (line 111, before the [try]) and
    [urllib.request.urlopen] followed by reading the response (lines
    113-115) do:
    [HTTPError code fp] is the raised [HTTPError], [fp] the decoded text
    read from [exc.fp] ([None] when there is none or reading raised);
    [URLError text] is a raised [URLError] or [OSError] with [str(exc)];
    [Response status body] is a response with its decoded body;
    [RequestValueError] is the [ValueError] that [Request(url)] raises for a
    URL without a scheme, outside the [try];
    [HTTPExceptionRaised name] is an [http.client.HTTPException] that is
    neither of the above, such as [InvalidURL] for a port that is not a
    number, which no [except] clause of [fetch_models] names. *)
Inductive urlopen_result :=
  | HTTPError (code : Z) (fp : option string)
  | URLError (text : string)
  | Response (status : Z) (body : string)
  | RequestValueError
  | HTTPExceptionRaised (name : string).

(** What [subprocess.run(..., check=True)] does: it completes, or raises
    [FileNotFoundError], [CalledProcessError], another [OSError]
    ([PermissionError] for a [claude] that is not executable) or
    [ValueError] (a NUL in an argument or in the environment). *)
Inductive run_result :=
  | Completed
  | FileNotFoundError
  | CalledProcessError (returncode : Z)
  | RunOSError (name : string)
  | RunValueError.

Class Platform := {
  (** the request to [url] with the given [Authorization] header *)
  urlopen : string → string → urlopen_result;
  (** [json.loads], [None] when it raises [ValueError] *)
  json_loads : string → option json;
  os_environ : gmap string string;
  subprocess_run : list string → gmap string string → run_result
}.

(** The items of the [data] array that are dicts with string [id] and
    [owned_by]. *)
Definition model_of_item (item : json) : option model :=
  match item with
  | JDict d =>
      match d !! "id", d !! "owned_by" with
      | Some (JStr model_id), Some (JStr owned_by) =>
          Some (Model model_id owned_by)
      | _, _ => None
      end
  | _ => None
  end.

Definition fetch_models `{Platform} (base_url api_key : string)
    : result (list model) :=
  let url := Py.rstrip_char "/"%char base_url +:+ "/v1/models" in
  match urlopen url ("Bearer " +:+ api_key) with
  | HTTPError code fp =>
      let body := match fp with Some text => Py.strip text | None => "" end in
      let body :=
        if 200 <? Py.len body then Py.slice_to 200 body +:+ "..." else body in
      let message := if String.eqb body "" then "No response body" else body in
      Raise (RuntimeError ("HTTP " +:+ Py.str code +:+ ": " +:+ message))
  | URLError text => Raise (RuntimeError ("Request failed: " +:+ text))
  | RequestValueError => Raise ValueError
  | HTTPExceptionRaised name => Raise (HTTPException name)
  | Response status body_bytes =>
      if negb (status =? 200) then
        let body := Py.strip body_bytes in
        let body :=
          if 200 <? Py.len body then Py.slice_to 200 body +:+ "..." else body in
        let message := if String.eqb body "" then "No response body" else body in
        Raise (RuntimeError ("HTTP " +:+ Py.str status +:+ ": " +:+ message))
      else
        match json_loads body_bytes with
        | None => Raise (RuntimeError "Invalid JSON response")
        | Some (JDict payload) =>
            match payload !! "data" with
            | Some (JList data) => Ok (omap model_of_item data)
            | _ => Raise (RuntimeError "Response JSON missing data array")
            end
        | Some _ => Raise AttributeError
        end
  end.

(** The two [except] clauses of [launch_claude] name [FileNotFoundError]
    and [CalledProcessError]; what else [subprocess.run] raises leaves the
    function. *)
Definition launch_claude `{Platform} (config : Config) (args : list string)
    : result (option string) :=
  let base_url := Py.strip (base_url config) in
  let api_key := Py.strip (api_key config) in
  if String.eqb base_url "" || String.eqb api_key ""
  then Ok (Some "Missing base URL or API key.")
  else
    let env := build_env os_environ config false in
    match subprocess_run ("claude" :: args) env with
    | FileNotFoundError => Ok (Some "Could not find 'claude' on PATH.")
    | CalledProcessError returncode =>
        Ok (Some ("claude exited with code " +:+ Py.str returncode +:+ "."))
    | RunOSError name => Raise (OSError name)
    | RunValueError => Raise ValueError
    | Completed => Ok None
    end.

(** ** The application state *)

Inductive screen := MainScreen | ConfigScreen.

Record App := MkApp {
  args : list string;
  config : Config;
  models_data : option (list model);
  models_by_owner : gmap string (list string);
  status_message : string;
  active_screen : screen;
  main_focus_row : Z;
  main_focus_field : Z;
  config_focus_index : Z;
  config_cursor : gmap string Z;
  should_exit : bool;
  frame : Z;
  use_color : bool;
  color_pairs : list Z;
  logo_lines : list string;
  render_style : string;
  (** the configurations written by [save_config], oldest first *)
  disk : list Config
}.

Definition set_config (v : Config) (a : App) : App :=
  MkApp (args a) v (models_data a) (models_by_owner a) (status_message a)
    (active_screen a) (main_focus_row a) (main_focus_field a)
    (config_focus_index a) (config_cursor a) (should_exit a) (frame a)
    (use_color a) (color_pairs a) (logo_lines a) (render_style a) (disk a).
Definition set_models_data (v : option (list model)) (a : App) : App :=
  MkApp (args a) (config a) v (models_by_owner a) (status_message a)
    (active_screen a) (main_focus_row a) (main_focus_field a)
    (config_focus_index a) (config_cursor a) (should_exit a) (frame a)
    (use_color a) (color_pairs a) (logo_lines a) (render_style a) (disk a).
Definition set_models_by_owner (v : gmap string (list string)) (a : App) : App :=
  MkApp (args a) (config a) (models_data a) v (status_message a)
    (active_screen a) (main_focus_row a) (main_focus_field a)
    (config_focus_index a) (config_cursor a) (should_exit a) (frame a)
    (use_color a) (color_pairs a) (logo_lines a) (render_style a) (disk a).
Definition set_status_message (v : string) (a : App) : App :=
  MkApp (args a) (config a) (models_data a) (models_by_owner a) v
    (active_screen a) (main_focus_row a) (main_focus_field a)
    (config_focus_index a) (config_cursor a) (should_exit a) (frame a)
    (use_color a) (color_pairs a) (logo_lines a) (render_style a) (disk a).
Definition set_active_screen (v : screen) (a : App) : App :=
  MkApp (args a) (config a) (models_data a) (models_by_owner a)
    (status_message a) v (main_focus_row a) (main_focus_field a)
    (config_focus_index a) (config_cursor a) (should_exit a) (frame a)
    (use_color a) (color_pairs a) (logo_lines a) (render_style a) (disk a).
Definition set_main_focus_row (v : Z) (a : App) : App :=
  MkApp (args a) (config a) (models_data a) (models_by_owner a)
    (status_message a) (active_screen a) v (main_focus_field a)
    (config_focus_index a) (config_cursor a) (should_exit a) (frame a)
    (use_color a) (color_pairs a) (logo_lines a) (render_style a) (disk a).
Definition set_main_focus_field (v : Z) (a : App) : App :=
  MkApp (args a) (config a) (models_data a) (models_by_owner a)
    (status_message a) (active_screen a) (main_focus_row a) v
    (config_focus_index a) (config_cursor a) (should_exit a) (frame a)
    (use_color a) (color_pairs a) (logo_lines a) (render_style a) (disk a).
Definition set_config_focus_index (v : Z) (a : App) : App :=
  MkApp (args a) (config a) (models_data a) (models_by_owner a)
    (status_message a) (active_screen a) (main_focus_row a)
    (main_focus_field a) v (config_cursor a) (should_exit a) (frame a)
    (use_color a) (color_pairs a) (logo_lines a) (render_style a) (disk a).
Definition set_config_cursor (v : gmap string Z) (a : App) : App :=
  MkApp (args a) (config a) (models_data a) (models_by_owner a)
    (status_message a) (active_screen a) (main_focus_row a)
    (main_focus_field a) (config_focus_index a) v (should_exit a) (frame a)
    (use_color a) (color_pairs a) (logo_lines a) (render_style a) (disk a).
Definition set_should_exit (v : bool) (a : App) : App :=
  MkApp (args a) (config a) (models_data a) (models_by_owner a)
    (status_message a) (active_screen a) (main_focus_row a)
    (main_focus_field a) (config_focus_index a) (config_cursor a) v (frame a)
    (use_color a) (color_pairs a) (logo_lines a) (render_style a) (disk a).
Definition set_frame (v : Z) (a : App) : App :=
  MkApp (args a) (config a) (models_data a) (models_by_owner a)
    (status_message a) (active_screen a) (main_focus_row a)
    (main_focus_field a) (config_focus_index a) (config_cursor a)
    (should_exit a) v (use_color a) (color_pairs a) (logo_lines a)
    (render_style a) (disk a).
Definition set_use_color (v : bool) (a : App) : App :=
  MkApp (args a) (config a) (models_data a) (models_by_owner a)
    (status_message a) (active_screen a) (main_focus_row a)
    (main_focus_field a) (config_focus_index a) (config_cursor a)
    (should_exit a) (frame a) v (color_pairs a) (logo_lines a)
    (render_style a) (disk a).
Definition set_color_pairs (v : list Z) (a : App) : App :=
  MkApp (args a) (config a) (models_data a) (models_by_owner a)
    (status_message a) (active_screen a) (main_focus_row a)
    (main_focus_field a) (config_focus_index a) (config_cursor a)
    (should_exit a) (frame a) (use_color a) v (logo_lines a)
    (render_style a) (disk a).
Definition set_disk (v : list Config) (a : App) : App :=
  MkApp (args a) (config a) (models_data a) (models_by_owner a)
    (status_message a) (active_screen a) (main_focus_row a)
    (main_focus_field a) (config_focus_index a) (config_cursor a)
    (should_exit a) (frame a) (use_color a) (color_pairs a) (logo_lines a)
    (render_style a) v.

(** A module-level function that changes the configuration and saves it,
    run on the application's configuration and disk. *)
Definition with_config (f : Config → list Config → Config * list Config)
    (a : App) : App :=
  let '(new_config, new_disk) := f (config a) (disk a) in
  set_disk new_disk (set_config new_config a).

Definition update_models_by_owner (a : App) : App :=
  set_models_by_owner (build_models_by_owner (models_data a)) a.

(** Returns the state and the method's return value, the error text or
    [None]; an exception other than [RuntimeError] is not caught. *)
Definition fetch_and_store_models `{Platform} (a : App)
    (base_url api_key : string) (save : bool) : result (App * option string) :=
  match fetch_models base_url api_key with
  | Raise (RuntimeError message) => Ok (a, Some message)
  | Raise e => Raise e
  | Ok models =>
      let a := set_models_data (Some models) a in
      let a := set_config (set_base_url base_url (config a)) a in
      let a := set_config (set_api_key api_key (config a)) a in
      let '(validated, changed) := validate_models (config a) models in
      let a := set_config validated a in
      let a :=
        if save || changed
        then set_disk (save_config (config a) (disk a)) a
        else a in
      let a := update_models_by_owner a in
      Ok (a, None)
  end.

Definition refresh_models `{Platform} (a : App) : result App :=
  let a := set_status_message "" a in
  let base_url := Py.strip (base_url (config a)) in
  let api_key := Py.strip (api_key (config a)) in
  if String.eqb base_url "" || String.eqb api_key "" then
    Ok (set_status_message
          "Base URL and API key are required. Open config with c." a)
  else
    '(a, error) ← fetch_and_store_models a base_url api_key true;
    if Py.truthy error
    then Ok (set_status_message (default "" error) a)
    else Ok (set_status_message "Models refreshed." a).

Definition cycle_main_option (direction : Z) (a : App) : result App :=
  key ← getitem MODEL_KEYS (main_focus_row a);
  if main_focus_field a =? 0 then
    let owners := owner_options (models_by_owner a) in
    if bool_decide (owners = []) then Ok a
    else
      let current := entry_owned_by (get_entry (config a) key) in
      let index :=
        if Py.contains owners current
        then default 0 (Py.index owners (default "" current))
        else if 0 <? direction then -1 else 0 in
      new_owner ← getitem owners
                    ((index + direction) `mod` Z.of_nat (length owners));
      Ok (with_config (λ config, update_model_owner config key (Some new_owner)) a)
  else
    let owner := entry_owned_by (get_entry (config a) key) in
    if negb (Py.truthy owner) then Ok a
    else
      let models := model_options (models_by_owner a) (default "" owner) in
      if bool_decide (models = []) then Ok a
      else
        let current_id := entry_id (get_entry (config a) key) in
        let index :=
          if Py.contains models current_id
          then default 0 (Py.index models (default "" current_id))
          else if 0 <? direction then -1 else 0 in
        new_id ← getitem models
                   ((index + direction) `mod` Z.of_nat (length models));
        Ok (with_config
              (λ config, update_model_id config key owner (Some new_id)) a).

(** ** Curses *)

Module Curses.
(** Key codes and attribute bits of ncurses. *)
Definition KEY_DOWN : Z := 258.
Definition KEY_UP : Z := 259.
Definition KEY_LEFT : Z := 260.
Definition KEY_RIGHT : Z := 261.
Definition KEY_BACKSPACE : Z := 263.
Definition KEY_ENTER : Z := 343.
Definition A_REVERSE : Z := Z.shiftl 1 18.
Definition A_BOLD : Z := Z.shiftl 1 21.
Definition A_COLOR : Z := Z.shiftl 255 8.

(** [curses.color_pair(n)] *)
Definition color_pair (n : Z) : Z := Z.land (Z.shiftl n 8) A_COLOR.

(** [curses.ascii.isprint(key)] *)
Definition isprint (key : Z) : bool := (32 <=? key) && (key <=? 126).

(** An attribute has the bold bit. *)
Definition bold (attr : Z) : bool := Z.testbit attr 21.
End Curses.

(** A curses window: [getmaxyx] gives [(height, width)]; [addstr] is the
    call of the curses library on a text that the Python binding hands to
    it, and gives the window after the call and whether [curses.error] was
    raised, the one exception of [addstr] that the program provides for.
    What the binding does before that call is [Binding.addstr] below. *)
Class Window (W : Type) := {
  getmaxyx : W → Z * Z;
  addstr : W → Z → Z → string → Z → W * bool
}.

Definition addstr_safe `{Window W} (stdscr : W) (y x : Z) (text : string)
    (attr : Z) : W :=
  let '(height, width) := getmaxyx stdscr in
  if (y <? 0) || (height <=? y) then stdscr
  else
    let '(text, x) := if x <? 0 then (Py.slice_from (- x) text, 0) else (text, x) in
    if width <=? x then stdscr
    else
      let available := width - x in
      if available <=? 0 then stdscr
      else fst (addstr stdscr y x (Py.slice_to available text) attr).

(** ** The Python binding of [addstr]

    [window.addstr] turns the text into a C string before it calls curses:
    a text with an embedded NUL raises [ValueError] there, which is not a
    [curses.error].  [Binding.addstr_safe] is [addstr_safe] over that
    method, with what it lets through; the definition above is the window
    it leaves when nothing is raised.  The attribute is taken to fit a C
    [long], as every attribute of the program does. *)
Module Binding.
Definition has_nul (text : string) : bool :=
  existsb (Ascii.eqb Ascii.zero) (String.list_ascii_of_string text).

Definition addstr `{Window W} (stdscr : W) (y x : Z) (text : string)
    (attr : Z) : result (W * bool) :=
  if has_nul text then Raise ValueError
  else Ok (addstr stdscr y x text attr).

Definition addstr_safe `{Window W} (stdscr : W) (y x : Z) (text : string)
    (attr : Z) : result W :=
  let '(height, width) := getmaxyx stdscr in
  if (y <? 0) || (height <=? y) then Ok stdscr
  else
    let '(text, x) := if x <? 0 then (Py.slice_from (- x) text, 0) else (text, x) in
    if width <=? x then Ok stdscr
    else
      let available := width - x in
      if available <=? 0 then Ok stdscr
      else
        '(stdscr, _) ← addstr stdscr y x (Py.slice_to available text) attr;
        Ok stdscr.
End Binding.

(** The five entries of [logo_palette]. *)
Definition PALETTE_SIZE : nat := 5.

(** [init_colors]; [has_colors] is the answer of [curses.has_colors],
    [started] tells that [start_color] and [use_default_colors] raised
    nothing, and [pairs] is the number of palette entries for which
    [init_pair] succeeded before its first failure. *)
Definition init_colors (has_colors started : bool) (pairs : nat) (a : App)
    : App :=
  if negb has_colors then a
  else if negb started then a
  else
    let a := set_use_color true a in
    set_color_pairs (Z.of_nat <$> seq 1 (pairs `min` PALETTE_SIZE)) a.

(** The attribute that the loop body of [render_style_pulse] computes for
    the glyph at [(row, col)]. *)
Definition pulse_attr (a : App) (row col : Z) : Z :=
  let attr := 0 in
  if use_color a && negb (bool_decide (color_pairs a = [])) then
    let idx :=
      (col + row + frame a `div` 3) `mod` Z.of_nat (length (color_pairs a)) in
    let attr := Curses.color_pair (default 0 (color_pairs a !! Z.to_nat idx)) in
    if (frame a + col + row) `mod` 20 <? 10
    then Z.lor attr Curses.A_BOLD
    else attr
  else attr.

Definition render_style_pulse `{Window W} (a : App) (stdscr : W) (start_y : Z)
    : result W :=
  let lines := logo_lines a in
  let '(height, width) := getmaxyx stdscr in
  max_len ← py_max (Py.len <$> lines);
  let base_x := Z.max 0 ((width - max_len) `div` 2) in
  Ok (foldl (λ stdscr '(row, line),
               foldl (λ stdscr '(col, ch),
                        if Ascii.eqb ch " " then stdscr
                        else addstr_safe stdscr (start_y + row) (base_x + col)
                               (String ch "") (pulse_attr a row col))
                     stdscr (enumerate (String.list_ascii_of_string line)))
            stdscr (enumerate lines)).

(** ** Start-up *)

Definition LOGOS : list (list string) :=
  [ [ " #####   #####   #####   ####   ##### ";
      "##   ## ##   ## ##   ## ##  ## ##   ##";
      "##      ##      ##   ## ##  ## ##     ";
      "##   ## ##   ## ##   ## ##  ## ##   ##";
      " #####   #####   #####   ####   ##### ";
      "    C C O D E   L A U N C H E R        " ];
    [ "   ______ ______ ____  ____  ______ ";
      "  / ____// ____// __ \/ __ \/ ____/ ";
      " / /    / /    / / / / / / / __/    ";
      "/ /___ / /___ / /_/ / /_/ / /___    ";
      "\____/ \____/ \____/_____/_____/    ";
      "   LAUNCHER  EDITION                " ];
    [ "  ___  ___  ___  ___  ___ ";
      " / __|/ __|/ _ \|   \| __|";
      "| (__| (__| (_) | |) | _| ";
      " \___|\___|\___/|___/|___|";
      "   C C O D E L A U N C H  " ] ].

(** [CursesApp.__init__]; [file] is what [load_config] finds on disk, and
    [logo_lines] and [render_style] are the two random choices. *)
Definition init (args : list string) (file : option json)
    (logo_lines : list string) (render_style : string) : App :=
  let config := load_config file in
  update_models_by_owner
    (MkApp args config None ∅ "" MainScreen 0 0 0
       (<["api_key" := Py.len (api_key config)]>
          (<["base_url" := Py.len (base_url config)]> ∅))
       false 0 false [] logo_lines render_style []).

(** ** Key handling *)

Definition CONFIG_FIELDS : list string := "base_url" :: "api_key" :: TOGGLE_KEYS.

(** [config.get(field, "")] and [config[field] = value] for the two text
    fields. *)
Definition get_text (config : Config) (field : string) : string :=
  if String.eqb field "base_url" then base_url config
  else if String.eqb field "api_key" then api_key config
  else "".
Definition set_text (field value : string) (config : Config) : Config :=
  if String.eqb field "base_url" then set_base_url value config
  else if String.eqb field "api_key" then set_api_key value config
  else config.

Definition handle_text_input (field : string) (key : Z) (a : App) : App :=
  let value := get_text (config a) field in
  let cursor := Z.min (default 0 (config_cursor a !! field)) (Py.len value) in
  let '(a, cursor) :=
    if key =? Curses.KEY_LEFT then
      (a, if 0 <? cursor then cursor - 1 else cursor)
    else if key =? Curses.KEY_RIGHT then
      (a, if cursor <? Py.len value then cursor + 1 else cursor)
    else if (key =? Curses.KEY_BACKSPACE) || (key =? 127) || (key =? 8) then
      if 0 <? cursor then
        let value := Py.slice_to (cursor - 1) value +:+ Py.slice_from cursor value in
        let a := set_config (set_text field value (config a)) a in
        (set_disk (save_config (config a) (disk a)) a, cursor - 1)
      else (a, cursor)
    else if (0 <=? key) && (key <=? 255) && Curses.isprint key then
      let value :=
        Py.slice_to cursor value
        +:+ String (Ascii.ascii_of_N (Z.to_N key)) "" +:+ Py.slice_from cursor value in
      let a := set_config (set_text field value (config a)) a in
      (set_disk (save_config (config a) (disk a)) a, cursor + 1)
    else (a, cursor) in
  set_config_cursor (<[field := cursor]> (config_cursor a)) a.

(** The toggle branch of [handle_config_key]: flip and save. *)
Definition flip_toggle (field : string) (config : Config) (disk : list Config)
    : Config * list Config :=
  let current := default 0 (toggles config !! field) in
  let config := set_toggle field (if current =? 0 then 1 else 0) config in
  (config, save_config config disk).

Definition handle_config_key `{Platform} (key : Z) (a : App) : result App :=
  if key =? 27 then
    let a := set_disk (save_config (config a) (disk a)) a in
    let a := set_active_screen MainScreen a in
    refresh_models a
  else if key =? Curses.KEY_UP then
    Ok (set_config_focus_index (Z.max 0 (config_focus_index a - 1)) a)
  else if key =? Curses.KEY_DOWN then
    Ok (set_config_focus_index
          (Z.min (Z.of_nat (length CONFIG_FIELDS) - 1) (config_focus_index a + 1)) a)
  else
    field ← getitem CONFIG_FIELDS (config_focus_index a);
    if String.eqb field "base_url" || String.eqb field "api_key" then
      Ok (handle_text_input field key a)
    else if (key =? Curses.KEY_ENTER) || (key =? 10) || (key =? 13) || (key =? 32)
    then Ok (with_config (flip_toggle field) a)
    else Ok a.

(** [launch_with_curses] leaves and restores the terminal mode around
    [launch_claude], also when that raises; the terminal mode is not part
    of the state. *)
Definition launch_with_curses `{Platform} (a : App) : result (option string) :=
  launch_claude (config a) (args a).

Definition handle_main_key `{Platform} (key : Z) (a : App) : result App :=
  if key =? Curses.KEY_UP then
    Ok (set_main_focus_row (Z.max 0 (main_focus_row a - 1)) a)
  else if key =? Curses.KEY_DOWN then
    Ok (set_main_focus_row
          (Z.min (Z.of_nat (length MODEL_KEYS) - 1) (main_focus_row a + 1)) a)
  else if key =? Curses.KEY_LEFT then Ok (set_main_focus_field 0 a)
  else if key =? Curses.KEY_RIGHT then Ok (set_main_focus_field 1 a)
  else if (key =? 91) || (key =? 97) then cycle_main_option (-1) a
  else if (key =? 93) || (key =? 100) then cycle_main_option 1 a
  else if (key =? 99) || (key =? 67) then
    Ok (set_status_message "" (set_active_screen ConfigScreen a))
  else if (key =? 98) || (key =? 66) then refresh_models a
  else if (key =? 113) || (key =? 81) then Ok (set_should_exit true a)
  else if (key =? Curses.KEY_ENTER) || (key =? 10) || (key =? 13) then
    let a := set_status_message "" a in
    let error := validate_launch_requirements (config a) in
    if Py.truthy error then Ok (set_status_message (default "" error) a)
    else
      error ← launch_with_curses a;
      if Py.truthy error then Ok (set_status_message (default "" error) a)
      else Ok (set_should_exit true a)
  else Ok a.

(** ** The specification's [advance]

    Written from the words of the specification, to be compared with what
    [cycle_main_option] computes: on an empty list the value is returned
    unchanged; when the value is in the list the step starts at its index;
    otherwise it starts at [len(list) - 1] for direction [+1] and at [0]
    for direction [-1]. *)
Definition advance (l : list string) (current_value : option string)
    (direction : Z) : option string :=
  match l with
  | [] => current_value
  | _ =>
      let n := Z.of_nat (length l) in
      let start :=
        match current_value ≫= Py.index l with
        | Some i => i
        | None => if direction =? 1 then n - 1 else 0
        end in
      l !! Z.to_nat ((start + direction) `mod` n)
  end.

(** ** A plain character grid

    A window with [grid_height] rows and [grid_width] columns on which
    the definitions can be run: [addstr] fails outside the grid or when
    the text does not fit in the row, and writes the text otherwise. *)
Record grid := Grid {
  grid_height : Z;
  grid_width : Z;
  grid_cells : gmap (Z * Z) (Ascii.ascii * Z)
}.

Fixpoint grid_write (cells : gmap (Z * Z) (Ascii.ascii * Z)) (y x : Z)
    (text : string) (attr : Z) : gmap (Z * Z) (Ascii.ascii * Z) :=
  match text with
  | EmptyString => cells
  | String c text' => grid_write (<[(y, x) := (c, attr)]> cells) y (x + 1) text' attr
  end.

#[global] Instance grid_window : Window grid := {|
  getmaxyx g := (grid_height g, grid_width g);
  addstr g y x text attr :=
    if (0 <=? y) && (y <? grid_height g) && (0 <=? x)
       && (x + Py.len text <=? grid_width g)
    then (Grid (grid_height g) (grid_width g)
            (grid_write (grid_cells g) y x text attr), false)
    else (g, true)
|}.

(** A platform whose catalog request answers with a fixed outcome. *)
Definition fixed_platform (answer : urlopen_result) (parsed : option json)
    : Platform := {|
  urlopen _ _ := answer;
  json_loads _ := parsed;
  os_environ := ∅;
  subprocess_run _ _ := Completed
|}.

(** ** Clipping, in the words of the specification

    A text with its first [n] characters cut off, and a text cut down to
    its first [n] characters. *)
Definition cut_left (n : nat) (text : string) : string :=
  String.string_of_list_ascii (drop n (String.list_ascii_of_string text)).
Definition fit_width (n : nat) (text : string) : string :=
  String.string_of_list_ascii (take n (String.list_ascii_of_string text)).

(** ** Slots, in the words of the specification *)

(** A slot field holds a value: it is neither null nor the empty string. *)
Definition present (v : option string) : Prop := ∃ s, v = Some s ∧ s ≠ "".

(** The [(owner, id)] pair of a slot is present in the catalog. *)
Definition pair_listed (catalog : list model) (e : entry) : Prop :=
  ∃ owner id, entry_owned_by e = Some owner ∧ entry_id e = Some id
              ∧ Model id owner ∈ catalog.

(** The name of the model-override variable of a slot. *)
Definition model_variable (key : string) : string :=
  "ANTHROPIC_DEFAULT_" +:+ Py.upper key +:+ "_MODEL".

(** A sequence of toggle flips, each on the named toggle field. *)
Definition flip_toggles (fields : list string) (config : Config)
    (disk : list Config) : Config * list Config :=
  foldl (λ '(config, disk) field, flip_toggle field config disk)
        (config, disk) fields.

(** The non-space glyphs of a banner with their row and column, in
    reading order. *)
Definition glyphs (lines : list string) : list (Z * Z * Ascii.ascii) :=
  '(row, line) ← enumerate lines;
  '(col, ch) ← enumerate (String.list_ascii_of_string line);
  if Ascii.eqb ch " " then [] else [(row, col, ch)].

(** The test of [validate_models] on one slot: the slot fails the
    catalog check and holds something to reset. *)
Definition needs_reset (valid : gset (string * string)) (e : entry) : bool :=
  (negb (Py.truthy (entry_owned_by e)) || negb (Py.truthy (entry_id e))
   || negb (pair_in valid (entry_owned_by e) (entry_id e)))
  && (bool_decide (entry_owned_by e ≠ None) || bool_decide (entry_id e ≠ None)).

(** One glyph painted by the Pulse style: at its own row and column from
    the anchor, with the attribute of its position. *)
Definition paint_glyph `{Window W} (a : App) (start_y base_x : Z) (stdscr : W)
    (glyph : Z * Z * Ascii.ascii) : W :=
  let '(row, col, ch) := glyph in
  addstr_safe stdscr (start_y + row) (base_x + col) (String ch "")
    (pulse_attr a row col).

(** The toggles of a configuration are the three known ones, each 0 or 1. *)
Definition toggles_ok (t : gmap string Z) : Prop :=
  ∀ key, (key ∈ TOGGLE_KEYS → t !! key = Some 0 ∨ t !! key = Some 1)
         ∧ (key ∉ TOGGLE_KEYS → t !! key = None).

(** ** The Rain animation *)

(** The attribute that the loop body of [render_style_rain] computes for
    the glyph at [(row, col)]. *)
Definition rain_attr (a : App) (row col : Z) : Z :=
  let attr := 0 in
  if use_color a && negb (bool_decide (color_pairs a = [])) then
    let idx :=
      (row - frame a `div` 2) `mod` Z.of_nat (length (color_pairs a)) in
    let attr := Curses.color_pair (default 0 (color_pairs a !! Z.to_nat idx)) in
    if (col * 7 + row * 13 + frame a) `mod` 17 =? 0
    then Z.lor attr Curses.A_BOLD
    else attr
  else attr.

Definition render_style_rain `{Window W} (a : App) (stdscr : W) (start_y : Z)
    : result W :=
  let lines := logo_lines a in
  let '(height, width) := getmaxyx stdscr in
  max_len ← py_max (Py.len <$> lines);
  let base_x := Z.max 0 ((width - max_len) `div` 2) in
  Ok (foldl (λ stdscr '(row, line),
               foldl (λ stdscr '(col, ch),
                        if Ascii.eqb ch " " then stdscr
                        else addstr_safe stdscr (start_y + row) (base_x + col)
                               (String ch "") (rain_attr a row col))
                     stdscr (enumerate (String.list_ascii_of_string line)))
            stdscr (enumerate lines)).

(** One glyph painted by the Rain style. *)
Definition paint_rain `{Window W} (a : App) (start_y base_x : Z) (stdscr : W)
    (glyph : Z * Z * Ascii.ascii) : W :=
  let '(row, col, ch) := glyph in
  addstr_safe stdscr (start_y + row) (base_x + col) (String ch "")
    (rain_attr a row col).

(** ** What [save_config] writes, as [load_config] reads it back

    [json.loads] of the text that [json.dumps] gives for a configuration:
    a dict for a dict, a string for a string, [null] for [None] and an
    integer for a toggle. *)
Definition json_of_field (v : option string) : json :=
  match v with
  | Some s => JStr s
  | None => JNull
  end.

Definition json_of_entry (e : entry) : json :=
  JDict (<["id" := json_of_field (entry_id e)]>
           (<["owned_by" := json_of_field (entry_owned_by e)]> ∅)).

Definition json_of_config (c : Config) : json :=
  JDict (<["toggles" := JDict (JInt <$> toggles c)]>
           (<["models" := JDict (json_of_entry <$> models c)]>
              (<["api_key" := JStr (api_key c)]>
                 (<["base_url" := JStr (base_url c)]> ∅)))).

(** The [valid] set of [validate_models]. *)
Definition valid_pairs (catalog : list model) : gset (string * string) :=
  list_to_set ((λ item, (model_owned_by item, model_id item)) <$> catalog).

(** ** The event loop

    The loop of [run], on the application state: the window is erased and
    drawn before every key is read, which writes to the window and leaves
    the application as it is.  [draw a] is what drawing the state [a]
    raises, if anything: [render_main] and [render_config] can raise, for
    instance the [ValueError] of [max] on an empty banner or of [addstr] on
    a text with a NUL.  [keys] is what [getch] returns, turn after turn
    ([-1] when the 50 ms wait ran out). *)
Definition KEY_RESIZE : Z := 410.

Definition run_turn `{Platform} (key : Z) (a : App) : result App :=
  if key =? KEY_RESIZE then Ok a
  else if key =? -1 then Ok (set_frame (frame a + 1) a)
  else
    a ← match active_screen a with
        | MainScreen => handle_main_key key a
        | ConfigScreen => handle_config_key key a
        end;
    Ok (set_frame (frame a + 1) a).

Fixpoint run_loop `{Platform} (draw : App → result unit) (keys : list Z)
    (a : App) : result App :=
  if should_exit a then Ok a
  else match keys with
       | [] => Ok a
       | key :: keys' => draw a;; a ← run_turn key a; run_loop draw keys' a
       end.

(** [run] after the curses set-up: colours, the first refresh when the
    main screen is active, then the loop. *)
Definition run `{Platform} (draw : App → result unit)
    (has_colors started : bool) (pairs : nat) (keys : list Z) (a : App)
    : result App :=
  let a := init_colors has_colors started pairs a in
  a ← match active_screen a with
      | MainScreen => refresh_models a
      | ConfigScreen => Ok a
      end;
  run_loop draw keys a.

(** ** Properties of the state *)

(** The configuration has exactly the three slots. *)
Definition slots_ok (m : gmap string entry) : Prop :=
  ∀ key, (key ∈ MODEL_KEYS → is_Some (m !! key))
         ∧ (key ∉ MODEL_KEYS → m !! key = None).

(** A slot is empty, or bound to a pair that the catalog lists. *)
Definition slot_valid (catalog : list model) (e : entry) : Prop :=
  e = Entry None None
  ∨ (present (entry_owned_by e) ∧ present (entry_id e) ∧ pair_listed catalog e).

(** A slot with an id has an owner too, and neither is empty. *)
Definition slot_paired (e : entry) : Prop :=
  entry_id e = None ∨ (present (entry_owned_by e) ∧ present (entry_id e)).

(** Every slot of the configuration is [slot_paired]. *)
Definition slots_paired (config : Config) : Prop :=
  ∀ slot, slot ∈ MODEL_KEYS → slot_paired (get_entry config slot).

(** The owner index is the grouping of the stored catalog. *)
Definition index_consistent (a : App) : Prop :=
  models_by_owner a = build_models_by_owner (models_data a).

(** From one state to the next nothing on disk is lost, and a changed
    configuration is the last one written. *)
Definition persisted (a a' : App) : Prop :=
  disk a `prefix_of` disk a'
  ∧ (config a' = config a ∨ last (disk a') = Some (config a')).

(** The focus of the main screen is on one of the three slots and the
    focus of the configuration screen on one of its five fields. *)
Definition focus_ok (a : App) : Prop :=
  0 ≤ main_focus_row a ≤ 2 ∧ 0 ≤ config_focus_index a ≤ 4.

(** The text cursor of a field, as [handle_text_input] reads it. *)
Definition text_cursor (a : App) (field : string) : Z :=
  Z.min (default 0 (config_cursor a !! field)) (Py.len (get_text (config a) field)).

(** * Verification *)

(** Closed decidable facts are settled by evaluation. *)
Ltac by_evaluation := apply (bool_decide_unpack _); vm_compute; exact I.

(** ** Selection model: grouping the catalog by owner *)

Section grouping.
Implicit Types (catalog : list model) (by_owner : gmap string (list string)).

(** The accumulated dict after the first loop, read at one owner. *)
Lemma grouping_fold_lookup catalog by_owner owner :
  foldl (λ by_owner item,
           setdefault_append by_owner (model_owned_by item) (model_id item))
        by_owner catalog !! owner =
    match ids_of_owner owner catalog with
    | [] => by_owner !! owner
    | ids => Some (default [] (by_owner !! owner) ++ ids)%list
    end.
Proof.
  revert by_owner. induction catalog as [|item catalog IH]; intros by_owner.
  - done.
  - simpl. rewrite IH. unfold ids_of_owner in *. rewrite filter_cons.
    unfold setdefault_append.
    destruct (decide (model_owned_by item = owner)) as [->|Hne].
    + rewrite lookup_insert_eq, fmap_cons.
      destruct (model_id <$> filter _ catalog) as [|i ids]; simpl.
      * done.
      * by rewrite <- app_assoc.
    + by rewrite lookup_insert_ne.
Qed.

Lemma build_models_by_owner_lookup catalog owner :
  build_models_by_owner (Some catalog) !! owner =
    match ids_of_owner owner catalog with
    | [] => None
    | ids => Some (Py.sorted ids)
    end.
Proof.
  unfold build_models_by_owner. rewrite lookup_fmap. simpl.
  rewrite (grouping_fold_lookup catalog ∅ owner). rewrite lookup_empty.
  by destruct (ids_of_owner owner catalog).
Qed.
End grouping.

Lemma sorted_Sorted l : Sorted String.le (Py.sorted l).
Proof. apply (Sorted_merge_sort String.le). Qed.

Lemma sorted_Permutation l : Py.sorted l ≡ₚ l.
Proof. apply (merge_sort_Permutation String.le). Qed.

(** Whatever way a list of strings is sorted, the result is this one. *)
Lemma sorted_unique l l' : Sorted String.le l' → l' ≡ₚ l → l' = Py.sorted l.
Proof.
  intros Hsorted Hperm. apply (Sorted_unique String.le).
  - done.
  - apply sorted_Sorted.
  - by rewrite sorted_Permutation.
Qed.

Lemma sorted_nil_inv l : Py.sorted l = [] → l = [].
Proof.
  intros Hs. apply Permutation_nil_r. rewrite <- Hs. symmetry.
  apply sorted_Permutation.
Qed.

(** C1, as the code has it: for every catalog, the id list that
    [build_models_by_owner] stores under an owner key is in ascending
    lexicographic order, is a rearrangement of the ids that the catalog
    lists under that owner (an id listed twice is kept twice), and is not
    empty. *)
Theorem build_models_by_owner_sorted (catalog : list model) (owner : string)
    (ids : list string) :
  build_models_by_owner (Some catalog) !! owner = Some ids →
  Sorted String.le ids ∧ ids ≡ₚ ids_of_owner owner catalog ∧ ids ≠ [].
Proof.
  rewrite build_models_by_owner_lookup.
  destruct (ids_of_owner owner catalog) as [|i l] eqn:Hids; [done|].
  intros [= <-]. split_and!.
  - apply sorted_Sorted.
  - apply sorted_Permutation.
  - intros Hnil%sorted_nil_inv. done.
Qed.

Lemma build_models_by_owner_sorted_witness :
  let catalog := [Model "b" "x"; Model "a" "x"; Model "q" "y"] in
  build_models_by_owner (Some catalog) !! "x" = Some ["a"; "b"] ∧
  (Sorted String.le ["a"; "b"] ∧ ["a"; "b"] ≡ₚ ids_of_owner "x" catalog
   ∧ ["a"; "b"] ≠ []).
Proof.
  split; [reflexivity|].
  apply (build_models_by_owner_sorted
           [Model "b" "x"; Model "a" "x"; Model "q" "y"] "x" ["a"; "b"]).
  reflexivity.
Defined.

(** C1 as stated fails: a catalog that lists the same id twice under one
    owner gives a list with the duplicate, which is not strictly
    ascending. *)
Lemma build_models_by_owner_keeps_duplicates :
  let catalog := [Model "a" "x"; Model "a" "x"] in
  build_models_by_owner (Some catalog) !! "x" = Some ["a"; "a"] ∧
  ¬ NoDup ["a"; "a"] ∧
  ¬ Sorted (strict String.le) ["a"; "a"].
Proof.
  split_and!.
  - reflexivity.
  - intros Hnd. apply NoDup_cons in Hnd as [Hin _]. apply Hin. left.
  - intros Hs. apply Sorted_inv in Hs as [_ Hhd].
    apply HdRel_inv in Hhd as [_ Hirr]. by apply Hirr.
Qed.

(** ** Frame renderer *)

Section slices.
Implicit Types (s text : string) (n m : nat).

Lemma substring_chars s n m :
  String.list_ascii_of_string (String.substring n m s) =
    take m (drop n (String.list_ascii_of_string s)).
Proof.
  revert n m. induction s as [|c s IH]; intros [|n] [|m]; simpl;
    try done; try apply IH.
  by rewrite IH.
Qed.

Lemma length_chars s : length (String.list_ascii_of_string s) = String.length s.
Proof. induction s; simpl; congruence. Qed.

Lemma slice_from_cut_left (i : Z) text :
  0 ≤ i → Py.slice_from i text = cut_left (Z.to_nat i) text.
Proof.
  intros Hi. unfold Py.slice_from, cut_left.
  destruct (Z.ltb_spec i 0) as [?|_]; [lia|].
  rewrite <- (String.string_of_list_ascii_of_string (String.substring _ _ _)).
  f_equal. rewrite substring_chars. apply take_ge.
  rewrite length_drop, length_chars. lia.
Qed.

Lemma slice_to_fit_width (i : Z) text :
  0 ≤ i → Py.slice_to i text = fit_width (Z.to_nat i) text.
Proof.
  intros Hi. unfold Py.slice_to, fit_width.
  destruct (Z.ltb_spec i 0) as [?|_]; [lia|].
  rewrite <- (String.string_of_list_ascii_of_string (String.substring _ _ _)).
  f_equal. by rewrite substring_chars.
Qed.
End slices.

(** The clipping of [addstr_safe], on the window it leaves when nothing is
    raised: a row outside [0, height) leaves the window as it was; a
    negative column cuts |col| characters off the left of the text and
    paints at column 0; a column at or beyond the width leaves the window
    as it was; otherwise the text handed to [addstr] is cut down to the
    remaining width. *)
Lemma addstr_safe_clips `{Window W} (stdscr : W) (y x : Z) (text : string)
    (attr height width : Z) :
  getmaxyx stdscr = (height, width) →
  (y < 0 ∨ height ≤ y → addstr_safe stdscr y x text attr = stdscr) ∧
  (x < 0 →
   addstr_safe stdscr y x text attr =
     addstr_safe stdscr y 0 (cut_left (Z.abs_nat x) text) attr) ∧
  (width ≤ x → addstr_safe stdscr y x text attr = stdscr) ∧
  (0 ≤ y < height → 0 ≤ x < width →
   addstr_safe stdscr y x text attr =
     (addstr stdscr y x (fit_width (Z.to_nat (width - x)) text) attr).1).
Proof.
  intros Hmax. unfold addstr_safe. rewrite Hmax. split_and!.
  - intros Hy.
    destruct (Z.ltb_spec y 0), (Z.leb_spec height y); simpl; done || lia.
  - intros Hx. destruct ((y <? 0) || (height <=? y)); [done|].
    destruct (Z.ltb_spec x 0) as [_|?]; [|lia]. simpl.
    rewrite slice_from_cut_left by lia.
    by replace (Z.to_nat (- x)) with (Z.abs_nat x) by lia.
  - intros Hx. destruct ((y <? 0) || (height <=? y)); [done|].
    destruct (Z.ltb_spec x 0) as [?|?].
    + destruct (Z.leb_spec width 0) as [_|?]; [done|lia].
    + destruct (Z.leb_spec width x) as [_|?]; [done|lia].
  - intros Hy Hx.
    destruct (Z.ltb_spec y 0) as [?|_]; [lia|].
    destruct (Z.leb_spec height y) as [?|_]; [lia|]. simpl.
    destruct (Z.ltb_spec x 0) as [?|_]; [lia|].
    destruct (Z.leb_spec width x) as [?|_]; [lia|].
    destruct (Z.leb_spec (width - x) 0) as [?|_]; [lia|].
    by rewrite slice_to_fit_width by lia.
Qed.

(** A text without NUL has none in any part of it. *)
Lemma has_nul_cut_left (n : nat) (text : string) :
  Binding.has_nul text = false → Binding.has_nul (cut_left n text) = false.
Proof.
  unfold Binding.has_nul, cut_left.
  rewrite String.list_ascii_of_string_of_list_ascii.
  rewrite <-!not_true_iff_false, !existsb_exists.
  intros Hnone (c & Hc%list_elem_of_In & Hzero). apply Hnone. exists c.
  split; [|done]. apply list_elem_of_In. by apply (subseteq_drop n).
Qed.

Lemma has_nul_fit_width (n : nat) (text : string) :
  Binding.has_nul text = false → Binding.has_nul (fit_width n text) = false.
Proof.
  unfold Binding.has_nul, fit_width.
  rewrite String.list_ascii_of_string_of_list_ascii.
  rewrite <-!not_true_iff_false, !existsb_exists.
  intros Hnone (c & Hc%list_elem_of_In & Hzero). apply Hnone. exists c.
  split; [|done]. apply list_elem_of_In. by apply (subseteq_take n).
Qed.

(** [addstr_safe] as the binding runs it: the clipping is that of
    [addstr_safe_clips], and inside the window the call raises
    [ValueError] exactly when the part of the text that is handed to
    [addstr] holds a NUL. *)
Lemma binding_addstr_safe_cases `{Window W} (stdscr : W) (y x : Z)
    (text : string) (attr height width : Z) :
  getmaxyx stdscr = (height, width) →
  (y < 0 ∨ height ≤ y → Binding.addstr_safe stdscr y x text attr = Ok stdscr) ∧
  (x < 0 →
   Binding.addstr_safe stdscr y x text attr =
     Binding.addstr_safe stdscr y 0 (cut_left (Z.abs_nat x) text) attr) ∧
  (width ≤ x → Binding.addstr_safe stdscr y x text attr = Ok stdscr) ∧
  (0 ≤ y < height → 0 ≤ x < width →
   Binding.addstr_safe stdscr y x text attr =
     if Binding.has_nul (fit_width (Z.to_nat (width - x)) text)
     then Raise ValueError
     else Ok (addstr stdscr y x (fit_width (Z.to_nat (width - x)) text) attr).1).
Proof.
  intros Hmax. unfold Binding.addstr_safe. rewrite Hmax. split_and!.
  - intros Hy.
    destruct (Z.ltb_spec y 0), (Z.leb_spec height y); simpl; done || lia.
  - intros Hx. destruct ((y <? 0) || (height <=? y)); [done|].
    destruct (Z.ltb_spec x 0) as [_|?]; [|lia]. simpl.
    rewrite slice_from_cut_left by lia.
    by replace (Z.to_nat (- x)) with (Z.abs_nat x) by lia.
  - intros Hx. destruct ((y <? 0) || (height <=? y)); [done|].
    destruct (Z.ltb_spec x 0) as [?|?].
    + destruct (Z.leb_spec width 0) as [_|?]; [done|lia].
    + destruct (Z.leb_spec width x) as [_|?]; [done|lia].
  - intros Hy Hx.
    destruct (Z.ltb_spec y 0) as [?|_]; [lia|].
    destruct (Z.leb_spec height y) as [?|_]; [lia|]. simpl.
    destruct (Z.ltb_spec x 0) as [?|_]; [lia|].
    destruct (Z.leb_spec width x) as [?|_]; [lia|].
    destruct (Z.leb_spec (width - x) 0) as [?|_]; [lia|].
    rewrite slice_to_fit_width by lia. unfold Binding.addstr.
    destruct (Binding.has_nul _); [done|]. simpl.
    by destruct (addstr stdscr y x _ attr).
Qed.

(** On a text without NUL the binding raises nothing, and the window is
    the one that [addstr_safe] gives. *)
Lemma addstr_safe_without_nul `{Window W} (stdscr : W) (y x : Z)
    (text : string) (attr : Z) :
  Binding.has_nul text = false →
  Binding.addstr_safe stdscr y x text attr =
    Ok (addstr_safe stdscr y x text attr).
Proof.
  intros Hnone. unfold Binding.addstr_safe, addstr_safe.
  destruct (getmaxyx stdscr) as [height width].
  destruct ((y <? 0) || (height <=? y)); [done|].
  assert (∀ (i : Z) text', Binding.has_nul text' = false → 0 ≤ i →
            Binding.has_nul (Py.slice_to i text') = false) as Hcut.
  { intros i text' Hnone' Hi. rewrite slice_to_fit_width by done.
    by apply has_nul_fit_width. }
  destruct (Z.ltb_spec x 0) as [Hx|Hx].
  - destruct (width <=? 0); [done|].
    destruct (Z.leb_spec (width - 0) 0) as [?|Ha]; [done|].
    assert (Binding.has_nul (Py.slice_from (- x) text) = false) as Hleft.
    { rewrite slice_from_cut_left by lia. by apply has_nul_cut_left. }
    unfold Binding.addstr. rewrite (Hcut _ _ Hleft) by lia.
    simpl. by destruct (addstr stdscr y 0 _ attr).
  - destruct (width <=? x); [done|].
    destruct (Z.leb_spec (width - x) 0) as [?|Ha]; [done|].
    unfold Binding.addstr. rewrite (Hcut _ _ Hnone) by lia.
    simpl. by destruct (addstr stdscr y x _ attr).
Qed.

(** C2 fails on the code.  The catalog server answers 500 with a body that
    holds a NUL; the refresh makes that body part of the status message,
    which [render_main] paints with [addstr_safe] (line 576); the call
    raises [ValueError], which is not the [curses.error] that
    [addstr_safe] absorbs.  The same holds for the text alone, at the first
    cell of an 80 by 24 window. *)
Theorem addstr_safe_nul_raises :
  let text := String "a" (String Ascii.zero "b") in
  let platform := fixed_platform (Response 500 text) None in
  let a := init [] (Some (JDict {[ "api_key" := JStr "secret" ]})) [] "pulse" in
  Binding.addstr_safe (Grid 24 80 ∅) 0 0 text 0 = Raise ValueError ∧
  ∃ a', @refresh_models platform a = Ok a' ∧
        status_message a' = "HTTP 500: " +:+ text ∧
        Binding.addstr_safe (Grid 24 80 ∅) 9 2 (status_message a') 0
          = Raise ValueError.
Proof.
  intros text platform a. split; [vm_compute; reflexivity|].
  eexists. split; [vm_compute; reflexivity|].
  split; vm_compute; reflexivity.
Qed.

(** ** Launch preconditions *)

Lemma truthy_present v : Py.truthy v = true ↔ present v.
Proof.
  unfold present. destruct v as [s|]; simpl.
  - rewrite negb_true_iff, String.eqb_neq. split.
    + intros Hs. by exists s.
    + by intros (s' & [= <-] & Hs).
  - split; [done|]. by intros (s & Hs & _).
Qed.

Lemma check_selections_some config keys :
  (∃ key, key ∈ keys ∧ (¬ present (entry_owned_by (get_entry config key))
                        ∨ ¬ present (entry_id (get_entry config key)))) →
  check_selections config keys =
    Some "OPUS, SONNET, and HAIKU selections are required.".
Proof.
  induction keys as [|k keys IH]; intros (key & Hin & Hlack).
  - by apply elem_of_nil in Hin.
  - simpl.
    destruct (Py.truthy (entry_owned_by (get_entry config k))) eqn:Ho;
      [|done].
    destruct (Py.truthy (entry_id (get_entry config k))) eqn:Hi; [|done].
    simpl. apply IH. exists key. split; [|done].
    apply elem_of_cons in Hin as [->|Hin]; [|done].
    rewrite truthy_present in Ho. rewrite truthy_present in Hi.
    destruct Hlack; contradiction.
Qed.

Lemma check_selections_none config keys :
  (∀ key, key ∈ keys → present (entry_owned_by (get_entry config key))
                       ∧ present (entry_id (get_entry config key))) →
  check_selections config keys = None.
Proof.
  induction keys as [|k keys IH]; intros Hall; [done|]. simpl.
  destruct (Hall k) as [Ho Hi]; [by left|].
  rewrite <- truthy_present in Ho. rewrite <- truthy_present in Hi.
  rewrite Ho, Hi. simpl. apply IH. intros key Hin. apply Hall. by right.
Qed.

(** C4, as the code has it: [validate_launch_requirements] returns its
    first reason when the base URL or the API key is empty after trimming,
    whatever the slots hold; otherwise it returns its second reason when
    one of the three slots lacks an owner or lacks an id (null or empty);
    otherwise it returns [None]. *)
Theorem validate_launch_requirements_cases (config : Config) :
  (Py.strip (base_url config) = "" ∨ Py.strip (api_key config) = "" →
   validate_launch_requirements config =
     Some "Base URL and API key are required.") ∧
  (Py.strip (base_url config) ≠ "" → Py.strip (api_key config) ≠ "" →
   (∃ key, key ∈ MODEL_KEYS
           ∧ (¬ present (entry_owned_by (get_entry config key))
              ∨ ¬ present (entry_id (get_entry config key)))) →
   validate_launch_requirements config =
     Some "OPUS, SONNET, and HAIKU selections are required.") ∧
  (Py.strip (base_url config) ≠ "" → Py.strip (api_key config) ≠ "" →
   (∀ key, key ∈ MODEL_KEYS →
           present (entry_owned_by (get_entry config key))
           ∧ present (entry_id (get_entry config key))) →
   validate_launch_requirements config = None).
Proof.
  unfold validate_launch_requirements. split_and!.
  - intros [Hb|Hk].
    + rewrite Hb. done.
    + rewrite Hk. simpl. by rewrite orb_true_r.
  - intros Hb%String.eqb_neq Hk%String.eqb_neq Hlack. rewrite Hb, Hk.
    cbn [orb]. by apply check_selections_some.
  - intros Hb%String.eqb_neq Hk%String.eqb_neq Hall. rewrite Hb, Hk.
    cbn [orb]. by apply check_selections_none.
Qed.

Lemma validate_launch_requirements_cases_witness :
  let resolved : gmap string entry :=
    <["haiku" := Entry (Some "acme") (Some "x3")]>
      (<["sonnet" := Entry (Some "acme") (Some "x2")]>
         (<["opus" := Entry (Some "acme") (Some "x1")]> ∅)) in
  validate_launch_requirements (MkConfig "http://host" "  " resolved ∅) =
    Some "Base URL and API key are required." ∧
  validate_launch_requirements (MkConfig "http://host" "key" ∅ ∅) =
    Some "OPUS, SONNET, and HAIKU selections are required." ∧
  validate_launch_requirements (MkConfig "http://host" "key" resolved ∅) = None.
Proof.
  intros resolved. split_and!.
  - destruct (validate_launch_requirements_cases
                (MkConfig "http://host" "  " resolved ∅)) as (Hcred & _).
    apply Hcred. right. reflexivity.
  - destruct (validate_launch_requirements_cases
                (MkConfig "http://host" "key" ∅ ∅)) as (_ & Hslot & _).
    apply Hslot; [done|done|]. exists "opus". split; [by left|].
    left. intros (s & Hs & _). discriminate Hs.
  - destruct (validate_launch_requirements_cases
                (MkConfig "http://host" "key" resolved ∅)) as (_ & _ & Hok).
    apply Hok; [done|done|]. intros key Hkey.
    unfold MODEL_KEYS in Hkey. rewrite !elem_of_cons in Hkey.
    destruct Hkey as [->|[->|[->|Hnil]]]; [| | |by apply elem_of_nil in Hnil];
      (split; eexists; (split; [reflexivity|done])).
Defined.

(** C4 as stated fails: with credentials set and every slot holding an
    owner, so that no slot lacks both an owner and an id, a slot without an
    id still blocks the launch. *)
Lemma validate_launch_requirements_owner_without_id :
  let config :=
    MkConfig "http://host" "key"
      (<["haiku" := Entry (Some "acme") (Some "x3")]>
         (<["sonnet" := Entry (Some "acme") (Some "x2")]>
            (<["opus" := Entry (Some "acme") None]> ∅))) ∅ in
  Py.strip (base_url config) ≠ "" ∧ Py.strip (api_key config) ≠ "" ∧
  (∀ key, key ∈ MODEL_KEYS →
          ¬ (entry_owned_by (get_entry config key) = None
             ∧ entry_id (get_entry config key) = None)) ∧
  validate_launch_requirements config =
    Some "OPUS, SONNET, and HAIKU selections are required.".
Proof.
  split_and!; [done|done| |reflexivity].
  intros key Hkey. unfold MODEL_KEYS in Hkey. rewrite !elem_of_cons in Hkey.
  destruct Hkey as [->|[->|[->|Hnil]]]; [| | |by apply elem_of_nil in Hnil];
    by intros [Ho _].
Qed.

(** ** Catalog refresh *)

Section validation.
Context (valid : gset (string * string)).

Lemma validate_models_step_config config changed key :
  (validate_models_step valid (config, changed) key).1 =
    if needs_reset valid (get_entry config key)
    then set_model key (Entry None None) config
    else config.
Proof.
  unfold validate_models_step, needs_reset.
  destruct (negb (Py.truthy _) || negb (Py.truthy _) || negb (pair_in _ _ _));
    destruct (bool_decide _ || bool_decide _); done.
Qed.

(** The loop touches the [models] of the configuration only, and a slot
    only at its own key. *)
Lemma validate_models_fold keys config changed :
  NoDup keys →
  let config' := (foldl (validate_models_step valid) (config, changed) keys).1 in
  base_url config' = base_url config ∧ api_key config' = api_key config
  ∧ toggles config' = toggles config
  ∧ ∀ key, models config' !! key =
             if bool_decide (key ∈ keys) && needs_reset valid (get_entry config key)
             then Some (Entry None None)
             else models config !! key.
Proof.
  revert config changed.
  induction keys as [|k keys IH]; intros config changed Hnd; cbn [foldl].
  - done.
  - apply NoDup_cons in Hnd as [Hk Hnd].
    destruct (validate_models_step valid (config, changed) k)
      as [config1 changed1] eqn:Hstep.
    assert (config1 = if needs_reset valid (get_entry config k)
                      then set_model k (Entry None None) config
                      else config) as Hconfig1.
    { by rewrite <- (validate_models_step_config config changed k), Hstep. }
    destruct (IH config1 changed1 Hnd) as (Hb & Ha & Ht & Hm).
    cbv zeta. rewrite Hb, Ha, Ht. split_and!.
    + rewrite Hconfig1. by destruct (needs_reset _ _).
    + rewrite Hconfig1. by destruct (needs_reset _ _).
    + rewrite Hconfig1. by destruct (needs_reset _ _).
    + intros key. rewrite Hm. destruct (decide (key = k)) as [->|Hne].
      * rewrite (bool_decide_eq_false_2 (k ∈ keys)) by done.
        rewrite (bool_decide_eq_true_2 (k ∈ k :: keys)) by left. simpl.
        rewrite Hconfig1. destruct (needs_reset valid (get_entry config k)).
        -- simpl. by rewrite lookup_insert_eq.
        -- done.
      * assert (get_entry config1 key = get_entry config key) as ->.
        { rewrite Hconfig1. unfold get_entry.
          destruct (needs_reset valid _); [|done].
          simpl. by rewrite lookup_insert_ne. }
        assert (models config1 !! key = models config !! key) as ->.
        { rewrite Hconfig1. destruct (needs_reset valid _); [|done].
          simpl. by rewrite lookup_insert_ne. }
        assert (bool_decide (key ∈ k :: keys) = bool_decide (key ∈ keys)) as ->.
        { apply bool_decide_ext. rewrite elem_of_cons. intuition. }
        done.
Qed.
End validation.

Lemma MODEL_KEYS_NoDup : NoDup MODEL_KEYS.
Proof. by apply (bool_decide_unpack _). Qed.

Lemma pair_in_listed (catalog : list model) (e : entry) :
  pair_in (list_to_set ((λ item, (model_owned_by item, model_id item)) <$> catalog))
          (entry_owned_by e) (entry_id e) = true →
  pair_listed catalog e.
Proof.
  unfold pair_in, pair_listed.
  destruct (entry_owned_by e) as [o|], (entry_id e) as [i|]; try done.
  intros Hin%bool_decide_eq_true_1. exists o, i. split_and!; [done..|].
  apply elem_of_list_to_set, list_elem_of_fmap in Hin as ([i' o'] & [= -> ->] & Hin).
  done.
Qed.

Lemma needs_reset_unlisted (catalog : list model) (e : entry) :
  ¬ pair_listed catalog e →
  entry_owned_by e ≠ None ∨ entry_id e ≠ None →
  needs_reset (list_to_set ((λ item, (model_owned_by item, model_id item)) <$> catalog)) e
    = true.
Proof.
  intros Hun Hheld. unfold needs_reset. apply andb_true_iff. split.
  - destruct (pair_in _ _ _) eqn:Hin.
    + by apply pair_in_listed in Hin.
    + by rewrite orb_true_r.
  - apply orb_true_iff. destruct Hheld; [left|right]; by apply bool_decide_eq_true_2.
Qed.

Lemma needs_reset_null valid (e : entry) :
  entry_owned_by e = None → entry_id e = None → needs_reset valid e = false.
Proof. intros Ho Hi. unfold needs_reset. rewrite Ho, Hi. done. Qed.

(** What a refresh does when the credentials are set and the catalog
    request succeeds. *)
Lemma refresh_models_ok `{Platform} (a : App) (catalog : list model) :
  Py.strip (base_url (config a)) ≠ "" →
  Py.strip (api_key (config a)) ≠ "" →
  fetch_models (Py.strip (base_url (config a))) (Py.strip (api_key (config a)))
    = Ok catalog →
  let validated :=
    (validate_models
       (set_api_key (Py.strip (api_key (config a)))
          (set_base_url (Py.strip (base_url (config a))) (config a)))
       catalog).1 in
  refresh_models a =
    Ok (set_status_message "Models refreshed."
          (update_models_by_owner
             (set_disk (save_config validated (disk a))
                (set_config validated
                   (set_models_data (Some catalog)
                      (set_status_message "" a)))))).
Proof.
  intros Hb%String.eqb_neq Hk%String.eqb_neq Hfetch validated.
  unfold refresh_models, fetch_and_store_models. simpl.
  rewrite Hb, Hk, Hfetch. simpl. subst validated.
  by destruct (validate_models _ catalog) as [validated changed].
Qed.

(** C3: after a successful catalog refresh, every slot whose (owner, id)
    pair is not in the new catalog and that held a non-null owner or id is
    reset to (null, null); a slot that already held (null, null) is left as
    it was; in particular a slot bound to ("acme", "x1") is reset when the
    new catalog lacks that pair, and the whole refresh writes the
    configuration exactly once. *)
Theorem refresh_models_reconciles `{Platform} (a : App) (catalog : list model) :
  Py.strip (base_url (config a)) ≠ "" →
  Py.strip (api_key (config a)) ≠ "" →
  fetch_models (Py.strip (base_url (config a))) (Py.strip (api_key (config a)))
    = Ok catalog →
  ∃ a', refresh_models a = Ok a' ∧
    (∀ key, key ∈ MODEL_KEYS →
       let e := get_entry (config a) key in
       (¬ pair_listed catalog e →
        entry_owned_by e ≠ None ∨ entry_id e ≠ None →
        models (config a') !! key = Some (Entry None None)) ∧
       (entry_owned_by e = None → entry_id e = None →
        models (config a') !! key = models (config a) !! key)) ∧
    (∀ key, key ∈ MODEL_KEYS →
       models (config a) !! key = Some (Entry (Some "acme") (Some "x1")) →
       Model "x1" "acme" ∉ catalog →
       models (config a') !! key = Some (Entry None None)) ∧
    disk a' = (disk a ++ [config a'])%list.
Proof.
  intros Hb Hk Hfetch. eexists. split; [by apply refresh_models_ok|].
  simpl. unfold validate_models.
  set (valid := list_to_set _).
  set (trimmed := set_api_key _ _).
  destruct (validate_models_fold valid MODEL_KEYS trimmed false MODEL_KEYS_NoDup)
    as (_ & _ & _ & Hm).
  assert (∀ key, key ∈ MODEL_KEYS → ¬ pair_listed catalog (get_entry (config a) key) →
            entry_owned_by (get_entry (config a) key) ≠ None
            ∨ entry_id (get_entry (config a) key) ≠ None →
            models (foldl (validate_models_step valid) (trimmed, false) MODEL_KEYS).1
              !! key = Some (Entry None None)) as Hreset.
  { intros key Hkey Hun Hheld. rewrite Hm.
    rewrite bool_decide_eq_true_2 by done.
    change (get_entry trimmed key) with (get_entry (config a) key).
    subst valid. by rewrite needs_reset_unlisted. }
  split_and!.
  - intros key Hkey. split; [by apply Hreset|].
    intros Ho Hi. rewrite Hm.
    change (get_entry trimmed key) with (get_entry (config a) key).
    rewrite needs_reset_null by done. by rewrite andb_false_r.
  - intros key Hkey Hbound Hun. apply Hreset; [done| |].
    + intros (o & i & Ho & Hi & Hin). unfold get_entry in Ho, Hi.
      rewrite Hbound in Ho, Hi. simpl in Ho, Hi. congruence.
    + left. unfold get_entry. by rewrite Hbound.
  - done.
Qed.

Lemma refresh_models_reconciles_witness :
  let platform :=
    fixed_platform (Response 200 "")
      (Some (JDict {[ "data" := JList [JDict {[ "id" := JStr "x2";
                                               "owned_by" := JStr "acme" ]}] ]})) in
  let a :=
    with_config (λ config, update_model_id config "opus" (Some "acme") (Some "x1"))
      (init [] (Some (JDict {[ "api_key" := JStr "secret" ]})) [] "pulse") in
  models (config a) !! "opus" = Some (Entry (Some "acme") (Some "x1")) ∧
  ∃ a', @refresh_models platform a = Ok a' ∧
        models (config a') !! "opus" = Some (Entry None None) ∧
        models (config a') !! "haiku" = models (config a) !! "haiku" ∧
        length (disk a') = S (length (disk a)).
Proof.
  intros platform a. split; [reflexivity|].
  destruct (@refresh_models_reconciles platform a [Model "x2" "acme"])
    as (a' & Hrun & Hslots & Hscenario & Hdisk); [done|done|reflexivity|].
  exists a'. split_and!.
  - exact Hrun.
  - apply Hscenario; [by left|reflexivity|].
    intros Hin%list_elem_of_singleton. discriminate Hin.
  - destruct (Hslots "haiku") as [_ Hnull]; [by do 2 right; left|].
    apply Hnull; reflexivity.
  - rewrite Hdisk, length_app. simpl. lia.
Defined.

(** ** A failing catalog request *)

(** Every message that [fetch_models] raises is non-empty. *)
Lemma fetch_models_message `{Platform} (base_url api_key message : string) :
  fetch_models base_url api_key = Raise (RuntimeError message) → message ≠ "".
Proof.
  unfold fetch_models.
  destruct (urlopen _ _) as [code fp|text|status body| |name]; try done.
  - by intros [= <-].
  - by intros [= <-].
  - destruct (negb (status =? 200)); [by intros [= <-]|].
    destruct (json_loads body) as [[| | | | | |payload]|]; try done.
    + destruct (payload !! "data") as [[]|]; try done; by intros [= <-].
    + by intros [= <-].
Qed.

(** The failures that [fetch_models] reports as a [RuntimeError] are
    handled as the specification says: the error text becomes the status
    message and nothing else changes: the configuration, the stored
    catalog, the owner index and the disk are as before, so that no save
    took place. *)
Lemma refresh_models_fetch_failure `{Platform} (a : App) (message : string) :
  Py.strip (base_url (config a)) ≠ "" →
  Py.strip (api_key (config a)) ≠ "" →
  fetch_models (Py.strip (base_url (config a))) (Py.strip (api_key (config a)))
    = Raise (RuntimeError message) →
  ∃ a', refresh_models a = Ok a' ∧
    a' = set_status_message message a ∧
    status_message a' = message ∧
    config a' = config a ∧
    models_data a' = models_data a ∧
    models_by_owner a' = models_by_owner a ∧
    disk a' = disk a.
Proof.
  intros Hb%String.eqb_neq Hk%String.eqb_neq Hfetch.
  exists (set_status_message message a). split; [|done].
  pose proof (fetch_models_message _ _ _ Hfetch) as Hmsg%String.eqb_neq.
  unfold refresh_models, fetch_and_store_models. simpl.
  rewrite Hb, Hk, Hfetch. simpl. by rewrite Hmsg.
Qed.

Lemma runtime_error_or_other (e : exn) :
  (∃ message, e = RuntimeError message) ∨ (∀ message, e ≠ RuntimeError message).
Proof. destruct e; [left; by eexists|by right..]. Qed.

(** Every other failure of the catalog request leaves the refresh as the
    exception it is: [fetch_and_store_models] catches [RuntimeError]
    only. *)
Lemma refresh_models_lets_through `{Platform} (a : App) (e : exn) :
  Py.strip (base_url (config a)) ≠ "" →
  Py.strip (api_key (config a)) ≠ "" →
  fetch_models (Py.strip (base_url (config a))) (Py.strip (api_key (config a)))
    = Raise e →
  (∀ message, e ≠ RuntimeError message) →
  refresh_models a = Raise e.
Proof.
  intros Hb%String.eqb_neq Hk%String.eqb_neq Hfetch Hother.
  unfold refresh_models, fetch_and_store_models. simpl.
  rewrite Hb, Hk, Hfetch. simpl.
  destruct e as [message| | | | | |]; [by destruct (Hother message)|done..].
Qed.

(** A payload that is valid JSON but not an object makes [fetch_models]
    raise at [payload.get]; that exception is not a [RuntimeError], and the
    refresh lets it through. *)
Remark refresh_models_uncaught `{Platform} (a : App) (body : string) (payload : json) :
  Py.strip (base_url (config a)) ≠ "" →
  Py.strip (api_key (config a)) ≠ "" →
  urlopen
    (Py.rstrip_char "/" (Py.strip (base_url (config a))) +:+ "/v1/models")
    ("Bearer " +:+ Py.strip (api_key (config a))) = Response 200 body →
  json_loads body = Some payload →
  (∀ d, payload ≠ JDict d) →
  refresh_models a = Raise AttributeError.
Proof.
  intros Hb%String.eqb_neq Hk%String.eqb_neq Hurl Hjson Hshape.
  unfold refresh_models, fetch_and_store_models, fetch_models. simpl.
  rewrite Hb, Hk. simpl. rewrite Hurl. simpl. rewrite Hjson.
  destruct payload; try done. by destruct (Hshape d).
Qed.

(** C7 fails on the code.  The catalog request fails in ways that
    [fetch_models] does not turn into a [RuntimeError], and the refresh
    then ends in the exception instead of a status message: a 200 response
    whose body is the JSON array [[]] raises [AttributeError] at
    [payload.get]; a base URL without a scheme raises [ValueError] where the
    request is built, before the [try]; a port that is not a number raises
    [InvalidURL], which is neither a [URLError] nor an [OSError]. *)
Theorem refresh_models_fetch_escapes :
  let a := init [] (Some (JDict {[ "api_key" := JStr "secret" ]})) [] "pulse" in
  let no_scheme := set_config (set_base_url "foo" (config a)) a in
  let bad_port :=
    set_config (set_base_url "http://127.0.0.1:8317x" (config a)) a in
  @refresh_models (fixed_platform (Response 200 "[]") (Some (JList []))) a
    = Raise AttributeError ∧
  @refresh_models (fixed_platform RequestValueError None) no_scheme
    = Raise ValueError ∧
  @refresh_models (fixed_platform (HTTPExceptionRaised "InvalidURL") None)
     bad_port
    = Raise (HTTPException "InvalidURL").
Proof.
  intros a no_scheme bad_port. split_and!; vm_compute; reflexivity.
Qed.

(** ** Cycling a selection *)

Section cycling.
Implicit Types (l : list string) (s : string) (current : option string).

Lemma index_Some l s i :
  Py.index l s = Some i → 0 ≤ i < Z.of_nat (length l) ∧ l !! Z.to_nat i = Some s.
Proof.
  revert i. induction l as [|x l IH]; intros i; simpl; [done|].
  destruct (String.eqb_spec x s) as [->|Hne].
  - intros [= <-]. split; [lia|done].
  - destruct (Py.index l s) as [j|]; [|done]. intros [= <-].
    destruct (IH j eq_refl) as [Hj Hl]. split; [lia|].
    replace (Z.to_nat (j + 1)) with (S (Z.to_nat j)) by lia. done.
Qed.

Lemma index_is_Some l s : s ∈ l ↔ is_Some (Py.index l s).
Proof.
  induction l as [|x l IH]; simpl.
  - split; [by intros ?%elem_of_nil|by intros [? ?]].
  - rewrite elem_of_cons, IH. destruct (String.eqb_spec x s) as [->|Hne].
    + split; [by eexists|by left].
    + rewrite fmap_is_Some. intuition congruence.
Qed.



(** An index reduced modulo the length is always in range. *)
Lemma getitem_mod {A} (xs : list A) (i : Z) :
  xs ≠ [] →
  ∃ x, xs !! Z.to_nat (i `mod` Z.of_nat (length xs)) = Some x
       ∧ getitem xs (i `mod` Z.of_nat (length xs)) = Ok x.
Proof.
  intros Hne. assert (0 < Z.of_nat (length xs)) as Hlen.
  { destruct xs; [done|simpl; lia]. }
  pose proof (Z.mod_pos_bound i _ Hlen) as Hi.
  destruct (lookup_lt_is_Some_2 xs (Z.to_nat (i `mod` Z.of_nat (length xs))))
    as [x Hx]; [lia|].
  exists x. split; [done|]. unfold getitem. cbv zeta.
  rewrite (proj2 (Z.ltb_ge (i `mod` Z.of_nat (length xs)) 0)) by lia.
  rewrite (proj2 (Z.leb_gt _ _)) by lia.
  rewrite (proj2 (Z.ltb_ge (i `mod` Z.of_nat (length xs)) 0)) by lia.
  cbn [orb]. by rewrite Hx.
Qed.



End cycling.



(** The scenario of the specification: with owners "anthropic" and
    "openai" and the first slot on "anthropic", the forward key sets the
    owner to "openai", and pressed again wraps to "anthropic". *)
Example forward_key_cycles_owners `{Platform} :
  let a :=
    set_models_by_owner
      (<["openai" := ["gpt"]]> (<["anthropic" := ["claude"]]> ∅))
      (with_config (λ config, update_model_owner config "opus" (Some "anthropic"))
         (init [] None [] "pulse")) in
  match handle_main_key 93 a with
  | Ok a1 =>
      entry_owned_by (get_entry (config a1) "opus") = Some "openai" ∧
      match handle_main_key 93 a1 with
      | Ok a2 => entry_owned_by (get_entry (config a2) "opus") = Some "anthropic"
      | Raise _ => False
      end
  | Raise _ => False
  end.
Proof. vm_compute. done. Qed.

(** C6: on an empty list [advance] returns the value it was given, and
    [cycle_main_option] returns with the application exactly as it was:
    nothing is stored, nothing is saved, no message is set and nothing is
    raised. *)
Theorem cycle_main_option_empty (a : App) (direction : Z) (key : string) :
  getitem MODEL_KEYS (main_focus_row a) = Ok key →
  (∀ v, advance [] v direction = v) ∧
  (main_focus_field a = 0 →
   owner_options (models_by_owner a) = [] →
   cycle_main_option direction a = Ok a) ∧
  (main_focus_field a ≠ 0 →
   (∀ owner, entry_owned_by (get_entry (config a) key) = Some owner →
             model_options (models_by_owner a) owner = []) →
   cycle_main_option direction a = Ok a).
Proof.
  intros Hkey. split_and!.
  - done.
  - intros Hfield Hempty. unfold cycle_main_option. rewrite Hkey. simpl.
    rewrite Hfield. simpl. by rewrite Hempty.
  - intros Hfield Hempty. unfold cycle_main_option. rewrite Hkey. simpl.
    rewrite (proj2 (Z.eqb_neq _ _) Hfield).
    destruct (entry_owned_by (get_entry (config a) key)) as [owner|]; [|done].
    simpl. destruct (negb (owner =? "")%string); [|done]. simpl.
    by rewrite (Hempty owner eq_refl).
Qed.

Lemma cycle_main_option_empty_witness :
  let a := init [] None [] "pulse" in
  let b :=
    set_main_focus_field 1
      (with_config (λ config, update_model_owner config "opus" (Some "acme")) a) in
  advance [] (Some "acme") 1 = Some "acme" ∧
  cycle_main_option 1 a = Ok a ∧
  cycle_main_option (-1) b = Ok b.
Proof.
  intros a b.
  assert (getitem MODEL_KEYS (main_focus_row a) = Ok "opus") as Ha
    by (vm_compute; reflexivity).
  assert (getitem MODEL_KEYS (main_focus_row b) = Ok "opus") as Hb
    by (vm_compute; reflexivity).
  assert (owner_options (models_by_owner a) = []) as Hno_owner
    by (vm_compute; reflexivity).
  assert (∀ owner, entry_owned_by (get_entry (config b) "opus") = Some owner →
                   model_options (models_by_owner b) owner = []) as Hno_id
    by (intros owner _; vm_compute; reflexivity).
  assert (main_focus_field b ≠ 0) as Hfield by (vm_compute; done).
  destruct (cycle_main_option_empty a 1 "opus" Ha) as (Hadv & Howner & _).
  destruct (cycle_main_option_empty b (-1) "opus" Hb) as (_ & _ & Hid).
  split_and!.
  - exact (Hadv (Some "acme")).
  - exact (Howner eq_refl Hno_owner).
  - exact (Hid Hfield Hno_id).
Defined.

(** C10: [update_model_owner] leaves the slot's id null for every slot and
    every owner value, the stored one included, and so does cycling the
    owner of the focused slot whenever there is an owner to move to. *)
Theorem owner_change_resets_id :
  (∀ (config : Config) (key : string) (owner : option string)
     (disk : list Config),
     entry_id (get_entry (update_model_owner config key owner disk).1 key) = None) ∧
  (∀ (a : App) (direction : Z) (key : string),
     getitem MODEL_KEYS (main_focus_row a) = Ok key →
     main_focus_field a = 0 →
     owner_options (models_by_owner a) ≠ [] →
     ∃ a', cycle_main_option direction a = Ok a' ∧
           entry_id (get_entry (config a') key) = None).
Proof.
  split.
  - intros config key owner disk. unfold update_model_owner, get_entry. simpl.
    by rewrite lookup_insert_eq.
  - intros a direction key Hkey Hfield Hne.
    unfold cycle_main_option. rewrite Hkey. simpl. rewrite Hfield. simpl.
    rewrite bool_decide_eq_false_2 by done.
    match goal with
    | |- context [getitem ?l (?i `mod` _)] =>
        destruct (getitem_mod l i Hne) as (x & _ & ->)
    end.
    simpl. eexists. split; [done|].
    unfold with_config, update_model_owner, get_entry. simpl.
    by rewrite lookup_insert_eq.
Qed.

Lemma owner_change_resets_id_witness :
  let a :=
    set_models_by_owner (<["acme" := ["x1"; "x2"]]> ∅)
      (with_config (λ config, update_model_id config "opus" (Some "acme") (Some "x1"))
         (init [] None [] "pulse")) in
  entry_id (get_entry (config a) "opus") = Some "x1" ∧
  entry_id (get_entry (update_model_owner (config a) "opus" (Some "acme") []).1
              "opus") = None ∧
  ∃ a', cycle_main_option 1 a = Ok a' ∧
        entry_id (get_entry (config a') "opus") = None.
Proof.
  intros a. split; [vm_compute; reflexivity|].
  assert (getitem MODEL_KEYS (main_focus_row a) = Ok "opus") as Hkey
    by (vm_compute; reflexivity).
  assert (owner_options (models_by_owner a) ≠ []) as Hne by (vm_compute; done).
  destruct owner_change_resets_id as [Hupdate Hcycle].
  split.
  - exact (Hupdate (config a) "opus" (Some "acme") []).
  - exact (Hcycle a 1 "opus" Hkey eq_refl Hne).
Defined.

(** ** The environment of the launched program *)

Lemma toggles_ok_default : toggles_ok DEFAULT_TOGGLES.
Proof.
  intros key. unfold TOGGLE_KEYS, DEFAULT_TOGGLES. split.
  - rewrite !elem_of_cons. intros [->|[->|[->|Hnil]]];
      [left|right|right|by apply elem_of_nil in Hnil]; reflexivity.
  - rewrite !not_elem_of_cons. intros (H1 & H2 & H3 & _).
    by rewrite !lookup_insert_ne, lookup_empty by done.
Qed.

Lemma toggles_ok_insert (t : gmap string Z) (key : string) (v : Z) :
  toggles_ok t → key ∈ TOGGLE_KEYS → v = 0 ∨ v = 1 → toggles_ok (<[key := v]> t).
Proof.
  intros Hok Hkey Hv k. destruct (decide (key = k)) as [<-|Hne].
  - rewrite lookup_insert_eq. split; [|done]. intros _.
    destruct Hv as [-> | ->]; auto.
  - rewrite lookup_insert_ne by done. apply Hok.
Qed.

Lemma load_config_models_toggles (models : gmap string json) keys config :
  toggles
    (foldl (λ config key,
              match models !! key with
              | Some (JDict entry) =>
                  set_model key
                    (Entry (str_or_none (entry !! "owned_by"))
                           (str_or_none (entry !! "id")))
                    config
              | _ => config
              end)
           config keys) = toggles config.
Proof.
  revert config. induction keys as [|key keys IH]; intros config; [done|].
  cbn [foldl]. rewrite IH. by destruct (models !! key) as [[]|].
Qed.

Lemma load_config_toggles_fold (data : gmap string json) keys config :
  Forall (λ key, key ∈ TOGGLE_KEYS) keys →
  toggles_ok (toggles config) →
  toggles_ok
    (toggles
       (foldl (λ config key,
                 match data !! key with
                 | Some (JBool value) =>
                     set_toggle key (if value then 1 else 0) config
                 | Some (JInt value) =>
                     if (value =? 0) || (value =? 1)
                     then set_toggle key value config
                     else config
                 | _ => config
                 end)
              config keys)).
Proof.
  intros Hkeys. revert config.
  induction Hkeys as [|key keys Hkey _ IH]; intros config Hok; [done|].
  cbn [foldl]. apply IH. destruct (data !! key) as [[|b|n| | | |]|]; try done.
  - simpl. apply toggles_ok_insert; [done..|]. destruct b; auto.
  - destruct (Z.eqb_spec n 0) as [->|?]; simpl.
    + by apply toggles_ok_insert; auto.
    + destruct (Z.eqb_spec n 1) as [->|?]; [|done].
      by apply toggles_ok_insert; auto.
Qed.

Lemma load_config_toggles_ok (file : option json) :
  toggles_ok (toggles (load_config file)).
Proof.
  unfold load_config.
  destruct file as [[| | | | | |data]|]; try apply toggles_ok_default.
  set (c1 := match data !! "base_url" with
             | Some (JStr _) => _ | _ => _ end).
  set (c2 := match data !! "api_key" with
             | Some (JStr _) => _ | _ => _ end).
  set (c3 := match data !! "models" with
             | Some (JDict _) => _ | _ => _ end).
  assert (toggles c3 = DEFAULT_TOGGLES) as Hc3.
  { assert (toggles c1 = DEFAULT_TOGGLES) as Hc1.
    { subst c1. by destruct (data !! "base_url") as [[]|]. }
    assert (toggles c2 = DEFAULT_TOGGLES) as Hc2.
    { subst c2. by destruct (data !! "api_key") as [[]|]. }
    subst c3. destruct (data !! "models") as [[| | | | | |models]|]; try done.
    by rewrite load_config_models_toggles. }
  destruct (data !! "toggles") as [[| | | | | |toggles]|];
    try (rewrite Hc3; apply toggles_ok_default).
  apply load_config_toggles_fold.
  - by apply (bool_decide_unpack _).
  - rewrite Hc3. apply toggles_ok_default.
Qed.

Lemma flip_toggle_ok field config disk :
  field ∈ TOGGLE_KEYS →
  toggles_ok (toggles config) →
  toggles_ok (toggles (flip_toggle field config disk).1).
Proof.
  intros Hfield Hok. unfold flip_toggle. simpl.
  apply toggles_ok_insert; [done..|].
  destruct (default 0 (toggles config !! field) =? 0); auto.
Qed.

Lemma flip_toggles_ok fields config disk :
  Forall (λ field, field ∈ TOGGLE_KEYS) fields →
  toggles_ok (toggles config) →
  toggles_ok (toggles (flip_toggles fields config disk).1).
Proof.
  intros Hfields. revert config disk. unfold flip_toggles.
  induction Hfields as [|field fields Hfield _ IH]; intros config disk Hok;
    [done|].
  cbn [foldl].
  destruct (flip_toggle field config disk) as [config1 disk1] eqn:Hflip.
  apply IH. change config1 with (config1, disk1).1. rewrite <- Hflip.
  by apply flip_toggle_ok.
Qed.

(** The loop over the toggles writes each of them and nothing else. *)
Lemma toggles_loop_lookup (t : gmap string Z) (env : gmap string string) key :
  map_fold (λ key value env, <[key := Py.str value]> env) env t !! key =
    match t !! key with
    | Some value => Some (Py.str value)
    | None => env !! key
    end.
Proof.
  revert key.
  apply (map_fold_weak_ind
           (λ r m, ∀ key, r !! key = match m !! key with
                                     | Some value => Some (Py.str value)
                                     | None => env !! key
                                     end)).
  - intros key. by rewrite lookup_empty.
  - intros i x m r Hi IH key. destruct (decide (i = key)) as [->|Hne].
    + by rewrite !lookup_insert_eq.
    + rewrite !lookup_insert_ne by done. apply IH.
Qed.

Section model_variables.
Context (config : Config).
Implicit Types (env : gmap string string) (keys : list string).

(** The loop of [build_env] over the slots leaves every other variable
    as it was. *)
Lemma models_loop_other env keys name :
  name ∉ model_variable <$> keys →
  foldl (λ env key,
           let model_id := entry_id (get_entry config key) in
           if Py.truthy model_id
           then <[model_variable key := default "" model_id]> env
           else env)
        env keys !! name = env !! name.
Proof.
  revert env. induction keys as [|key keys IH]; intros env Hname; [done|].
  rewrite fmap_cons, not_elem_of_cons in Hname. destruct Hname as [Hne Hname].
  cbn [foldl]. rewrite IH by done. cbv zeta.
  destruct (Py.truthy _); [|done]. by rewrite lookup_insert_ne.
Qed.

Lemma models_loop_own env keys key :
  NoDup (model_variable <$> keys) → key ∈ keys →
  foldl (λ env key,
           let model_id := entry_id (get_entry config key) in
           if Py.truthy model_id
           then <[model_variable key := default "" model_id]> env
           else env)
        env keys !! model_variable key =
    if Py.truthy (entry_id (get_entry config key))
    then Some (default "" (entry_id (get_entry config key)))
    else env !! model_variable key.
Proof.
  revert env. induction keys as [|k keys IH]; intros env Hnd Hkey.
  - by apply elem_of_nil in Hkey.
  - rewrite fmap_cons in Hnd. apply NoDup_cons in Hnd as [Hk Hnd].
    cbn [foldl]. cbv zeta.
    destruct (decide (model_variable key = model_variable k)) as [Heq|Hne].
    + assert (key = k) as ->.
      { apply elem_of_cons in Hkey as [?|Hkey]; [done|].
        destruct Hk. rewrite <- Heq. by apply list_elem_of_fmap_2. }
      rewrite models_loop_other by done.
      destruct (Py.truthy _); [|done]. by rewrite lookup_insert_eq.
    + apply elem_of_cons in Hkey as [->|Hkey]; [done|].
      rewrite IH by done.
      destruct (Py.truthy (entry_id (get_entry config key))); [done|].
      destruct (Py.truthy (entry_id (get_entry config k))); [|done].
      by rewrite lookup_insert_ne.
Qed.
End model_variables.

(** What [build_env] holds for a configuration whose toggles are the three
    known ones with values 0 or 1. *)
Lemma build_env_lookup (environ : gmap string string) (config : Config)
    (masked : bool) :
  toggles_ok (toggles config) →
  (∀ t, t ∈ TOGGLE_KEYS →
     (toggles config !! t = Some 0
      ∧ build_env environ config masked !! t = Some "0")
     ∨ (toggles config !! t = Some 1
        ∧ build_env environ config masked !! t = Some "1")) ∧
  build_env environ config masked !! "ANTHROPIC_BASE_URL" =
    Some (base_url config) ∧
  build_env environ config masked !! "ANTHROPIC_AUTH_TOKEN" =
    Some (if masked then mask_secret (api_key config) else api_key config) ∧
  (∀ key, key ∈ MODEL_KEYS →
     build_env environ config masked !! model_variable key =
       match entry_id (get_entry config key) with
       | Some model_id =>
           if String.eqb model_id "" then environ !! model_variable key
           else Some model_id
       | None => environ !! model_variable key
       end).
Proof.
  intros Hok. unfold build_env. cbv zeta. split_and!.
  - intros t Ht. rewrite toggles_loop_lookup.
    destruct (Hok t) as [[H0|H1] _]; [done|left|right]; by rewrite ?H0, ?H1.
  - rewrite toggles_loop_lookup.
    assert ("ANTHROPIC_BASE_URL" ∉ TOGGLE_KEYS) as Htoggle by by_evaluation.
    assert ("ANTHROPIC_BASE_URL" ∉ model_variable <$> MODEL_KEYS) as Hslot
      by by_evaluation.
    rewrite (proj2 (Hok _) Htoggle), (models_loop_other config _ _ _ Hslot).
    by rewrite lookup_insert_ne, lookup_insert_eq.
  - rewrite toggles_loop_lookup.
    assert ("ANTHROPIC_AUTH_TOKEN" ∉ TOGGLE_KEYS) as Htoggle by by_evaluation.
    assert ("ANTHROPIC_AUTH_TOKEN" ∉ model_variable <$> MODEL_KEYS) as Hslot
      by by_evaluation.
    rewrite (proj2 (Hok _) Htoggle), (models_loop_other config _ _ _ Hslot).
    by rewrite lookup_insert_eq.
  - intros key Hkey. rewrite toggles_loop_lookup.
    assert (NoDup (model_variable <$> MODEL_KEYS)) as Hnd by by_evaluation.
    assert ((model_variable key ∉ TOGGLE_KEYS)
            ∧ model_variable key ≠ "ANTHROPIC_BASE_URL"
            ∧ model_variable key ≠ "ANTHROPIC_AUTH_TOKEN") as (Ht & Hb & Ha).
    { unfold MODEL_KEYS in Hkey. rewrite !elem_of_cons in Hkey.
      destruct Hkey as [->|[->|[->|Hnil]]]; [| | |by apply elem_of_nil in Hnil];
        (split_and!; [by_evaluation|done|done]). }
    rewrite (proj2 (Hok _) Ht), (models_loop_own config _ _ _ Hnd Hkey).
    rewrite !lookup_insert_ne by done.
    destruct (entry_id (get_entry config key)) as [s|]; simpl; [|done].
    by destruct (String.eqb s "").
Qed.

(** C8, as the code has it: for every configuration that [load_config]
    produces, after any sequence of toggle flips, the environment built for
    the external program holds each of the three toggles with the value "0"
    or "1", the base URL and the token under their fixed names, and for
    every slot its model-override variable set to the slot's id exactly
    when that id is neither null nor empty; for a null or empty id the
    variable is not assigned and is what the inherited environment has. *)
Theorem build_env_projection (file : option json) (fields : list string)
    (disk : list Config) (environ : gmap string string) (masked : bool) :
  Forall (λ field, field ∈ TOGGLE_KEYS) fields →
  let config := (flip_toggles fields (load_config file) disk).1 in
  let env := build_env environ config masked in
  (∀ t, t ∈ TOGGLE_KEYS →
     (toggles config !! t = Some 0 ∧ env !! t = Some "0")
     ∨ (toggles config !! t = Some 1 ∧ env !! t = Some "1")) ∧
  env !! "ANTHROPIC_BASE_URL" = Some (base_url config) ∧
  env !! "ANTHROPIC_AUTH_TOKEN" =
    Some (if masked then mask_secret (api_key config) else api_key config) ∧
  (∀ key, key ∈ MODEL_KEYS →
     env !! model_variable key =
       match entry_id (get_entry config key) with
       | Some model_id =>
           if String.eqb model_id "" then environ !! model_variable key
           else Some model_id
       | None => environ !! model_variable key
       end).
Proof.
  intros Hfields config env. apply build_env_lookup.
  apply flip_toggles_ok; [done|]. apply load_config_toggles_ok.
Qed.

Lemma build_env_projection_witness :
  let file :=
    Some (JDict {[ "api_key" := JStr "secret";
                   "toggles" := JDict {[ "DISABLE_COST_WARNINGS" := JBool false ]};
                   "models" := JDict {[ "opus" := JDict {[ "owned_by" := JStr "acme";
                                                         "id" := JStr "x1" ]} ]} ]}) in
  let fields := ["CLAUDE_CODE_ENABLE_TELEMETRY"; "DISABLE_COST_WARNINGS";
                 "CLAUDE_CODE_ENABLE_TELEMETRY"] in
  let env := build_env ∅ (flip_toggles fields (load_config file) []).1 false in
  env !! "ANTHROPIC_BASE_URL" = Some "http://127.0.0.1:8317" ∧
  env !! "ANTHROPIC_AUTH_TOKEN" = Some "secret" ∧
  env !! "ANTHROPIC_DEFAULT_OPUS_MODEL" = Some "x1" ∧
  env !! "ANTHROPIC_DEFAULT_HAIKU_MODEL" = None ∧
  env !! "DISABLE_COST_WARNINGS" = Some "1".
Proof.
  intros file fields env.
  assert (Forall (λ field, field ∈ TOGGLE_KEYS) fields) as Hfields
    by by_evaluation.
  destruct (build_env_projection file fields [] ∅ false Hfields)
    as (Htoggles & Hbase & Htoken & Hslots).
  split_and!.
  - exact Hbase.
  - exact Htoken.
  - exact (Hslots "opus" ltac:(by_evaluation)).
  - exact (Hslots "haiku" ltac:(by_evaluation)).
  - vm_compute. reflexivity.
Defined.

(** C8 as stated fails: a configuration file may give a slot the empty
    string as its id; the id is then not null, and the environment has no
    model-override variable for the slot. *)
Lemma build_env_empty_id_unset :
  let file :=
    Some (JDict {[ "models" := JDict {[ "opus" := JDict {[ "owned_by" := JStr "acme";
                                                         "id" := JStr "" ]} ]} ]}) in
  let config := (flip_toggles [] (load_config file) []).1 in
  entry_id (get_entry config "opus") = Some "" ∧
  entry_id (get_entry config "opus") ≠ None ∧
  build_env ∅ config false !! model_variable "opus" = None.
Proof. vm_compute. done. Qed.

(** ** The Pulse animation *)

Section pulse.
Context `{Window W} (a : App) (start_y base_x : Z).

Lemma pulse_inner_loop (row : Z) (cells : list (Z * Ascii.ascii)) (stdscr : W) :
  foldl (λ stdscr '(col, ch),
           if Ascii.eqb ch " " then stdscr
           else addstr_safe stdscr (start_y + row) (base_x + col)
                  (String ch "") (pulse_attr a row col))
        stdscr cells =
  foldl (paint_glyph a start_y base_x) stdscr
    ('(col, ch) ← cells; if Ascii.eqb ch " " then [] else [(row, col, ch)]).
Proof.
  revert stdscr. induction cells as [|[col ch] cells IH]; intros stdscr; [done|].
  cbn [foldl]. rewrite IH, bind_cons, foldl_app.
  by destruct (Ascii.eqb ch " ").
Qed.

Lemma pulse_outer_loop (rows : list (Z * string)) (stdscr : W) :
  foldl (λ stdscr '(row, line),
           foldl (λ stdscr '(col, ch),
                    if Ascii.eqb ch " " then stdscr
                    else addstr_safe stdscr (start_y + row) (base_x + col)
                           (String ch "") (pulse_attr a row col))
                 stdscr (enumerate (String.list_ascii_of_string line)))
        stdscr rows =
  foldl (paint_glyph a start_y base_x) stdscr
    ('(row, line) ← rows;
     '(col, ch) ← enumerate (String.list_ascii_of_string line);
     if Ascii.eqb ch " " then [] else [(row, col, ch)]).
Proof.
  revert stdscr. induction rows as [|[row line] rows IH]; intros stdscr; [done|].
  cbn [foldl]. by rewrite IH, bind_cons, foldl_app, pulse_inner_loop.
Qed.
End pulse.

Lemma color_pair_not_bold (n : Z) : Curses.bold (Curses.color_pair n) = false.
Proof.
  unfold Curses.bold, Curses.color_pair. rewrite Z.land_spec.
  by rewrite andb_false_r.
Qed.

Lemma pulse_attr_color (a : App) (row col : Z) :
  use_color a = true → color_pairs a ≠ [] →
  ∃ pair_id,
    color_pairs a
      !! Z.to_nat ((col + row + frame a `div` 3)
                   `mod` Z.of_nat (length (color_pairs a))) = Some pair_id ∧
    pulse_attr a row col =
      Z.lor (Curses.color_pair pair_id)
        (if bool_decide ((frame a + col + row) `mod` 20 < 10)
         then Curses.A_BOLD else 0).
Proof.
  intros Hcolor Hpairs. unfold pulse_attr.
  rewrite Hcolor, bool_decide_eq_false_2 by done. cbn [negb andb].
  destruct (getitem_mod (color_pairs a) (col + row + frame a `div` 3) Hpairs)
    as (pair_id & Hpair & _).
  exists pair_id. split; [done|]. rewrite Hpair. cbn [default].
  destruct (Z.ltb_spec ((frame a + col + row) `mod` 20) 10).
  - by rewrite bool_decide_eq_true_2.
  - rewrite bool_decide_eq_false_2 by lia. by rewrite Z.lor_0_r.
Qed.

(** C9, as the code has it: under the Pulse style every non-space glyph
    is painted once, at its own row and column from the anchor, with no
    positional offset.  When colour is in use and the palette is not empty,
    its colour is the palette entry of index
    [(col + row + frame // 3) mod palette_size] and it is bold exactly when
    [(frame + col + row) mod 20 < 10]; when colour is not in use or the
    palette is empty it has no attribute at all, and is never bold. *)
Theorem render_style_pulse_cells `{Window W} (a : App) :
  (∀ (stdscr : W) (start_y height width max_len : Z),
     getmaxyx stdscr = (height, width) →
     py_max (Py.len <$> logo_lines a) = Ok max_len →
     render_style_pulse a stdscr start_y =
       Ok (foldl (paint_glyph a start_y (Z.max 0 ((width - max_len) `div` 2)))
                 stdscr (glyphs (logo_lines a)))) ∧
  (∀ row col : Z,
     use_color a = true → color_pairs a ≠ [] →
     ∃ pair_id,
       color_pairs a
         !! Z.to_nat ((col + row + frame a `div` 3)
                      `mod` Z.of_nat (length (color_pairs a))) = Some pair_id ∧
       pulse_attr a row col =
         Z.lor (Curses.color_pair pair_id)
           (if bool_decide ((frame a + col + row) `mod` 20 < 10)
            then Curses.A_BOLD else 0) ∧
       (Curses.bold (pulse_attr a row col) = true
        ↔ (frame a + col + row) `mod` 20 < 10)) ∧
  (∀ row col : Z,
     use_color a = false ∨ color_pairs a = [] →
     pulse_attr a row col = 0 ∧ Curses.bold (pulse_attr a row col) = false).
Proof.
  split_and!.
  - intros stdscr start_y height width max_len Hmax Hlen.
    unfold render_style_pulse. rewrite Hmax, Hlen. simpl. f_equal.
    apply pulse_outer_loop.
  - intros row col Hcolor Hpairs.
    destruct (pulse_attr_color a row col Hcolor Hpairs) as (pair_id & Hpair & Hattr).
    exists pair_id. split_and!; [done..|].
    rewrite Hattr. unfold Curses.bold. rewrite Z.lor_spec.
    fold (Curses.bold (Curses.color_pair pair_id)).
    rewrite color_pair_not_bold. cbn [orb]. case_bool_decide; split; done.
  - intros row col Hplain.
    assert (pulse_attr a row col = 0) as ->; [|done]. unfold pulse_attr.
    destruct Hplain as [-> | ->]; [done|]. by rewrite andb_false_r.
Qed.

Lemma render_style_pulse_cells_witness :
  let plain := init [] None (default [] (LOGOS !! 0%nat)) "pulse" in
  let a := init_colors true true 5 plain in
  render_style_pulse a (Grid 24 80 ∅) 1 =
    Ok (foldl (paint_glyph a 1 (Z.max 0 ((80 - 39) `div` 2)))
              (Grid 24 80 ∅) (glyphs (logo_lines a))) ∧
  (Curses.bold (pulse_attr a 0 1) = true ↔ (frame a + 1 + 0) `mod` 20 < 10) ∧
  pulse_attr plain 0 1 = 0.
Proof.
  intros plain a.
  destruct (render_style_pulse_cells (W := grid) a) as (Hcells & Hcolor & _).
  destruct (render_style_pulse_cells (W := grid) plain) as (_ & _ & Hplain).
  assert (use_color a = true) as Hon by (vm_compute; reflexivity).
  assert (color_pairs a ≠ []) as Hpairs by (vm_compute; done).
  split_and!.
  - apply (Hcells (Grid 24 80 ∅) 1 24 80 39); vm_compute; reflexivity.
  - destruct (Hcolor 0 1 Hon Hpairs) as (pair_id & _ & _ & Hbold). exact Hbold.
  - exact (proj1 (Hplain 0 1 (or_introl eq_refl))).
Defined.

(** C9 as stated fails: without colour the first glyph of the banner is
    not bold at frame 0, although (frame + col + row) mod 20 < 10. *)
Lemma render_style_pulse_plain_not_bold :
  let a := init [] None (default [] (LOGOS !! 0%nat)) "pulse" in
  (0, 1, "#"%char) ∈ glyphs (logo_lines a) ∧
  (frame a + 1 + 0) `mod` 20 < 10 ∧
  Curses.bold (pulse_attr a 0 1) = false ∧
  match render_style_pulse a (Grid 24 80 ∅) 1 with
  | Ok stdscr => grid_cells stdscr !! (1, 21) = Some ("#"%char, 0)
  | Raise _ => False
  end.
Proof.
  split_and!.
  - apply list_elem_of_In. vm_compute. tauto.
  - vm_compute. reflexivity.
  - vm_compute. reflexivity.
  - vm_compute. reflexivity.
Qed.

(** ** The focus stays on a slot *)

Lemma getitem_MODEL_KEYS (row : Z) :
  0 ≤ row ≤ 2 → ∃ key, getitem MODEL_KEYS row = Ok key ∧ key ∈ MODEL_KEYS.
Proof.
  intros Hrow.
  assert (row = 0 ∨ row = 1 ∨ row = 2) as [->|[->| ->]] by lia;
    eexists; (split; [reflexivity|by_evaluation]).
Qed.

Lemma cycle_main_option_focus (direction : Z) (a a' : App) :
  cycle_main_option direction a = Ok a' →
  main_focus_row a' = main_focus_row a.
Proof.
  unfold cycle_main_option.
  destruct (getitem MODEL_KEYS (main_focus_row a)) as [key|]; [simpl|done].
  destruct (main_focus_field a =? 0).
  - case_bool_decide; [by intros [= <-]|].
    destruct (getitem _ _); simpl; [|done]. by intros [= <-].
  - destruct (negb (Py.truthy _)); [by intros [= <-]|].
    case_bool_decide; [by intros [= <-]|].
    destruct (getitem _ _); simpl; [|done]. by intros [= <-].
Qed.

Lemma refresh_models_focus `{Platform} (a a' : App) :
  refresh_models a = Ok a' → main_focus_row a' = main_focus_row a.
Proof.
  unfold refresh_models, fetch_and_store_models.
  destruct (_ || _); [by intros [= <-]|].
  destruct (fetch_models _ _) as [catalog|[message| | | | | |]]; simpl;
    try done.
  - destruct (validate_models _ catalog) as [validated changed]. simpl.
    by intros [= <-].
  - destruct (negb (message =? "")%string); by intros [= <-].
Qed.

(** Every key handled on the main screen leaves the focus on one of the
    three slots, so that [cycle_main_option] always finds its slot. *)
Lemma handle_main_key_focus `{Platform} (key : Z) (a a' : App) :
  0 ≤ main_focus_row a ≤ 2 →
  handle_main_key key a = Ok a' →
  0 ≤ main_focus_row a' ≤ 2.
Proof.
  intros Hrow. unfold handle_main_key.
  repeat match goal with
         | |- context [if ?b then _ else _] =>
             lazymatch b with
             | context [Py.truthy] => fail
             | _ => destruct b
             end
         end;
    try (intros [= <-]; simpl; lia).
  - by intros ->%cycle_main_option_focus.
  - by intros ->%cycle_main_option_focus.
  - by intros ->%refresh_models_focus.
  - destruct (Py.truthy (validate_launch_requirements _)); [by intros [= <-]|].
    destruct (launch_with_curses _) as [error|]; simpl; [|done].
    destruct (Py.truthy error); by intros [= <-].
Qed.

(** On the configuration screen the enter and space keys on a toggle field
    are a flip of that toggle. *)
Lemma handle_config_key_flips `{Platform} (key : Z) (a : App) (field : string) :
  getitem CONFIG_FIELDS (config_focus_index a) = Ok field →
  field ∈ TOGGLE_KEYS →
  key = Curses.KEY_ENTER ∨ key = 10 ∨ key = 13 ∨ key = 32 →
  handle_config_key key a = Ok (with_config (flip_toggle field) a).
Proof.
  intros Hfield Htoggle Hkey. unfold handle_config_key.
  assert ((key =? 27) = false ∧ (key =? Curses.KEY_UP) = false
          ∧ (key =? Curses.KEY_DOWN) = false) as (-> & -> & ->).
  { destruct Hkey as [->|[->|[->| ->]]]; done. }
  rewrite Hfield. simpl.
  assert ((field =? "base_url")%string || (field =? "api_key")%string = false)
    as ->.
  { unfold TOGGLE_KEYS in Htoggle. rewrite !elem_of_cons in Htoggle.
    destruct Htoggle as [->|[->|[->|Hnil]]]; [done..|by apply elem_of_nil in Hnil]. }
  destruct Hkey as [->|[->|[->| ->]]]; done.
Qed.

(** * Further properties of the code *)

(** ** The owner index *)

Lemma sorted_strict (l : list string) :
  NoDup l → Sorted (strict String.le) (Py.sorted l).
Proof.
  intros Hnd.
  assert (NoDup (Py.sorted l)) as Hnd' by by rewrite sorted_Permutation.
  assert (StronglySorted String.le (Py.sorted l)) as Hsorted.
  { apply (StronglySorted_merge_sort String.le). }
  apply StronglySorted_Sorted. revert Hnd'.
  induction Hsorted as [|x xs Hxs IH Hall]; intros Hnd'; constructor.
  - apply IH. by apply NoDup_cons in Hnd' as [_ ?].
  - apply NoDup_cons in Hnd' as [Hx _]. rewrite Forall_forall in Hall.
    apply Forall_forall. intros y Hy. split; [by apply Hall|].
    intros Hyx. apply Hx.
    assert (x = y) as -> by (apply (anti_symm String.le); auto). done.
Qed.

Lemma owner_options_elem (index : gmap string (list string)) (owner : string) :
  owner ∈ owner_options index ↔ is_Some (index !! owner).
Proof.
  unfold owner_options. rewrite sorted_Permutation, elem_of_elements.
  apply elem_of_dom.
Qed.

Lemma ids_of_owner_nonempty (catalog : list model) (owner : string) :
  ids_of_owner owner catalog ≠ [] ↔
  ∃ item, item ∈ catalog ∧ model_owned_by item = owner.
Proof.
  unfold ids_of_owner. split.
  - intros Hne.
    destruct (filter (λ item, model_owned_by item = owner) catalog)
      as [|item items] eqn:Hf; [done|].
    exists item.
    assert (item ∈ filter (λ item, model_owned_by item = owner) catalog) as Hitem
      by (rewrite Hf; left).
    apply list_elem_of_filter in Hitem as [? ?]. done.
  - intros (item & Hin & Howner) Hnil. apply fmap_nil_inv in Hnil.
    assert (item ∈ filter (λ item, model_owned_by item = owner) catalog) as Hitem
      by by apply list_elem_of_filter.
    rewrite Hnil in Hitem. by apply elem_of_nil in Hitem.
Qed.

(** The owners offered for selection are strictly ascending, hence without
    duplicates, and are exactly the owners that occur in the catalog; the
    ids offered for such an owner are never empty, and for any other owner
    they are the empty list. *)
Theorem owner_options_catalog (catalog : list model) :
  Sorted (strict String.le)
    (owner_options (build_models_by_owner (Some catalog))) ∧
  NoDup (owner_options (build_models_by_owner (Some catalog))) ∧
  ∀ owner,
    (owner ∈ owner_options (build_models_by_owner (Some catalog))
     ↔ ∃ item, item ∈ catalog ∧ model_owned_by item = owner) ∧
    (model_options (build_models_by_owner (Some catalog)) owner ≠ []
     ↔ owner ∈ owner_options (build_models_by_owner (Some catalog))).
Proof.
  split_and!.
  - apply sorted_strict, NoDup_elements.
  - unfold owner_options. rewrite sorted_Permutation. apply NoDup_elements.
  - intros owner. rewrite owner_options_elem, <- ids_of_owner_nonempty.
    unfold model_options. rewrite build_models_by_owner_lookup.
    destruct (ids_of_owner owner catalog) as [|i ids] eqn:Hids.
    + split; split; try done; by intros [? ?].
    + split; split; try done; try (intros _; by eexists).
      all: intros _; simpl; by intros Hnil%sorted_nil_inv.
Qed.

(** ** Reconciling the slots with a catalog *)

Section reconcile.
Context (catalog : list model).
Implicit Types (config : Config) (e : entry).

Lemma listed_pair_in (e : entry) :
  pair_listed catalog e →
  pair_in (valid_pairs catalog) (entry_owned_by e) (entry_id e) = true.
Proof.
  intros (o & i & -> & -> & Hin). simpl. apply bool_decide_eq_true_2.
  apply elem_of_list_to_set, list_elem_of_fmap.
  by exists (Model i o).
Qed.

Lemma needs_reset_false_valid (e : entry) :
  needs_reset (valid_pairs catalog) e = false ↔ slot_valid catalog e.
Proof.
  unfold needs_reset, slot_valid. split.
  - intros Hreset. apply andb_false_iff in Hreset as [Hfail|Hnull].
    + right. rewrite !orb_false_iff, !negb_false_iff in Hfail.
      destruct Hfail as [[Ho Hi] Hin].
      split_and!; [by apply truthy_present..|by apply pair_in_listed].
    + left. rewrite orb_false_iff in Hnull. destruct Hnull as [Ho Hi].
      apply bool_decide_eq_false_1 in Ho. apply bool_decide_eq_false_1 in Hi.
      destruct e as [[o|] [i|]]; simpl in *;
        [exfalso; by apply Ho|exfalso; by apply Ho|exfalso; by apply Hi|done].
  - intros [-> | (Ho & Hi & Hin)]; [done|].
    apply truthy_present in Ho, Hi. apply listed_pair_in in Hin.
    by rewrite Ho, Hi, Hin.
Qed.

Lemma validate_models_lookup (config : Config) (key : string) :
  models (validate_models config catalog).1 !! key =
    if bool_decide (key ∈ MODEL_KEYS)
       && needs_reset (valid_pairs catalog) (get_entry config key)
    then Some (Entry None None)
    else models config !! key.
Proof.
  unfold validate_models. fold (valid_pairs catalog).
  by destruct (validate_models_fold (valid_pairs catalog) MODEL_KEYS config false
                 MODEL_KEYS_NoDup)
    as (_ & _ & _ & Hm).
Qed.

Lemma validate_models_entry (config : Config) (key : string) :
  key ∈ MODEL_KEYS →
  get_entry (validate_models config catalog).1 key =
    if needs_reset (valid_pairs catalog) (get_entry config key)
    then Entry None None
    else get_entry config key.
Proof.
  intros Hkey. unfold get_entry at 1. rewrite validate_models_lookup.
  rewrite bool_decide_eq_true_2 by done. simpl.
  by destruct (needs_reset (valid_pairs catalog) (get_entry config key)).
Qed.

Lemma validate_models_slot (config : Config) (key : string) :
  key ∈ MODEL_KEYS →
  slot_valid catalog (get_entry (validate_models config catalog).1 key) ∧
  (slot_valid catalog (get_entry config key) →
   models (validate_models config catalog).1 !! key = models config !! key).
Proof.
  intros Hkey. split.
  - rewrite validate_models_entry by done.
    destruct (needs_reset (valid_pairs catalog) (get_entry config key)) eqn:Hreset.
    + by left.
    + by apply needs_reset_false_valid.
  - intros Hvalid%needs_reset_false_valid. rewrite validate_models_lookup, Hvalid.
    by rewrite andb_false_r.
Qed.

(** After [validate_models] every slot is empty or bound to a pair of
    non-empty owner and id that the catalog lists; a slot that was so
    before is left as it was. *)
Theorem validate_models_valid (config : Config) (key : string) :
  key ∈ MODEL_KEYS →
  slot_valid catalog (get_entry (validate_models config catalog).1 key) ∧
  (slot_valid catalog (get_entry config key) →
   models (validate_models config catalog).1 !! key = models config !! key).
Proof. apply validate_models_slot. Qed.

Lemma existsb_agree {A} (f g : A → bool) (l : list A) :
  (∀ x, x ∈ l → f x = g x) → existsb f l = existsb g l.
Proof.
  induction l as [|x l IH]; intros Hfg; [done|]. simpl.
  rewrite (Hfg x) by left. f_equal. apply IH. intros y Hy. apply Hfg. by right.
Qed.

Lemma validate_models_flag keys (config : Config) (changed : bool) :
  NoDup keys →
  (foldl (validate_models_step (valid_pairs catalog)) (config, changed) keys).2 =
    changed
    || existsb (λ key, needs_reset (valid_pairs catalog) (get_entry config key)) keys.
Proof.
  revert config changed.
  induction keys as [|k keys IH]; intros config changed Hnd; cbn [foldl existsb].
  - by rewrite orb_false_r.
  - apply NoDup_cons in Hnd as [Hk Hnd].
    pose proof (validate_models_step_config (valid_pairs catalog) config changed k)
      as Hstep.
    destruct (validate_models_step (valid_pairs catalog) (config, changed) k)
      as [config1 changed1] eqn:Heq.
    simpl in Hstep. rewrite IH by done.
    assert (changed1
            = changed || needs_reset (valid_pairs catalog) (get_entry config k))
      as ->.
    { unfold validate_models_step, needs_reset in *.
      destruct (negb _ || negb _ || negb _), (bool_decide _ || bool_decide _);
        simplify_eq/=; by rewrite ?orb_true_r, ?orb_false_r. }
    rewrite <- orb_assoc. f_equal. f_equal.
    apply existsb_agree. intros key Hin. f_equal.
    rewrite Hstep. unfold get_entry.
    destruct (needs_reset (valid_pairs catalog) _); [|done]. simpl.
    rewrite lookup_insert_ne; [done|]. by intros ->.
Qed.
End reconcile.

Section reconcile_flag.
Context (catalog : list model).
Implicit Types (config : Config).

Lemma validate_models_changed_flag config :
  (validate_models config catalog).2 =
    existsb (λ key, needs_reset (valid_pairs catalog) (get_entry config key))
            MODEL_KEYS.
Proof.
  unfold validate_models. fold (valid_pairs catalog).
  by rewrite validate_models_flag by apply MODEL_KEYS_NoDup.
Qed.

Lemma validate_models_unchanged config :
  (validate_models config catalog).2 = false →
  (validate_models config catalog).1 = config.
Proof.
  rewrite validate_models_changed_flag. intros Hflag.
  assert (models (validate_models config catalog).1 = models config) as Hmodels.
  { apply map_eq. intros key. rewrite validate_models_lookup.
    case_bool_decide as Hkey; [|done]. simpl.
    destruct (needs_reset _ (get_entry config key)) eqn:Hreset; [|done].
    assert (existsb (λ key, needs_reset (valid_pairs catalog) (get_entry config key))
                    MODEL_KEYS = true) as Htrue.
    { apply existsb_exists. exists key. split; [by apply list_elem_of_In|done]. }
    congruence. }
  unfold validate_models in *. fold (valid_pairs catalog) in *.
  destruct (validate_models_fold (valid_pairs catalog) MODEL_KEYS config false
              MODEL_KEYS_NoDup) as (Hb & Ha & Ht & _).
  destruct (foldl _ _ _).1 as [b k m t], config as [b0 k0 m0 t0].
  simpl in *. congruence.
Qed.

(** The flag that [validate_models] returns tells exactly whether it
    changed the configuration. *)
Theorem validate_models_changed config :
  (validate_models config catalog).2 = true
  ↔ (validate_models config catalog).1 ≠ config.
Proof.
  split.
  - rewrite validate_models_changed_flag. intros Hflag Heq.
    apply existsb_exists in Hflag as (key & Hkey%list_elem_of_In & Hreset).
    pose proof (validate_models_lookup catalog config key) as Hlookup.
    rewrite Heq, bool_decide_eq_true_2, Hreset in Hlookup by done.
    simpl in Hlookup.
    rewrite needs_reset_null in Hreset; [done|..];
      unfold get_entry; by rewrite Hlookup.
  - intros Hne. destruct (validate_models config catalog).2 eqn:Hflag; [done|].
    by apply validate_models_unchanged in Hflag.
Qed.

(** Validating again against the same catalog changes nothing and reports
    no change. *)
Theorem validate_models_idempotent config :
  validate_models (validate_models config catalog).1 catalog =
    ((validate_models config catalog).1, false).
Proof.
  set (config' := (validate_models config catalog).1).
  assert ((validate_models config' catalog).2 = false) as Hflag.
  { rewrite validate_models_changed_flag.
    apply not_true_is_false. intros Htrue.
    apply existsb_exists in Htrue as (key & Hkey%list_elem_of_In & Hreset).
    destruct (validate_models_slot catalog config key Hkey) as [Hvalid _].
    apply needs_reset_false_valid in Hvalid. fold config' in Hvalid. congruence. }
  pose proof (validate_models_unchanged config' Hflag) as Hconfig.
  destruct (validate_models config' catalog) as [config'' flag].
  simpl in *. congruence.
Qed.
End reconcile_flag.

(** ** Editing a text field *)

Section text.
Implicit Types (v : string) (l : list Ascii.ascii) (c : Z).

Lemma chars_append v1 v2 :
  String.list_ascii_of_string (v1 +:+ v2) =
    (String.list_ascii_of_string v1 ++ String.list_ascii_of_string v2)%list.
Proof. induction v1 as [|ch v1 IH]; simpl; [done|]. by rewrite IH. Qed.

Lemma chars_inj v1 v2 :
  String.list_ascii_of_string v1 = String.list_ascii_of_string v2 → v1 = v2.
Proof.
  intros Heq. rewrite <- (String.string_of_list_ascii_of_string v1), Heq.
  apply String.string_of_list_ascii_of_string.
Qed.

Lemma len_chars v : Py.len v = Z.of_nat (length (String.list_ascii_of_string v)).
Proof. unfold Py.len. by rewrite length_chars. Qed.

Lemma slice_to_chars c v :
  0 ≤ c →
  String.list_ascii_of_string (Py.slice_to c v) =
    take (Z.to_nat c) (String.list_ascii_of_string v).
Proof.
  intros Hc. rewrite slice_to_fit_width by done. unfold fit_width.
  by rewrite String.list_ascii_of_string_of_list_ascii.
Qed.

Lemma slice_from_chars c v :
  0 ≤ c →
  String.list_ascii_of_string (Py.slice_from c v) =
    drop (Z.to_nat c) (String.list_ascii_of_string v).
Proof.
  intros Hc. rewrite slice_from_cut_left by done. unfold cut_left.
  by rewrite String.list_ascii_of_string_of_list_ascii.
Qed.

(** [value[:cursor] + chr(key) + value[cursor:]] is one character longer,
    and cutting that character out again gives the value back. *)
Lemma insert_delete c v (ch : Ascii.ascii) :
  0 ≤ c ≤ Py.len v →
  let v1 := Py.slice_to c v +:+ String ch "" +:+ Py.slice_from c v in
  Py.len v1 = Py.len v + 1 ∧
  Py.slice_to (c + 1 - 1) v1 +:+ Py.slice_from (c + 1) v1 = v.
Proof.
  intros Hc v1. rewrite len_chars in Hc.
  assert (String.list_ascii_of_string v1 =
            (take (Z.to_nat c) (String.list_ascii_of_string v)
             ++ ch :: drop (Z.to_nat c) (String.list_ascii_of_string v))%list)
    as Hv1.
  { subst v1. rewrite !chars_append, slice_to_chars, slice_from_chars by lia.
    done. }
  split.
  - rewrite !len_chars, Hv1, length_app, length_take. simpl.
    rewrite length_drop. lia.
  - apply chars_inj.
    rewrite chars_append, slice_to_chars, slice_from_chars, Hv1 by lia.
    replace (c + 1 - 1) with c by lia.
    rewrite take_app_length' by (rewrite length_take; lia).
    replace (Z.to_nat (c + 1)) with (length (take (Z.to_nat c)
        (String.list_ascii_of_string v)) + 1)%nat by (rewrite length_take; lia).
    rewrite drop_app_add. simpl. rewrite drop_0.
    by rewrite take_drop.
Qed.

Lemma delete_len c v :
  0 < c ≤ Py.len v →
  Py.len (Py.slice_to (c - 1) v +:+ Py.slice_from c v) = Py.len v - 1.
Proof.
  intros Hc. rewrite !len_chars in *.
  rewrite chars_append, slice_to_chars, slice_from_chars by lia.
  rewrite length_app, length_take, length_drop. lia.
Qed.
End text.

Section editing.
Implicit Types (a : App) (field : string) (key : Z).

Lemma get_set_text field (value : string) (config : Config) :
  field = "base_url" ∨ field = "api_key" →
  get_text (set_text field value config) field = value.
Proof. by intros [-> | ->]. Qed.

Lemma set_set_text field (value : string) (config : Config) :
  field = "base_url" ∨ field = "api_key" →
  set_text field (get_text config field) (set_text field value config) = config.
Proof. intros [-> | ->]; by destruct config. Qed.

Lemma text_cursor_range a field :
  0 ≤ default 0 (config_cursor a !! field) →
  0 ≤ text_cursor a field ≤ Py.len (get_text (config a) field).
Proof. unfold text_cursor, Py.len. lia. Qed.

Lemma handle_text_input_print field key a :
  Curses.isprint key = true →
  handle_text_input field key a =
    let cursor := text_cursor a field in
    let value := get_text (config a) field in
    let edited :=
      set_text field
        (Py.slice_to cursor value
         +:+ String (Ascii.ascii_of_N (Z.to_N key)) "" +:+ Py.slice_from cursor value)
        (config a) in
    set_config_cursor (<[field := cursor + 1]> (config_cursor a))
      (set_disk (save_config edited (disk a)) (set_config edited a)).
Proof.
  intros Hprint. unfold handle_text_input, text_cursor. rewrite Hprint.
  unfold Curses.isprint in Hprint. apply andb_true_iff in Hprint as [Hlo Hhi].
  apply Z.leb_le in Hlo, Hhi.
  unfold Curses.KEY_LEFT, Curses.KEY_RIGHT, Curses.KEY_BACKSPACE.
  rewrite !(proj2 (Z.eqb_neq key _)) by lia.
  rewrite !(proj2 (Z.leb_le _ _)) by lia. done.
Qed.

Lemma handle_text_input_backspace field a :
  0 < text_cursor a field →
  handle_text_input field 127 a =
    let cursor := text_cursor a field in
    let value := get_text (config a) field in
    let edited :=
      set_text field
        (Py.slice_to (cursor - 1) value +:+ Py.slice_from cursor value)
        (config a) in
    set_config_cursor (<[field := cursor - 1]> (config_cursor a))
      (set_disk (save_config edited (disk a)) (set_config edited a)).
Proof.
  intros Hcursor. unfold handle_text_input, text_cursor in *.
  change (127 =? Curses.KEY_LEFT) with false.
  change (127 =? Curses.KEY_RIGHT) with false.
  change (127 =? 127) with true. rewrite orb_true_r. cbn [orb].
  by rewrite (proj2 (Z.ltb_lt _ _) Hcursor).
Qed.

(** Typing a printable character into a text field and then pressing
    backspace gives back the configuration and the cursor position, at the
    price of two writes to disk. *)
Theorem insert_then_backspace field key a :
  field = "base_url" ∨ field = "api_key" →
  0 ≤ default 0 (config_cursor a !! field) →
  Curses.isprint key = true →
  config (handle_text_input field 127 (handle_text_input field key a)) = config a ∧
  config_cursor (handle_text_input field 127 (handle_text_input field key a))
    !! field = Some (text_cursor a field) ∧
  length (disk (handle_text_input field 127 (handle_text_input field key a))) =
    (length (disk a) + 2)%nat.
Proof.
  intros Hfield Hstored Hprint.
  pose proof (text_cursor_range a field Hstored) as Hrange.
  destruct (insert_delete (text_cursor a field) (get_text (config a) field)
              (Ascii.ascii_of_N (Z.to_N key)) Hrange) as [Hlen Hback].
  rewrite (handle_text_input_print field key a Hprint). cbv zeta.
  set (inserted := Py.slice_to _ _ +:+ _) in *.
  set (a1 := set_config_cursor _ _).
  assert (get_text (config a1) field = inserted) as Hvalue
    by (by apply get_set_text).
  assert (text_cursor a1 field = text_cursor a field + 1) as Hcursor1.
  { unfold text_cursor at 1. rewrite Hvalue. subst a1. simpl.
    rewrite lookup_insert_eq. simpl. lia. }
  rewrite handle_text_input_backspace by lia. cbv zeta.
  rewrite Hcursor1, Hvalue, Hback. simpl. split_and!.
  - rewrite <- Hvalue at 1. subst a1. simpl. by apply set_set_text.
  - rewrite lookup_insert_eq. f_equal. lia.
  - unfold save_config. rewrite !length_app. simpl. lia.
Qed.

(** Whatever the key, the cursor of an edited text field stays between 0
    and the length of the field's value. *)
Theorem handle_text_input_cursor field key a :
  field = "base_url" ∨ field = "api_key" →
  0 ≤ default 0 (config_cursor a !! field) →
  ∃ cursor,
    config_cursor (handle_text_input field key a) !! field = Some cursor ∧
    0 ≤ cursor ≤ Py.len (get_text (config (handle_text_input field key a)) field).
Proof.
  intros Hfield Hstored.
  pose proof (text_cursor_range a field Hstored) as Hrange.
  unfold handle_text_input. fold (text_cursor a field).
  set (value := get_text (config a) field) in *.
  set (cursor := text_cursor a field) in *.
  destruct (key =? Curses.KEY_LEFT).
  { eexists. simpl. rewrite lookup_insert_eq. split; [done|].
    fold value. destruct (Z.ltb_spec 0 cursor); lia. }
  destruct (key =? Curses.KEY_RIGHT).
  { eexists. simpl. rewrite lookup_insert_eq. split; [done|].
    fold value. destruct (Z.ltb_spec cursor (Py.len value)); lia. }
  destruct ((key =? Curses.KEY_BACKSPACE) || (key =? 127) || (key =? 8)).
  { destruct (Z.ltb_spec 0 cursor).
    - eexists. simpl. rewrite lookup_insert_eq. split; [done|].
      rewrite get_set_text by done. rewrite delete_len by lia. lia.
    - eexists. simpl. rewrite lookup_insert_eq. split; [done|]. fold value. lia. }
  destruct ((0 <=? key) && (key <=? 255) && Curses.isprint key).
  - eexists. simpl. rewrite lookup_insert_eq. split; [done|].
    rewrite get_set_text by done.
    destruct (insert_delete cursor value (Ascii.ascii_of_N (Z.to_N key)) Hrange)
      as [-> _]. lia.
  - eexists. simpl. rewrite lookup_insert_eq. split; [done|]. fold value. lia.
Qed.
End editing.

(** ** Toggles *)

(** Flipping a toggle twice gives back the configuration, for a toggle
    that holds 0 or 1. *)
Theorem flip_toggle_twice (field : string) (config : Config)
    (disk disk' : list Config) :
  toggles config !! field = Some 0 ∨ toggles config !! field = Some 1 →
  (flip_toggle field (flip_toggle field config disk).1 disk').1 = config.
Proof.
  intros Hvalue. unfold flip_toggle. simpl. rewrite lookup_insert_eq. simpl.
  destruct config as [b k m t]. unfold set_toggle. simpl in *. f_equal.
  rewrite insert_insert_eq.
  destruct Hvalue as [Hv|Hv]; rewrite Hv; simpl; by apply insert_id.
Qed.

(** ** Masking the secret *)

Lemma chars_repeat (ch : Ascii.ascii) (n : nat) :
  String.list_ascii_of_string (Py.repeat_char ch n) = replicate n ch.
Proof.
  unfold Py.repeat_char. apply String.list_ascii_of_string_of_list_ascii.
Qed.

(** A secret of at most 8 characters is shown as that many asterisks and
    nothing else; a longer one is shown as 11 characters whatever its
    length: its first four, three dots and its last four. *)
Theorem mask_secret_hides (value : string) :
  (value = "" → mask_secret value = "<unset>") ∧
  (0 < Py.len value ≤ 8 →
   String.list_ascii_of_string (mask_secret value) =
     replicate (String.length value) "*"%char) ∧
  (8 < Py.len value →
   Py.len (mask_secret value) = 11 ∧
   String.list_ascii_of_string (mask_secret value) =
     (take 4 (String.list_ascii_of_string value)
      ++ String.list_ascii_of_string "..."
      ++ drop (String.length value - 4) (String.list_ascii_of_string value))%list).
Proof.
  unfold mask_secret. split_and!.
  - by intros ->.
  - intros Hlen.
    destruct (String.eqb_spec value "") as [->|_];
      [unfold Py.len in Hlen; simpl in Hlen; lia|].
    rewrite (proj2 (Z.leb_le _ _)) by lia. apply chars_repeat.
  - intros Hlen.
    destruct (String.eqb_spec value "") as [->|_];
      [unfold Py.len in Hlen; simpl in Hlen; lia|].
    rewrite (proj2 (Z.leb_gt _ _)) by lia.
    assert (String.list_ascii_of_string (Py.slice_from (-4) value) =
              drop (String.length value - 4) (String.list_ascii_of_string value))
      as Htail.
    { unfold Py.slice_from. change (-4 <? 0) with true. cbv iota.
      unfold Py.len in *.
      replace (Z.to_nat ((Z.of_nat (String.length value) + -4) `max` 0))
        with (String.length value - 4)%nat by lia.
      rewrite substring_chars. apply take_ge.
      rewrite length_drop, length_chars. lia. }
    assert (String.list_ascii_of_string
              (Py.slice_to 4 value +:+ "..." +:+ Py.slice_from (-4) value) =
            (take 4 (String.list_ascii_of_string value)
             ++ String.list_ascii_of_string "..."
             ++ drop (String.length value - 4)
                  (String.list_ascii_of_string value))%list) as Hchars.
    { by rewrite !chars_append, slice_to_chars, Htail by lia. }
    split; [|done].
    rewrite len_chars, Hchars, !length_app, length_take, length_drop, length_chars.
    unfold Py.len in Hlen.
    change (length (String.list_ascii_of_string "...")) with 3%nat.
    lia.
Qed.

(** ** Loading the configuration *)

Lemma slots_ok_default : slots_ok (models default_config).
Proof.
  intros key. unfold MODEL_KEYS, default_config. simpl. split.
  - rewrite !elem_of_cons. intros [->|[->|[->|Hnil]]];
      [by eexists..|by apply elem_of_nil in Hnil].
  - rewrite !not_elem_of_cons. intros (H1 & H2 & H3 & _).
    by rewrite !lookup_insert_ne, lookup_empty by done.
Qed.

Lemma slots_ok_insert (m : gmap string entry) (key : string) (e : entry) :
  slots_ok m → key ∈ MODEL_KEYS → slots_ok (<[key := e]> m).
Proof.
  intros Hok Hkey k. destruct (decide (key = k)) as [<-|Hne].
  - rewrite lookup_insert_eq. split; [by eexists|done].
  - rewrite lookup_insert_ne by done. apply Hok.
Qed.

Lemma load_config_models_fold (saved : gmap string json) keys config :
  Forall (λ key, key ∈ MODEL_KEYS) keys →
  slots_ok (models config) →
  slots_ok
    (models
       (foldl (λ config key,
                 match saved !! key with
                 | Some (JDict entry) =>
                     set_model key
                       (Entry (str_or_none (entry !! "owned_by"))
                              (str_or_none (entry !! "id")))
                       config
                 | _ => config
                 end)
              config keys)).
Proof.
  intros Hkeys. revert config.
  induction Hkeys as [|key keys Hkey _ IH]; intros config Hok; [done|].
  cbn [foldl]. apply IH. destruct (saved !! key) as [[| | | | | |entry]|]; try done.
  simpl. by apply slots_ok_insert.
Qed.

Lemma load_config_toggles_models (saved : gmap string json) keys config :
  models
    (foldl (λ config key,
              match saved !! key with
              | Some (JBool value) =>
                  set_toggle key (if value then 1 else 0) config
              | Some (JInt value) =>
                  if (value =? 0) || (value =? 1)
                  then set_toggle key value config
                  else config
              | _ => config
              end)
           config keys) = models config.
Proof.
  revert config. induction keys as [|key keys IH]; intros config; [done|].
  cbn [foldl]. rewrite IH. destruct (saved !! key) as [[|b|n| | | |]|]; try done.
  by destruct ((n =? 0) || (n =? 1)).
Qed.

Lemma load_config_slots_ok (file : option json) :
  slots_ok (models (load_config file)).
Proof.
  unfold load_config.
  destruct file as [[| | | | | |data]|]; try apply slots_ok_default.
  set (c1 := match data !! "base_url" with
             | Some (JStr _) => _ | _ => _ end).
  set (c2 := match data !! "api_key" with
             | Some (JStr _) => _ | _ => _ end).
  assert (slots_ok (models c2)) as Hc2.
  { assert (models c1 = models default_config) as Hc1.
    { subst c1. by destruct (data !! "base_url") as [[]|]. }
    assert (models c2 = models default_config) as ->.
    { subst c2. by destruct (data !! "api_key") as [[]|]. }
    apply slots_ok_default. }
  set (c3 := match data !! "models" with
             | Some (JDict _) => _ | _ => _ end).
  assert (slots_ok (models c3)) as Hc3.
  { subst c3. destruct (data !! "models") as [[| | | | | |saved]|]; try done.
    apply load_config_models_fold; [by_evaluation|done]. }
  destruct (data !! "toggles") as [[| | | | | |saved]|]; try done.
  by rewrite load_config_toggles_models.
Qed.

Lemma Ok_inj {A} (x y : A) : Ok x = Ok y → x = y.
Proof. by intros [= ->]. Qed.

(** Whenever [load_config] returns, for a file that decodes to any JSON
    value and also when reading raises [FileNotFoundError] or another
    [OSError] or decoding raises [JSONDecodeError], it gives a
    configuration with exactly the three slots and exactly the three
    toggles, each toggle 0 or 1.  It raises exactly when reading or
    decoding raises an exception of another class, such as the
    [UnicodeDecodeError] of a file that is not UTF-8, which it lets
    through. *)
Theorem load_config_shape (file : File.read) :
  (∀ config, File.load_config file = Ok config →
             slots_ok (models config) ∧ toggles_ok (toggles config)) ∧
  (∀ e, File.load_config file = Raise e ↔ file = File.Escapes e).
Proof.
  split.
  - intros config Hload.
    assert (∃ data, config = load_config data) as [data ->].
    { destruct file as [|name| |data|e]; unfold File.load_config in Hload;
        [..|done]; apply Ok_inj in Hload as <-; by eexists. }
    split; [apply load_config_slots_ok|apply load_config_toggles_ok].
  - intros e. destruct file as [|name| |data|e']; unfold File.load_config;
      split; try done.
    + by intros [= ->].
    + by intros [= ->].
Qed.

Lemma Config_eq (c1 c2 : Config) :
  base_url c1 = base_url c2 → api_key c1 = api_key c2 →
  models c1 = models c2 → toggles c1 = toggles c2 → c1 = c2.
Proof. destruct c1, c2. simpl. by intros -> -> -> ->. Qed.

Section round_trip.
Context (c : Config).

Lemma saved_entry_fields (e : entry) (d : gmap string json) :
  json_of_entry e = JDict d →
  Entry (str_or_none (d !! "owned_by")) (str_or_none (d !! "id")) = e.
Proof.
  intros [= <-]. rewrite lookup_insert_ne, lookup_insert_eq by done.
  rewrite lookup_insert_eq. by destruct e as [[o|] [i|]].
Qed.

Lemma saved_models_fold keys config :
  let r :=
    foldl (λ config key,
             match (json_of_entry <$> models c) !! key with
             | Some (JDict entry) =>
                 set_model key
                   (Entry (str_or_none (entry !! "owned_by"))
                          (str_or_none (entry !! "id")))
                   config
             | _ => config
             end)
          config keys in
  base_url r = base_url config ∧ api_key r = api_key config
  ∧ toggles r = toggles config
  ∧ ∀ key, models r !! key =
             if bool_decide (key ∈ keys)
             then match models c !! key with
                  | Some e => Some e
                  | None => models config !! key
                  end
             else models config !! key.
Proof.
  revert config. induction keys as [|k keys IH]; intros config; cbn [foldl].
  - done.
  - cbv zeta. rewrite lookup_fmap.
    set (config1 := match json_of_entry <$> models c !! k with
                    | Some (JDict _) => _ | _ => _ end).
    assert (config1 = match models c !! k with
                      | Some e => set_model k e config
                      | None => config
                      end) as Hconfig1.
    { subst config1. destruct (models c !! k) as [e|]; [|done]. simpl.
      by rewrite (saved_entry_fields e _ eq_refl). }
    destruct (IH config1) as (Hb & Ha & Ht & Hm). rewrite Hb, Ha, Ht.
    split_and!; try (rewrite Hconfig1; by destruct (models c !! k)).
    intros key. rewrite Hm, Hconfig1.
    destruct (decide (key = k)) as [->|Hne].
    + rewrite (bool_decide_eq_true_2 (k ∈ k :: keys)) by left.
      destruct (models c !! k) as [e|] eqn:He; simpl.
      * rewrite lookup_insert_eq. by case_bool_decide.
      * by case_bool_decide.
    + assert (bool_decide (key ∈ k :: keys) = bool_decide (key ∈ keys)) as ->.
      { apply bool_decide_ext. rewrite elem_of_cons. intuition. }
      destruct (models c !! k) as [e|]; simpl; [|done].
      by rewrite lookup_insert_ne.
Qed.

Lemma saved_toggles_fold keys config :
  (∀ key value, toggles c !! key = Some value → value = 0 ∨ value = 1) →
  let r :=
    foldl (λ config key,
             match (JInt <$> toggles c) !! key with
             | Some (JBool value) =>
                 set_toggle key (if value then 1 else 0) config
             | Some (JInt value) =>
                 if (value =? 0) || (value =? 1)
                 then set_toggle key value config
                 else config
             | _ => config
             end)
          config keys in
  base_url r = base_url config ∧ api_key r = api_key config
  ∧ models r = models config
  ∧ ∀ key, toggles r !! key =
             if bool_decide (key ∈ keys)
             then match toggles c !! key with
                  | Some value => Some value
                  | None => toggles config !! key
                  end
             else toggles config !! key.
Proof.
  intros Hvalues. revert config.
  induction keys as [|k keys IH]; intros config; cbn [foldl].
  - done.
  - cbv zeta. rewrite lookup_fmap.
    set (config1 := match JInt <$> toggles c !! k with
                    | Some (JBool _) => _ | _ => _ end).
    assert (config1 = match toggles c !! k with
                      | Some value => set_toggle k value config
                      | None => config
                      end) as Hconfig1.
    { subst config1. destruct (toggles c !! k) as [value|] eqn:Hk; [|done]. simpl.
      by destruct (Hvalues k value Hk) as [-> | ->]. }
    destruct (IH config1) as (Hb & Ha & Ht & Hm). rewrite Hb, Ha, Ht.
    split_and!; try (rewrite Hconfig1; by destruct (toggles c !! k)).
    intros key. rewrite Hm, Hconfig1.
    destruct (decide (key = k)) as [->|Hne].
    + rewrite (bool_decide_eq_true_2 (k ∈ k :: keys)) by left.
      destruct (toggles c !! k) as [value|] eqn:He; simpl.
      * rewrite lookup_insert_eq. by case_bool_decide.
      * by case_bool_decide.
    + assert (bool_decide (key ∈ k :: keys) = bool_decide (key ∈ keys)) as ->.
      { apply bool_decide_ext. rewrite elem_of_cons. intuition. }
      destruct (toggles c !! k) as [value|]; simpl; [|done].
      by rewrite lookup_insert_ne.
Qed.

(** A configuration with the three slots and the three 0/1 toggles that
    is saved and loaded again is the same configuration. *)
Theorem load_config_saved :
  slots_ok (models c) → toggles_ok (toggles c) →
  load_config (Some (json_of_config c)) = c.
Proof.
  intros Hslots Htoggles. unfold load_config, json_of_config.
  rewrite (lookup_insert_ne _ "toggles" "base_url") by done.
  rewrite (lookup_insert_ne _ "models" "base_url") by done.
  rewrite (lookup_insert_ne _ "api_key" "base_url") by done.
  rewrite lookup_insert_eq.
  rewrite (lookup_insert_ne _ "toggles" "api_key") by done.
  rewrite (lookup_insert_ne _ "models" "api_key") by done.
  rewrite lookup_insert_eq.
  rewrite (lookup_insert_ne _ "toggles" "models") by done.
  rewrite lookup_insert_eq, lookup_insert_eq.
  set (c2 := set_api_key _ _).
  destruct (saved_models_fold MODEL_KEYS c2) as (Hb & Ha & Ht & Hm).
  set (c3 := foldl _ c2 MODEL_KEYS) in *.
  assert (∀ key value, toggles c !! key = Some value → value = 0 ∨ value = 1)
    as Hvalues.
  { intros key value Hkey. destruct (decide (key ∈ TOGGLE_KEYS)) as [Hin|Hout].
    - destruct (proj1 (Htoggles key) Hin) as [H0|H1];
        rewrite ?H0, ?H1 in Hkey; injection Hkey as <-; auto.
    - by rewrite (proj2 (Htoggles key) Hout) in Hkey. }
  destruct (saved_toggles_fold TOGGLE_KEYS c3 Hvalues) as (Hb' & Ha' & Hm' & Ht').
  set (c4 := foldl _ c3 TOGGLE_KEYS) in *.
  assert (models c4 = models c) as Hmodels.
  { rewrite Hm'. apply map_eq. intros key. rewrite Hm.
    case_bool_decide as Hkey.
    - by destruct (proj1 (Hslots key) Hkey) as [e ->].
    - rewrite (proj2 (Hslots key) Hkey).
      exact (proj2 (slots_ok_default key) Hkey). }
  assert (toggles c4 = toggles c) as Htogs.
  { apply map_eq. intros key. rewrite Ht', Ht.
    case_bool_decide as Hkey.
    - by destruct (proj1 (Htoggles key) Hkey) as [-> | ->].
    - rewrite (proj2 (Htoggles key) Hkey).
      exact (proj2 (toggles_ok_default key) Hkey). }
  apply Config_eq; [by rewrite Hb', Hb|by rewrite Ha', Ha|done..].
Qed.
End round_trip.

(** ** The catalog request *)

Section fetch.
Context `{Platform}.

Lemma model_of_item_Some (item : json) (m : model) :
  model_of_item item = Some m ↔
  ∃ d, item = JDict d ∧ d !! "id" = Some (JStr (model_id m))
       ∧ d !! "owned_by" = Some (JStr (model_owned_by m)).
Proof.
  destruct m as [i o]. unfold model_of_item. simpl. split.
  - destruct item as [| | | | | |d]; try done.
    destruct (d !! "id") as [[]|] eqn:Hi; try done.
    destruct (d !! "owned_by") as [[]|] eqn:Ho; try done.
    intros [= -> ->]. by exists d.
  - intros (d & -> & -> & ->). done.
Qed.

(** A catalog request succeeds only on a 200 response whose body is a JSON
    object with a [data] array; the catalog then holds, in their order,
    exactly the items of the array that are objects with a string [id] and
    a string [owned_by], and every other item is dropped. *)
Theorem fetch_models_records (base_url api_key : string) (catalog : list model) :
  fetch_models base_url api_key = Ok catalog →
  ∃ body payload data,
    urlopen (Py.rstrip_char "/" base_url +:+ "/v1/models")
            ("Bearer " +:+ api_key) = Response 200 body ∧
    json_loads body = Some (JDict payload) ∧
    payload !! "data" = Some (JList data) ∧
    catalog = omap model_of_item data ∧
    (∀ m, m ∈ catalog ↔
          ∃ d, JDict d ∈ data ∧ d !! "id" = Some (JStr (model_id m))
               ∧ d !! "owned_by" = Some (JStr (model_owned_by m))) ∧
    (length catalog ≤ length data)%nat.
Proof.
  unfold fetch_models.
  destruct (urlopen _ _) as [code fp|text|status body| |name] eqn:Hurl;
    try done.
  destruct (Z.eqb_spec status 200) as [->|?]; [simpl|done].
  destruct (json_loads body) as [[| | | | | |payload]|] eqn:Hjson; try done.
  destruct (payload !! "data") as [[| | | | |data|]|] eqn:Hdata; try done.
  intros [= <-]. exists body, payload, data. split_and!; try done.
  - intros m. rewrite list_elem_of_omap. split.
    + intros (item & Hin & (d & -> & Hi & Ho)%model_of_item_Some). by exists d.
    + intros (d & Hin & Hi & Ho). exists (JDict d). split; [done|].
      apply model_of_item_Some. by exists d.
  - clear. induction data as [|item data IH]; [done|].
    change (omap model_of_item (item :: data))
      with (match model_of_item item with
            | Some m => m :: omap model_of_item data
            | None => omap model_of_item data
            end).
    destruct (model_of_item item); simpl; lia.
Qed.

Lemma truncated_body (text : string) :
  let body := Py.strip text in
  let body :=
    if 200 <? Py.len body then Py.slice_to 200 body +:+ "..." else body in
  let message := if String.eqb body "" then "No response body" else body in
  0 < Py.len message ≤ 203 ∧
  (Py.len (Py.strip text) ≤ 200 → Py.strip text ≠ "" →
   message = Py.strip text) ∧
  (Py.strip text = "" → message = "No response body").
Proof.
  cbv zeta. destruct (Z.ltb_spec 200 (Py.len (Py.strip text))) as [Hlong|Hshort].
  - assert (Py.len (Py.slice_to 200 (Py.strip text) +:+ "...") = 203) as Hlen.
    { rewrite !len_chars in *. rewrite chars_append, slice_to_chars by lia.
      rewrite length_app, length_take.
      change (length (String.list_ascii_of_string "...")) with 3%nat. lia. }
    destruct (String.eqb_spec (Py.slice_to 200 (Py.strip text) +:+ "...") "")
      as [Hempty|_].
    + rewrite Hempty in Hlen. done.
    + split; [lia|]. split; [lia|].
      intros Hempty. rewrite Hempty in Hlong. done.
  - destruct (String.eqb_spec (Py.strip text) "") as [Hempty|Hne].
    + split; [done|]. by split.
    + split; [|by split]. split; [|lia].
      destruct (Py.strip text); [done|]. unfold Py.len. simpl. lia.
Qed.

(** An HTTP error, or a response with a status other than 200, is reported
    as "HTTP <status>: " followed by the trimmed body when that has at most
    200 characters, and never by more than 203 characters. *)
Theorem fetch_models_http_error (base_url api_key text : string) (status : Z) :
  urlopen (Py.rstrip_char "/" base_url +:+ "/v1/models")
          ("Bearer " +:+ api_key) = HTTPError status (Some text)
  ∨ (urlopen (Py.rstrip_char "/" base_url +:+ "/v1/models")
             ("Bearer " +:+ api_key) = Response status text ∧ status ≠ 200) →
  ∃ tail,
    fetch_models base_url api_key =
      Raise (RuntimeError ("HTTP " +:+ Py.str status +:+ ": " +:+ tail)) ∧
    0 < Py.len tail ≤ 203 ∧
    (Py.len (Py.strip text) ≤ 200 → Py.strip text ≠ "" → tail = Py.strip text).
Proof.
  intros Hurl. destruct (truncated_body text) as (Hlen & Hshort & _).
  cbv zeta in *. eexists. split; [|split; [exact Hlen|exact Hshort]].
  unfold fetch_models. destruct Hurl as [-> | [-> Hstatus]]; [done|].
  by rewrite (proj2 (Z.eqb_neq _ _) Hstatus).
Qed.
End fetch.

(** ** What a refresh can do *)

Section refresh.
Context `{Platform}.
Implicit Types (a : App).

(** The ways in which [refresh_models] ends. *)
Lemma refresh_models_cases a :
  refresh_models a =
    Ok (set_status_message
          "Base URL and API key are required. Open config with c." a)
  ∨ (∃ message,
       message ≠ "" ∧ refresh_models a = Ok (set_status_message message a))
  ∨ (∃ e, refresh_models a = Raise e)
  ∨ (∃ catalog,
       let validated :=
         (validate_models
            (set_api_key (Py.strip (api_key (config a)))
               (set_base_url (Py.strip (base_url (config a))) (config a)))
            catalog).1 in
       refresh_models a =
         Ok (set_status_message "Models refreshed."
               (update_models_by_owner
                  (set_disk (save_config validated (disk a))
                     (set_config validated
                        (set_models_data (Some catalog)
                           (set_status_message "" a))))))).
Proof.
  destruct (String.eqb_spec (Py.strip (base_url (config a))) "") as [Hb|Hb].
  { left. unfold refresh_models. simpl. by rewrite Hb. }
  destruct (String.eqb_spec (Py.strip (api_key (config a))) "") as [Hk|Hk].
  { left. unfold refresh_models. simpl. rewrite Hk. by rewrite orb_true_r. }
  destruct (fetch_models (Py.strip (base_url (config a)))
              (Py.strip (api_key (config a)))) as [catalog|e] eqn:Hfetch.
  - do 3 right. exists catalog. by apply refresh_models_ok.
  - destruct (runtime_error_or_other e) as [[message ->]|Hother].
    + right. left. exists message.
      pose proof (fetch_models_message _ _ _ Hfetch) as Hmsg. split; [done|].
      unfold refresh_models, fetch_and_store_models. simpl.
      apply String.eqb_neq in Hb, Hk, Hmsg. rewrite Hb, Hk, Hfetch. simpl.
      by rewrite Hmsg.
    + right. right. left. exists e.
      by apply refresh_models_lets_through.
Qed.

(** A refresh that returns always leaves a message for the user, and when
    that message is "Models refreshed." the catalog is stored, the base URL
    and the API key are stored trimmed, and every slot is empty or bound to
    a pair of the stored catalog. *)
Theorem refresh_models_outcome a a' :
  refresh_models a = Ok a' →
  status_message a' ≠ "" ∧
  (status_message a' = "Models refreshed." →
   ∃ catalog,
     models_data a' = Some catalog ∧
     base_url (config a') = Py.strip (base_url (config a)) ∧
     api_key (config a') = Py.strip (api_key (config a)) ∧
     ∀ key, key ∈ MODEL_KEYS →
            slot_valid catalog (get_entry (config a') key)).
Proof.
  intros Hrun.
  destruct (String.eqb_spec (Py.strip (base_url (config a))) "") as [Hb|Hb].
  { unfold refresh_models in Hrun. simpl in Hrun. rewrite Hb in Hrun.
    injection Hrun as <-. done. }
  destruct (String.eqb_spec (Py.strip (api_key (config a))) "") as [Hk|Hk].
  { unfold refresh_models in Hrun. simpl in Hrun.
    rewrite Hk, orb_true_r in Hrun. injection Hrun as <-. done. }
  destruct (fetch_models (Py.strip (base_url (config a)))
              (Py.strip (api_key (config a)))) as [catalog|e] eqn:Hfetch.
  - rewrite (refresh_models_ok a catalog Hb Hk Hfetch) in Hrun.
    injection Hrun as <-. split; [done|]. intros _. exists catalog. simpl.
    unfold validate_models. fold (valid_pairs catalog).
    destruct (validate_models_fold (valid_pairs catalog) MODEL_KEYS
                (set_api_key (Py.strip (api_key (config a)))
                   (set_base_url (Py.strip (base_url (config a))) (config a)))
                false MODEL_KEYS_NoDup) as (Hb' & Hk' & _ & _).
    split_and!; [done|done|done|]. intros key Hkey.
    by destruct (validate_models_slot catalog
                   (set_api_key (Py.strip (api_key (config a)))
                      (set_base_url (Py.strip (base_url (config a))) (config a)))
                   key Hkey) as [Hvalid _].
  - destruct (runtime_error_or_other e) as [[message ->]|Hother].
    + pose proof (fetch_models_message _ _ _ Hfetch) as Hmsg.
      unfold refresh_models, fetch_and_store_models in Hrun. simpl in Hrun.
      apply String.eqb_neq in Hb, Hk. rewrite Hb, Hk, Hfetch in Hrun.
      simpl in Hrun. rewrite (proj2 (String.eqb_neq _ _) Hmsg) in Hrun.
      injection Hrun as <-. simpl. split; [done|].
      intros ->. exfalso.
      unfold fetch_models in Hfetch.
      destruct (urlopen _ _) as [code fp|text|status body| |name];
        [done|done| |done|done].
      destruct (negb (status =? 200)); [done|].
      destruct (json_loads body) as [[| | | | | |payload]|]; try done.
      by destruct (payload !! "data") as [[]|].
    + by rewrite (refresh_models_lets_through a e) in Hrun.
Qed.


End refresh.

(** ** The key handlers *)

Section handlers.
Context `{Platform}.
Implicit Types (a : App) (key : Z).

Lemma persisted_same a a' :
  config a' = config a → disk a' = disk a → persisted a a'.
Proof. intros Hc Hd. split; [by rewrite Hd|by left]. Qed.

Lemma persisted_saved a a' :
  disk a' = (disk a ++ [config a'])%list → persisted a a'.
Proof.
  intros Hd. split; rewrite Hd.
  - by apply prefix_app_r.
  - right. by rewrite last_snoc.
Qed.

(** The three ways in which [cycle_main_option] ends when the focus is on
    a slot. *)
Lemma cycle_main_option_cases (direction : Z) a :
  0 ≤ main_focus_row a ≤ 2 →
  ∃ slot, slot ∈ MODEL_KEYS ∧
    (cycle_main_option direction a = Ok a
     ∨ (∃ owner,
          owner ∈ owner_options (models_by_owner a) ∧
          cycle_main_option direction a =
            Ok (with_config
                  (λ config, update_model_owner config slot (Some owner)) a))
     ∨ (∃ owner id,
          entry_owned_by (get_entry (config a) slot) = Some owner ∧ owner ≠ "" ∧
          id ∈ model_options (models_by_owner a) owner ∧
          cycle_main_option direction a =
            Ok (with_config
                  (λ config, update_model_id config slot (Some owner) (Some id))
                  a))).
Proof.
  intros Hrow. destruct (getitem_MODEL_KEYS _ Hrow) as (slot & Hslot & Hin).
  exists slot. split; [done|]. unfold cycle_main_option. rewrite Hslot. simpl.
  destruct (main_focus_field a =? 0).
  - case_bool_decide as Hempty; [by left|]. right. left.
    match goal with
    | |- context [getitem ?l (?i `mod` _)] =>
        destruct (getitem_mod l i Hempty) as (owner & Hlookup & ->)
    end.
    exists owner. split; [|done]. by eapply list_elem_of_lookup_2.
  - destruct (entry_owned_by (get_entry (config a) slot)) as [owner|] eqn:Howner;
      [|by left]. simpl.
    destruct (String.eqb_spec owner "") as [->|Hne]; [by left|]. simpl.
    case_bool_decide as Hempty; [by left|]. right. right.
    match goal with
    | |- context [getitem ?l (?i `mod` _)] =>
        destruct (getitem_mod l i Hempty) as (id & Hlookup & ->)
    end.
    exists owner, id. split_and!; [done|done| |done].
    by eapply list_elem_of_lookup_2.
Qed.

Lemma cycle_main_option_persisted (direction : Z) a a' :
  cycle_main_option direction a = Ok a' →
  persisted a a' ∧ models_data a' = models_data a
  ∧ models_by_owner a' = models_by_owner a
  ∧ config_focus_index a' = config_focus_index a.
Proof.
  unfold cycle_main_option.
  destruct (getitem MODEL_KEYS (main_focus_row a)) as [slot|]; [simpl|done].
  destruct (main_focus_field a =? 0).
  - case_bool_decide; [intros [= <-]; split; [by apply persisted_same|done]|].
    destruct (getitem _ _); simpl; [|done]. intros [= <-].
    split; [by apply persisted_saved|done].
  - destruct (negb (Py.truthy _));
      [intros [= <-]; split; [by apply persisted_same|done]|].
    case_bool_decide; [intros [= <-]; split; [by apply persisted_same|done]|].
    destruct (getitem _ _); simpl; [|done]. intros [= <-].
    split; [by apply persisted_saved|done].
Qed.

Lemma refresh_models_persisted a a' :
  refresh_models a = Ok a' →
  persisted a a'
  ∧ (index_consistent a → index_consistent a')
  ∧ main_focus_row a' = main_focus_row a
  ∧ config_focus_index a' = config_focus_index a.
Proof.
  destruct (refresh_models_cases a)
    as [Hrun|[(message & _ & Hrun)|[(e0 & Hrun)|(catalog & Hrun)]]];
    rewrite Hrun; try done; intros [= <-].
  - split; [by apply persisted_same|done].
  - split; [by apply persisted_same|done].
  - split; [by apply persisted_saved|]. split; [|done]. by intros _.
Qed.

Lemma handle_text_input_persisted (field : string) key a :
  persisted a (handle_text_input field key a)
  ∧ models_data (handle_text_input field key a) = models_data a
  ∧ models_by_owner (handle_text_input field key a) = models_by_owner a
  ∧ main_focus_row (handle_text_input field key a) = main_focus_row a
  ∧ config_focus_index (handle_text_input field key a) = config_focus_index a.
Proof.
  unfold handle_text_input.
  destruct (key =? Curses.KEY_LEFT);
    [split; [by apply persisted_same|done]|].
  destruct (key =? Curses.KEY_RIGHT);
    [split; [by apply persisted_same|done]|].
  destruct ((key =? Curses.KEY_BACKSPACE) || (key =? 127) || (key =? 8)).
  { destruct (0 <? _); (split; [|done]);
      [by apply persisted_saved|by apply persisted_same]. }
  destruct ((0 <=? key) && (key <=? 255) && Curses.isprint key);
    (split; [|done]); [by apply persisted_saved|by apply persisted_same].
Qed.

Lemma handle_main_key_step key a a' :
  handle_main_key key a = Ok a' →
  persisted a a'
  ∧ (index_consistent a → index_consistent a')
  ∧ config_focus_index a' = config_focus_index a.
Proof.
  unfold handle_main_key.
  repeat match goal with
         | |- context [if ?b then _ else _] =>
             lazymatch b with
             | context [Py.truthy] => fail
             | _ => destruct b
             end
         end;
    try (intros [= <-]; split; [by apply persisted_same|done]).
  - intros (Hp & Hd & Hi & Hf)%cycle_main_option_persisted.
    split; [done|]. split; [|done]. unfold index_consistent. congruence.
  - intros (Hp & Hd & Hi & Hf)%cycle_main_option_persisted.
    split; [done|]. split; [|done]. unfold index_consistent. congruence.
  - intros (Hp & Hi & _ & Hf)%refresh_models_persisted. done.
  - destruct (Py.truthy (validate_launch_requirements _));
      [intros [= <-]; split; [by apply persisted_same|done]|].
    destruct (launch_with_curses _) as [error|]; simpl; [|done].
    destruct (Py.truthy error);
      intros [= <-]; (split; [by apply persisted_same|done]).
Qed.

Lemma handle_config_key_step key a a' :
  handle_config_key key a = Ok a' →
  persisted a a'
  ∧ (index_consistent a → index_consistent a')
  ∧ main_focus_row a' = main_focus_row a
  ∧ (0 ≤ config_focus_index a ≤ 4 → 0 ≤ config_focus_index a' ≤ 4).
Proof.
  unfold handle_config_key.
  destruct (key =? 27).
  { intros ([Hprefix Hlast] & Hi & Hrow & Hf)%refresh_models_persisted.
    simpl in *. split_and!; [|done|done|lia].
    split; [|done]. etrans; [|done]. by apply prefix_app_r. }
  destruct (key =? Curses.KEY_UP).
  { intros [= <-]. split; [by apply persisted_same|]. simpl. split_and!; [done..|lia]. }
  destruct (key =? Curses.KEY_DOWN).
  { intros [= <-]. split; [by apply persisted_same|]. simpl.
    split_and!; [done..|]. change (Z.of_nat (length CONFIG_FIELDS) - 1) with 4. lia. }
  destruct (getitem CONFIG_FIELDS (config_focus_index a)) as [field|];
    [simpl|done].
  destruct ((field =? "base_url")%string || (field =? "api_key")%string).
  { intros [= <-].
    destruct (handle_text_input_persisted field key a) as (Hp & Hd & Hi & Hr & Hf).
    split; [done|]. split_and!; [|done|lia].
    unfold index_consistent. congruence. }
  destruct ((key =? Curses.KEY_ENTER) || (key =? 10) || (key =? 13) || (key =? 32));
    intros [= <-].
  - split; [by apply persisted_saved|done].
  - split; [by apply persisted_same|done].
Qed.

Lemma key_handlers_persisted key a a' :
  handle_main_key key a = Ok a' ∨ handle_config_key key a = Ok a' →
  persisted a a'.
Proof.
  intros [Hrun|Hrun].
  - by apply handle_main_key_step in Hrun as [? _].
  - by apply handle_config_key_step in Hrun as [? _].
Qed.

(** Whatever key is handled on either screen, nothing written to disk is
    lost, and if the configuration changed, the new configuration is the
    last one written. *)
Theorem key_press_persisted key a a' :
  handle_main_key key a = Ok a' ∨ handle_config_key key a = Ok a' →
  persisted a a'.
Proof. apply key_handlers_persisted. Qed.

Lemma key_handlers_index key a a' :
  handle_main_key key a = Ok a' ∨ handle_config_key key a = Ok a' →
  index_consistent a → index_consistent a'.
Proof.
  intros [Hrun|Hrun].
  - by apply handle_main_key_step in Hrun as (_ & ? & _).
  - by apply handle_config_key_step in Hrun as (_ & ? & _).
Qed.

(** The owner index is the grouping of the stored catalog when the
    application starts, and every key handled on either screen keeps it
    so. *)
Theorem key_press_index_consistent :
  (∀ args file logo_lines render_style,
     index_consistent (init args file logo_lines render_style)) ∧
  (∀ key a a',
     handle_main_key key a = Ok a' ∨ handle_config_key key a = Ok a' →
     index_consistent a → index_consistent a').
Proof. split; [done|]. apply key_handlers_index. Qed.

Lemma key_handlers_focus key a a' :
  handle_main_key key a = Ok a' ∨ handle_config_key key a = Ok a' →
  focus_ok a → focus_ok a'.
Proof.
  intros [Hrun|Hrun] [Hrow Hfield].
  - split; [by eapply handle_main_key_focus|].
    apply handle_main_key_step in Hrun as (_ & _ & ->). done.
  - apply handle_config_key_step in Hrun as (_ & _ & Hr & Hf).
    split; [by rewrite Hr|auto].
Qed.

(** Every key handled on either screen leaves the focus of the main screen
    on one of the three slots and the focus of the configuration screen on
    one of its five fields. *)
Theorem key_press_focus key a a' :
  handle_main_key key a = Ok a' ∨ handle_config_key key a = Ok a' →
  focus_ok a → focus_ok a'.
Proof. apply key_handlers_focus. Qed.

Lemma handle_main_key_enter a :
  handle_main_key 10 a =
    let a := set_status_message "" a in
    let error := validate_launch_requirements (config a) in
    if Py.truthy error then Ok (set_status_message (default "" error) a)
    else
      error ← launch_with_curses a;
      if Py.truthy error then Ok (set_status_message (default "" error) a)
      else Ok (set_should_exit true a).
Proof. reflexivity. Qed.

Lemma check_selections_reason (config : Config) keys (reason : string) :
  check_selections config keys = Some reason → reason ≠ "".
Proof.
  induction keys as [|k keys IH]; simpl; [done|].
  destruct (_ || _); [by intros [= <-]|done].
Qed.

(** The enter key on the main screen, in each of its three codes.  When
    [validate_launch_requirements] gives a reason, the reason becomes the
    status message and nothing else changes.  Otherwise [claude] is run
    with the environment of [build_env]: when it completes, the exit flag
    is set; [FileNotFoundError] and [CalledProcessError] become a status
    message and nothing else changes; every other exception of
    [subprocess.run], such as the [PermissionError] of a [claude] that is
    not executable, leaves the handler. *)
Theorem enter_key_outcome key a :
  key = Curses.KEY_ENTER ∨ key = 10 ∨ key = 13 →
  handle_main_key key a =
    match validate_launch_requirements (config a) with
    | Some reason => Ok (set_status_message reason a)
    | None =>
        match subprocess_run ("claude" :: args a)
                (build_env os_environ (config a) false) with
        | Completed => Ok (set_should_exit true (set_status_message "" a))
        | FileNotFoundError =>
            Ok (set_status_message "Could not find 'claude' on PATH." a)
        | CalledProcessError returncode =>
            Ok (set_status_message
                  ("claude exited with code " +:+ Py.str returncode +:+ ".") a)
        | RunOSError name => Raise (OSError name)
        | RunValueError => Raise ValueError
        end
    end.
Proof.
  intros Hkey.
  assert (handle_main_key key a = handle_main_key 10 a) as ->
    by (by destruct Hkey as [->|[->| ->]]).
  rewrite handle_main_key_enter. cbv zeta.
  change (config (set_status_message "" a)) with (config a).
  unfold launch_with_curses, launch_claude.
  change (config (set_status_message "" a)) with (config a).
  change (args (set_status_message "" a)) with (args a).
  unfold validate_launch_requirements.
  destruct ((Py.strip (base_url (config a)) =? "")%string
            || (Py.strip (api_key (config a)) =? "")%string); [done|].
  destruct (check_selections (config a) MODEL_KEYS) as [reason|] eqn:Hcheck.
  { pose proof (check_selections_reason _ _ _ Hcheck) as Hreason. simpl.
    by rewrite (proj2 (String.eqb_neq _ _) Hreason). }
  simpl. by destruct (subprocess_run _ _) as [| |returncode|name|].
Qed.
End handlers.

(** ** Cycling there and back *)

Lemma owner_options_NoDup (index : gmap string (list string)) :
  NoDup (owner_options index).
Proof. unfold owner_options. rewrite sorted_Permutation. apply NoDup_elements. Qed.

Lemma index_lookup_NoDup (l : list string) (x : string) (j : Z) :
  NoDup l → 0 ≤ j → l !! Z.to_nat j = Some x → Py.index l x = Some j.
Proof.
  intros Hnd Hj Hx.
  assert (x ∈ l) as [k Hk]%index_is_Some by by eapply list_elem_of_lookup_2.
  destruct (index_Some l x k Hk) as [Hrange Hlookup].
  rewrite Hk. f_equal.
  pose proof (NoDup_lookup l _ _ x Hnd Hlookup Hx). lia.
Qed.

(** On a list without duplicates, one step forward from a listed value
    and one step backward lead back to it. *)
Lemma step_forward_backward (l : list string) (s : string) (i : Z) :
  NoDup l → Py.index l s = Some i →
  ∃ x, l !! Z.to_nat ((i + 1) `mod` Z.of_nat (length l)) = Some x ∧
       Py.index l x = Some ((i + 1) `mod` Z.of_nat (length l)) ∧
       l !! Z.to_nat (((i + 1) `mod` Z.of_nat (length l) + -1)
                      `mod` Z.of_nat (length l)) = Some s.
Proof.
  intros Hnd Hi. destruct (index_Some l s i Hi) as [Hrange Hs].
  assert (l ≠ []) as Hne by (intros ->; simpl in Hrange; lia).
  destruct (getitem_mod l (i + 1) Hne) as (x & Hx & _).
  pose proof (Z.mod_pos_bound (i + 1) (Z.of_nat (length l))) as Hbound.
  exists x. split_and!; [done| |].
  - apply index_lookup_NoDup; [done|lia|done].
  - rewrite Zplus_mod_idemp_l. replace (i + 1 + -1) with i by lia.
    by rewrite Z.mod_small by lia.
Qed.

Lemma cycle_owner_known (direction : Z) (a : App) (slot s next : string) (i : Z) :
  getitem MODEL_KEYS (main_focus_row a) = Ok slot →
  main_focus_field a = 0 →
  entry_owned_by (get_entry (config a) slot) = Some s →
  Py.index (owner_options (models_by_owner a)) s = Some i →
  getitem (owner_options (models_by_owner a))
    ((i + direction) `mod` Z.of_nat (length (owner_options (models_by_owner a))))
    = Ok next →
  cycle_main_option direction a =
    Ok (with_config (λ config, update_model_owner config slot (Some next)) a).
Proof.
  intros Hslot Hfield Hcur Hi Hget.
  assert (s ∈ owner_options (models_by_owner a)) as Hin
    by (apply index_is_Some; by eexists).
  unfold cycle_main_option. rewrite Hslot. simpl. rewrite Hfield. simpl.
  rewrite bool_decide_eq_false_2
    by (intros Hnil; rewrite Hnil in Hin; by apply elem_of_nil in Hin).
  rewrite Hcur. simpl. rewrite bool_decide_eq_true_2 by done.
  rewrite Hi. simpl. by rewrite Hget.
Qed.

(** Cycling the owner of the focused slot forward and then backward gives
    back the owner, when that owner is offered and no offered owner is the
    empty string; the id of the slot is null afterwards. *)
Theorem cycle_owner_forward_backward (a : App) (slot owner : string) :
  getitem MODEL_KEYS (main_focus_row a) = Ok slot →
  main_focus_field a = 0 →
  entry_owned_by (get_entry (config a) slot) = Some owner →
  owner ∈ owner_options (models_by_owner a) →
  "" ∉ owner_options (models_by_owner a) →
  ∃ a1 a2,
    cycle_main_option 1 a = Ok a1 ∧ cycle_main_option (-1) a1 = Ok a2 ∧
    get_entry (config a2) slot = Entry (Some owner) None.
Proof.
  intros Hslot Hfield Howner Hin Hempty.
  set (owners := owner_options (models_by_owner a)) in *.
  assert (owners ≠ []) as Hne
    by (intros Hnil; rewrite Hnil in Hin; by apply elem_of_nil in Hin).
  pose proof (owner_options_NoDup (models_by_owner a)) as Hnd. fold owners in Hnd.
  destruct (proj1 (index_is_Some owners owner) Hin) as [i Hi].
  destruct (step_forward_backward owners owner i Hnd Hi)
    as (next & Hnext & Hj & Hback).
  assert (next ≠ "") as Hnext_ne.
  { intros ->. apply Hempty. by eapply list_elem_of_lookup_2. }
  assert (owner ≠ "") as Howner_ne by (by intros ->).
  assert (getitem owners ((i + 1) `mod` Z.of_nat (length owners)) = Ok next)
    as Hget1.
  { destruct (getitem_mod owners (i + 1) Hne) as (x & Hx & ->). congruence. }
  assert (getitem owners (((i + 1) `mod` Z.of_nat (length owners) + -1)
                          `mod` Z.of_nat (length owners)) = Ok owner) as Hget2.
  { destruct (getitem_mod owners ((i + 1) `mod` Z.of_nat (length owners) + -1) Hne)
      as (x & Hx & ->). congruence. }
  set (a1 := with_config (λ config, update_model_owner config slot (Some next)) a).
  assert (entry_owned_by (get_entry (config a1) slot) = Some next) as Hcur.
  { subst a1. unfold with_config, update_model_owner, get_entry. simpl.
    rewrite lookup_insert_eq. simpl.
    by rewrite (proj2 (String.eqb_neq _ _) Hnext_ne). }
  exists a1. eexists. split_and!.
  - by apply (cycle_owner_known 1 a slot owner next i).
  - by apply (cycle_owner_known (-1) a1 slot next owner
                ((i + 1) `mod` Z.of_nat (length owners))).
  - unfold with_config, update_model_owner, get_entry. simpl.
    rewrite lookup_insert_eq. simpl.
    by rewrite (proj2 (String.eqb_neq _ _) Howner_ne).
Qed.

(** ** Slots keep their owner *)

Section paired.
Context `{Platform}.
Implicit Types (a : App) (key : Z).

Lemma slot_valid_paired (catalog : list model) (e : entry) :
  slot_valid catalog e → slot_paired e.
Proof. intros [-> | (Ho & Hi & _)]; [by left|by right]. Qed.

Lemma slots_paired_set (config : Config) (slot : string) (e : entry) :
  slots_paired config → slot_paired e → slots_paired (set_model slot e config).
Proof.
  intros Hall He k Hk. unfold get_entry. simpl.
  destruct (decide (slot = k)) as [->|Hne].
  - by rewrite lookup_insert_eq.
  - rewrite lookup_insert_ne by done. by apply Hall.
Qed.

Lemma update_model_owner_paired (config : Config) slot owner disk :
  slots_paired config → slots_paired (update_model_owner config slot owner disk).1.
Proof. intros Hall. apply slots_paired_set; [done|by left]. Qed.

Lemma update_model_id_paired (config : Config) slot owner id disk :
  slots_paired config → slots_paired (update_model_id config slot owner id disk).1.
Proof.
  intros Hall. unfold update_model_id. simpl.
  destruct (Py.truthy owner) eqn:Ho; simpl.
  - destruct (Py.truthy id) eqn:Hi; apply slots_paired_set; try done.
    + right. split; by apply truthy_present.
    + by left.
  - apply slots_paired_set; [done|by left].
Qed.

Lemma cycle_main_option_paired (direction : Z) a a' :
  cycle_main_option direction a = Ok a' →
  slots_paired (config a) → slots_paired (config a').
Proof.
  unfold cycle_main_option.
  destruct (getitem MODEL_KEYS (main_focus_row a)) as [slot|]; [simpl|done].
  destruct (main_focus_field a =? 0).
  - case_bool_decide; [by intros [= <-]|].
    destruct (getitem _ _); simpl; [|done]. intros [= <-] Hall.
    by apply (update_model_owner_paired _ _ _ (disk a)).
  - destruct (negb (Py.truthy _)); [by intros [= <-]|].
    case_bool_decide; [by intros [= <-]|].
    destruct (getitem _ _); simpl; [|done]. intros [= <-] Hall.
    by apply (update_model_id_paired _ _ _ _ (disk a)).
Qed.

Lemma refresh_models_paired a a' :
  refresh_models a = Ok a' →
  slots_paired (config a) → slots_paired (config a').
Proof.
  destruct (refresh_models_cases a)
    as [Hrun|[(message & _ & Hrun)|[(e0 & Hrun)|(catalog & Hrun)]]];
    rewrite Hrun; try done; intros [= <-]; [done..|].
  intros _ slot Hslot. simpl. eapply slot_valid_paired.
  by apply validate_models_slot.
Qed.

Lemma handle_text_input_models (field : string) key a :
  field = "base_url" ∨ field = "api_key" →
  models (config (handle_text_input field key a)) = models (config a).
Proof.
  intros Hfield. unfold handle_text_input.
  destruct (key =? Curses.KEY_LEFT); [done|].
  destruct (key =? Curses.KEY_RIGHT); [done|].
  destruct ((key =? Curses.KEY_BACKSPACE) || (key =? 127) || (key =? 8)).
  { destruct (0 <? _); [|done]. by destruct Hfield as [-> | ->]. }
  destruct ((0 <=? key) && (key <=? 255) && Curses.isprint key); [|done].
  by destruct Hfield as [-> | ->].
Qed.

Lemma key_handlers_paired key a a' :
  handle_main_key key a = Ok a' ∨ handle_config_key key a = Ok a' →
  slots_paired (config a) → slots_paired (config a').
Proof.
  intros [Hrun|Hrun]; revert Hrun.
  - unfold handle_main_key.
    repeat match goal with
           | |- context [if ?b then _ else _] =>
               lazymatch b with
               | context [Py.truthy] => fail
               | _ => destruct b
               end
           end;
      try (by intros [= <-]).
    + apply cycle_main_option_paired.
    + apply cycle_main_option_paired.
    + apply refresh_models_paired.
    + destruct (Py.truthy (validate_launch_requirements _)); [by intros [= <-]|].
      destruct (launch_with_curses _) as [error|]; simpl; [|done].
      by destruct (Py.truthy error); intros [= <-].
  - unfold handle_config_key.
    destruct (key =? 27).
    { intros Hrun Hall. by apply (refresh_models_paired _ _ Hrun). }
    destruct (key =? Curses.KEY_UP); [by intros [= <-]|].
    destruct (key =? Curses.KEY_DOWN); [by intros [= <-]|].
    destruct (getitem CONFIG_FIELDS (config_focus_index a)) as [field|];
      [simpl|done].
    destruct ((field =? "base_url")%string || (field =? "api_key")%string)
      eqn:Hfield.
    { intros [= <-] Hall slot Hslot. unfold get_entry.
      rewrite handle_text_input_models; [by apply Hall|].
      apply orb_true_iff in Hfield as [?%String.eqb_eq|?%String.eqb_eq]; auto. }
    by destruct (_ || _ || _ || _); intros [= <-].
Qed.

(** A slot never holds an id without an owner: when every slot is without
    an id or holds a non-empty owner and a non-empty id, it is still so
    after any key handled on either screen. *)
Theorem key_press_slots_paired key a a' :
  handle_main_key key a = Ok a' ∨ handle_config_key key a = Ok a' →
  slots_paired (config a) → slots_paired (config a').
Proof. apply key_handlers_paired. Qed.
End paired.

(** ** The event loop *)

Section loop.
Context `{Platform} (draw : App → result unit).
Implicit Types (a : App) (key : Z) (keys : list Z).

Lemma run_turn_step key a a' :
  run_turn key a = Ok a' →
  (focus_ok a → focus_ok a')
  ∧ (index_consistent a → index_consistent a')
  ∧ (slots_paired (config a) → slots_paired (config a'))
  ∧ persisted a a'
  ∧ frame a ≤ frame a' ≤ frame a + 1.
Proof.
  unfold run_turn.
  destruct (key =? KEY_RESIZE).
  { intros [= <-]. split_and!; [done..|by apply persisted_same|lia|lia]. }
  destruct (key =? -1).
  { intros [= <-]. split_and!; [done..|by apply persisted_same|simpl; lia|simpl; lia]. }
  assert (∀ a1,
    (handle_main_key key a = Ok a1 ∨ handle_config_key key a = Ok a1) →
    frame a1 = frame a) as Hframe.
  { intros a1 [Hrun|Hrun].
    - revert Hrun. unfold handle_main_key.
      repeat match goal with
             | |- context [if ?b then _ else _] =>
                 lazymatch b with
                 | context [Py.truthy] => fail
                 | _ => destruct b
                 end
             end;
        try (by intros [= <-]).
      + unfold cycle_main_option.
        destruct (getitem MODEL_KEYS _); [simpl|done].
        destruct (_ =? 0).
        * case_bool_decide; [by intros [= <-]|].
          destruct (getitem _ _); simpl; [by intros [= <-]|done].
        * destruct (negb _); [by intros [= <-]|].
          case_bool_decide; [by intros [= <-]|].
          destruct (getitem _ _); simpl; [by intros [= <-]|done].
      + unfold cycle_main_option.
        destruct (getitem MODEL_KEYS _); [simpl|done].
        destruct (_ =? 0).
        * case_bool_decide; [by intros [= <-]|].
          destruct (getitem _ _); simpl; [by intros [= <-]|done].
        * destruct (negb _); [by intros [= <-]|].
          case_bool_decide; [by intros [= <-]|].
          destruct (getitem _ _); simpl; [by intros [= <-]|done].
      + destruct (refresh_models_cases a)
          as [Hr|[(message & _ & Hr)|[(e0 & Hr)|(catalog & Hr)]]];
          rewrite Hr; try done; by intros [= <-].
      + destruct (Py.truthy (validate_launch_requirements _)); [by intros [= <-]|].
        destruct (launch_with_curses _) as [error|]; simpl; [|done].
        by destruct (Py.truthy error); intros [= <-].
    - revert Hrun. unfold handle_config_key.
      destruct (key =? 27).
      { set (a0 := set_active_screen _ _).
        destruct (refresh_models_cases a0)
          as [Hr|[(message & _ & Hr)|[(e0 & Hr)|(catalog & Hr)]]];
          rewrite Hr; try done; by intros [= <-]. }
      destruct (key =? Curses.KEY_UP); [by intros [= <-]|].
      destruct (key =? Curses.KEY_DOWN); [by intros [= <-]|].
      destruct (getitem CONFIG_FIELDS _) as [field|]; [simpl|done].
      destruct (_ || _).
      { intros [= <-]. unfold handle_text_input.
        destruct (key =? Curses.KEY_LEFT); [done|].
        destruct (key =? Curses.KEY_RIGHT); [done|].
        destruct (_ || _ || _); [by destruct (0 <? _)|].
        by destruct (_ && _ && _). }
      by destruct (_ || _); intros [= <-]. }
  assert (∀ a1,
    (handle_main_key key a = Ok a1 ∨ handle_config_key key a = Ok a1) →
    (focus_ok a → focus_ok (set_frame (frame a1 + 1) a1))
    ∧ (index_consistent a → index_consistent (set_frame (frame a1 + 1) a1))
    ∧ (slots_paired (config a) →
       slots_paired (config (set_frame (frame a1 + 1) a1)))
    ∧ persisted a (set_frame (frame a1 + 1) a1)
    ∧ frame a ≤ frame (set_frame (frame a1 + 1) a1) ≤ frame a + 1) as Hstep.
  { intros a1 Hrun. split_and!.
    - by apply (key_handlers_focus key a a1).
    - by apply (key_handlers_index key a a1).
    - by apply (key_handlers_paired key a a1).
    - by apply (key_handlers_persisted key a a1).
    - simpl. rewrite (Hframe a1 Hrun). lia.
    - simpl. rewrite (Hframe a1 Hrun). lia. }
  destruct (active_screen a).
  - destruct (handle_main_key key a) as [a1|] eqn:Hrun; simpl; [|done].
    intros [= <-]. apply Hstep. by left.
  - destruct (handle_config_key key a) as [a1|] eqn:Hrun; simpl; [|done].
    intros [= <-]. apply Hstep. by right.
Qed.

Lemma run_loop_keeps keys a a' :
  run_loop draw keys a = Ok a' →
  (focus_ok a → focus_ok a')
  ∧ (index_consistent a → index_consistent a')
  ∧ (slots_paired (config a) → slots_paired (config a'))
  ∧ disk a `prefix_of` disk a'
  ∧ frame a ≤ frame a' ≤ frame a + Z.of_nat (length keys).
Proof.
  revert a. induction keys as [|key keys IH]; intros a; simpl.
  - destruct (should_exit a); intros [= <-]; split_and!; done || lia.
  - destruct (should_exit a); [intros [= <-]; split_and!; done || lia|].
    destruct (draw a) as [[]|]; simpl; [|done].
    destruct (run_turn key a) as [a1|] eqn:Hturn; simpl; [|done].
    intros Hrest.
    destruct (run_turn_step key a a1 Hturn) as (Hf & Hi & Hp & [Hd _] & Hfr).
    destruct (IH a1 Hrest) as (Hf' & Hi' & Hp' & Hd' & Hfr').
    split_and!; [auto..|by etrans|lia|lia].
Qed.

(** Once the exit flag is set the loop handles no further key. *)
Lemma run_loop_exit keys a :
  should_exit a = true → run_loop draw keys a = Ok a.
Proof. intros Hexit. destruct keys; simpl; by rewrite Hexit. Qed.

Lemma init_colors_state has_colors started pairs a :
  let a0 := init_colors has_colors started pairs a in
  config a0 = config a ∧ models_data a0 = models_data a
  ∧ models_by_owner a0 = models_by_owner a
  ∧ main_focus_row a0 = main_focus_row a
  ∧ config_focus_index a0 = config_focus_index a
  ∧ disk a0 = disk a ∧ frame a0 = frame a.
Proof. unfold init_colors. by destruct has_colors, started. Qed.

Lemma refresh_models_frame a a' : refresh_models a = Ok a' → frame a' = frame a.
Proof.
  destruct (refresh_models_cases a)
    as [Hr|[(message & _ & Hr)|[(e0 & Hr)|(catalog & Hr)]]];
    rewrite Hr; try done; by intros [= <-].
Qed.

Lemma run_first_refresh a a' :
  match active_screen a with
  | MainScreen => refresh_models a
  | ConfigScreen => Ok a
  end = Ok a' →
  (focus_ok a → focus_ok a')
  ∧ (index_consistent a → index_consistent a')
  ∧ (slots_paired (config a) → slots_paired (config a'))
  ∧ disk a `prefix_of` disk a'
  ∧ frame a' = frame a.
Proof.
  destruct (active_screen a); [|by intros [= <-]].
  intros Hrun.
  destruct (refresh_models_persisted a a' Hrun) as ([Hd _] & Hi & Hr & Hc).
  split_and!.
  - unfold focus_ok. by rewrite Hr, Hc.
  - done.
  - by apply refresh_models_paired.
  - done.
  - by apply refresh_models_frame.
Qed.

(** Whatever keys arrive, and whatever drawing does, a [run] that returns
    has kept the focus on a slot and on a field, the owner index equal to
    the grouping of the stored catalog and every slot with an id also with
    an owner; it has lost nothing that was written to disk, and its frame
    counter never decreases and grows by at most one per key. *)
Theorem run_invariant has_colors started pairs keys a a' :
  run draw has_colors started pairs keys a = Ok a' →
  (focus_ok a → focus_ok a')
  ∧ (index_consistent a → index_consistent a')
  ∧ (slots_paired (config a) → slots_paired (config a'))
  ∧ disk a `prefix_of` disk a'
  ∧ frame a ≤ frame a' ≤ frame a + Z.of_nat (length keys).
Proof.
  unfold run.
  destruct (init_colors_state has_colors started pairs a)
    as (Hc & Hd & Hm & Hr & Hi & Hk & Hf).
  set (a0 := init_colors has_colors started pairs a) in *.
  destruct (match active_screen a0 with
            | MainScreen => refresh_models a0
            | ConfigScreen => Ok a0
            end) as [a1|] eqn:Hfirst; simpl; [|done].
  intros Hloop.
  destruct (run_first_refresh a0 a1 Hfirst) as (Hf1 & Hi1 & Hp1 & Hd1 & Hfr1).
  destruct (run_loop_keeps keys a1 a' Hloop) as (Hf2 & Hi2 & Hp2 & Hd2 & Hfr2).
  split_and!.
  - intros Hfocus. apply Hf2, Hf1. unfold focus_ok. by rewrite Hr, Hi.
  - intros Hindex. apply Hi2, Hi1. unfold index_consistent. by rewrite Hm, Hd.
  - intros Hpaired. apply Hp2, Hp1. by rewrite Hc.
  - rewrite <-Hk. by etrans.
  - lia.
  - lia.
Qed.
End loop.

(** ** The Rain animation *)

Section rain.
Context `{Window W}.
Variables (a : App) (start_y base_x : Z).

Lemma rain_inner_loop (row : Z) (cells : list (Z * Ascii.ascii)) (stdscr : W) :
  foldl (λ stdscr '(col, ch),
           if Ascii.eqb ch " " then stdscr
           else addstr_safe stdscr (start_y + row) (base_x + col)
                  (String ch "") (rain_attr a row col))
        stdscr cells =
  foldl (paint_rain a start_y base_x) stdscr
    ('(col, ch) ← cells; if Ascii.eqb ch " " then [] else [(row, col, ch)]).
Proof.
  revert stdscr. induction cells as [|[col ch] cells IH]; intros stdscr; [done|].
  cbn [foldl]. rewrite IH, bind_cons, foldl_app.
  by destruct (Ascii.eqb ch " ").
Qed.

Lemma rain_outer_loop (rows : list (Z * string)) (stdscr : W) :
  foldl (λ stdscr '(row, line),
           foldl (λ stdscr '(col, ch),
                    if Ascii.eqb ch " " then stdscr
                    else addstr_safe stdscr (start_y + row) (base_x + col)
                           (String ch "") (rain_attr a row col))
                 stdscr (enumerate (String.list_ascii_of_string line)))
        stdscr rows =
  foldl (paint_rain a start_y base_x) stdscr
    ('(row, line) ← rows;
     '(col, ch) ← enumerate (String.list_ascii_of_string line);
     if Ascii.eqb ch " " then [] else [(row, col, ch)]).
Proof.
  revert stdscr. induction rows as [|[row line] rows IH]; intros stdscr; [done|].
  cbn [foldl]. by rewrite IH, bind_cons, foldl_app, rain_inner_loop.
Qed.
End rain.

Lemma rain_attr_color (a : App) (row col : Z) :
  use_color a = true → color_pairs a ≠ [] →
  ∃ pair_id,
    color_pairs a
      !! Z.to_nat ((row - frame a `div` 2)
                   `mod` Z.of_nat (length (color_pairs a))) = Some pair_id ∧
    rain_attr a row col =
      Z.lor (Curses.color_pair pair_id)
        (if bool_decide ((col * 7 + row * 13 + frame a) `mod` 17 = 0)
         then Curses.A_BOLD else 0).
Proof.
  intros Hcolor Hpairs. unfold rain_attr.
  rewrite Hcolor, bool_decide_eq_false_2 by done. cbn [negb andb].
  destruct (getitem_mod (color_pairs a) (row - frame a `div` 2) Hpairs)
    as (pair_id & Hpair & _).
  exists pair_id. split; [done|]. rewrite Hpair. cbn [default].
  destruct (Z.eqb_spec ((col * 7 + row * 13 + frame a) `mod` 17) 0).
  - by rewrite bool_decide_eq_true_2.
  - rewrite bool_decide_eq_false_2 by done. by rewrite Z.lor_0_r.
Qed.

Lemma color_of_color_pair (n : Z) (sparkle : bool) :
  Z.land (Z.lor (Curses.color_pair n) (if sparkle then Curses.A_BOLD else 0))
    Curses.A_COLOR = Curses.color_pair n.
Proof.
  rewrite Z.land_lor_distr_l. unfold Curses.color_pair at 1.
  rewrite <-Z.land_assoc, Z.land_diag. fold (Curses.color_pair n).
  assert (Z.land (if sparkle then Curses.A_BOLD else 0) Curses.A_COLOR = 0) as ->
    by (by destruct sparkle).
  apply Z.lor_0_r.
Qed.

Lemma rain_attr_plain (a : App) (row col : Z) :
  use_color a = false ∨ color_pairs a = [] → rain_attr a row col = 0.
Proof.
  intros Hplain. unfold rain_attr.
  destruct Hplain as [-> | ->]; [done|]. by rewrite andb_false_r.
Qed.

Lemma rain_color_row (a : App) (row col : Z) :
  Z.land (rain_attr a row col) Curses.A_COLOR =
  if use_color a && negb (bool_decide (color_pairs a = []))
  then Curses.color_pair
         (default 0 (color_pairs a
            !! Z.to_nat ((row - frame a `div` 2)
                         `mod` Z.of_nat (length (color_pairs a)))))
  else 0.
Proof.
  destruct (use_color a) eqn:Hcolor; cbn [andb].
  - case_bool_decide as Hpairs; cbn [negb].
    + by rewrite rain_attr_plain by by right.
    + destruct (rain_attr_color a row col Hcolor Hpairs) as (pair_id & -> & ->).
      by rewrite color_of_color_pair.
  - by rewrite rain_attr_plain by by left.
Qed.

(** Under the Rain style every non-space glyph is painted once, at its own
    row and column from the anchor, and an empty banner raises the
    [ValueError] of [max].  With colour in use and a palette that is not
    empty the index [(row - frame // 2) mod palette_size] is always inside
    the palette, also when it starts from a negative number, and the glyph is
    bold exactly when [(col * 7 + row * 13 + frame) mod 17 = 0]; without
    colour the glyph has no attribute.  The colour of a glyph is the same
    along a row, and two frames later it is the colour of the row below. *)
Theorem render_style_rain_cells `{Window W} (a : App) :
  (∀ (stdscr : W) (start_y : Z),
     render_style_rain a stdscr start_y =
       match py_max (Py.len <$> logo_lines a) with
       | Ok max_len =>
           Ok (foldl (paint_rain a start_y
                        (Z.max 0 (((getmaxyx stdscr).2 - max_len) `div` 2)))
                 stdscr (glyphs (logo_lines a)))
       | Raise e => Raise e
       end) ∧
  (∀ (stdscr : W) (start_y : Z),
     logo_lines a = [] → render_style_rain a stdscr start_y = Raise ValueError) ∧
  (∀ row col : Z,
     use_color a = true → color_pairs a ≠ [] →
     ∃ pair_id,
       color_pairs a
         !! Z.to_nat ((row - frame a `div` 2)
                      `mod` Z.of_nat (length (color_pairs a))) = Some pair_id ∧
       rain_attr a row col =
         Z.lor (Curses.color_pair pair_id)
           (if bool_decide ((col * 7 + row * 13 + frame a) `mod` 17 = 0)
            then Curses.A_BOLD else 0) ∧
       (Curses.bold (rain_attr a row col) = true
        ↔ (col * 7 + row * 13 + frame a) `mod` 17 = 0)) ∧
  (∀ row col : Z,
     use_color a = false ∨ color_pairs a = [] → rain_attr a row col = 0) ∧
  (∀ row col col' : Z,
     Z.land (rain_attr a row col) Curses.A_COLOR =
     Z.land (rain_attr a row col') Curses.A_COLOR) ∧
  (∀ row col col' : Z,
     Z.land (rain_attr (set_frame (frame a + 2) a) (row + 1) col) Curses.A_COLOR =
     Z.land (rain_attr a row col') Curses.A_COLOR).
Proof.
  split_and!.
  - intros stdscr start_y. unfold render_style_rain.
    destruct (getmaxyx stdscr) as [height width].
    destruct (py_max _) as [max_len|e]; simpl; [|done]. f_equal.
    apply rain_outer_loop.
  - intros stdscr start_y Hlines. unfold render_style_rain. rewrite Hlines.
    by destruct (getmaxyx stdscr).
  - intros row col Hcolor Hpairs.
    destruct (rain_attr_color a row col Hcolor Hpairs) as (pair_id & Hpair & Hattr).
    exists pair_id. split_and!; [done..|].
    rewrite Hattr. unfold Curses.bold. rewrite Z.lor_spec.
    fold (Curses.bold (Curses.color_pair pair_id)).
    rewrite color_pair_not_bold. cbn [orb]. case_bool_decide; split; done.
  - apply rain_attr_plain.
  - intros row col col'. by rewrite !rain_color_row.
  - intros row col col'. rewrite !rain_color_row. simpl.
    replace ((row + 1 - (frame a + 2) `div` 2)) with (row - frame a `div` 2);
      [done|].
    replace (frame a + 2) with (frame a + 1 * 2) by lia.
    rewrite Z.div_add by lia. lia.
Qed.

(** ** The inherited environment *)

Lemma models_loop_keeps (config : Config) (env : gmap string string)
    (keys : list string) (name : string) :
  is_Some (env !! name) →
  is_Some (foldl (λ env key,
                    let model_id := entry_id (get_entry config key) in
                    if Py.truthy model_id
                    then <[model_variable key := default "" model_id]> env
                    else env)
                 env keys !! name).
Proof.
  revert env. induction keys as [|key keys IH]; intros env Hname; [done|].
  cbn [foldl]. apply IH. cbv zeta. destruct (Py.truthy _); [|done].
  destruct (decide (model_variable key = name)) as [->|Hne].
  - by rewrite lookup_insert_eq.
  - by rewrite lookup_insert_ne.
Qed.

(** [build_env] only adds to the inherited environment.  A variable that
    is neither one of the two fixed names, nor the model variable of a slot,
    nor a toggle of the configuration, has the value it had in [os.environ];
    no inherited variable is removed; and the masked environment differs
    from the real one in the auth token at most. *)
Theorem build_env_inherits (environ : gmap string string) (config : Config) :
  (∀ (masked : bool) (name : string),
     name ≠ "ANTHROPIC_BASE_URL" → name ≠ "ANTHROPIC_AUTH_TOKEN" →
     name ∉ model_variable <$> MODEL_KEYS → toggles config !! name = None →
     build_env environ config masked !! name = environ !! name) ∧
  (∀ (masked : bool) (name : string),
     is_Some (environ !! name) →
     is_Some (build_env environ config masked !! name)) ∧
  (∀ name : string,
     name ≠ "ANTHROPIC_AUTH_TOKEN" →
     build_env environ config true !! name =
     build_env environ config false !! name).
Proof.
  split_and!.
  - intros masked name Hbase Htoken Hslot Htoggle. unfold build_env. cbv zeta.
    rewrite toggles_loop_lookup, Htoggle.
    rewrite (models_loop_other config _ _ _ Hslot).
    by rewrite !lookup_insert_ne.
  - intros masked name Hname. unfold build_env. cbv zeta.
    rewrite toggles_loop_lookup. destruct (toggles config !! name); [done|].
    apply (models_loop_keeps config).
    destruct (decide ("ANTHROPIC_AUTH_TOKEN" = name)) as [<-|Htoken];
      [by rewrite lookup_insert_eq|].
    rewrite lookup_insert_ne by done.
    destruct (decide ("ANTHROPIC_BASE_URL" = name)) as [<-|Hbase];
      [by rewrite lookup_insert_eq|].
    by rewrite lookup_insert_ne.
  - intros name Htoken. unfold build_env. cbv zeta.
    rewrite !toggles_loop_lookup. destruct (toggles config !! name); [done|].
    destruct (decide (name ∈ model_variable <$> MODEL_KEYS)) as [Hin|Hout].
    + apply list_elem_of_fmap in Hin as (key & -> & Hkey).
      assert (NoDup (model_variable <$> MODEL_KEYS)) as Hnd by by_evaluation.
      rewrite !(models_loop_own config _ _ _ Hnd Hkey).
      destruct (Py.truthy _); [done|].
      by rewrite !(lookup_insert_ne _ "ANTHROPIC_AUTH_TOKEN").
    + rewrite !(models_loop_other config _ _ _ Hout).
      by rewrite !(lookup_insert_ne _ "ANTHROPIC_AUTH_TOKEN").
Qed.

(** * The properties on concrete inputs *)

Lemma validate_models_valid_witness :
  let catalog := [Model "x2" "acme"] in
  let config :=
    set_model "sonnet" (Entry (Some "acme") (Some "x2"))
      (set_model "opus" (Entry (Some "acme") (Some "x1")) default_config) in
  "sonnet" ∈ MODEL_KEYS ∧
  slot_valid catalog (get_entry (validate_models config catalog).1 "sonnet") ∧
  models (validate_models config catalog).1 !! "sonnet" =
    Some (Entry (Some "acme") (Some "x2")).
Proof.
  intros catalog config.
  assert ("sonnet" ∈ MODEL_KEYS) as Hkey by (by right; left).
  destruct (validate_models_valid catalog config "sonnet" Hkey) as [Hvalid Hkept].
  split; [exact Hkey|]. split; [exact Hvalid|].
  assert (slot_valid catalog (get_entry config "sonnet")) as Hbefore.
  { right. split; [by exists "acme"|]. split; [by exists "x2"|].
    exists "acme", "x2". split; [reflexivity|]. split; [reflexivity|]. by left. }
  rewrite (Hkept Hbefore). reflexivity.
Defined.

Lemma insert_then_backspace_witness :
  let a := init [] (Some (JDict {[ "api_key" := JStr "secret" ]})) [] "pulse" in
  config (handle_text_input "api_key" 127 (handle_text_input "api_key" 120 a))
    = config a ∧
  config_cursor (handle_text_input "api_key" 127 (handle_text_input "api_key" 120 a))
    !! "api_key" = Some (text_cursor a "api_key") ∧
  length (disk (handle_text_input "api_key" 127 (handle_text_input "api_key" 120 a)))
    = (length (disk a) + 2)%nat.
Proof.
  intros a.
  assert (0 ≤ default 0 (config_cursor a !! "api_key")) as Hcursor
    by (by vm_compute).
  exact (insert_then_backspace "api_key" 120 a (or_intror eq_refl) Hcursor eq_refl).
Defined.

Lemma handle_text_input_cursor_witness :
  let a := init [] (Some (JDict {[ "api_key" := JStr "secret" ]})) [] "pulse" in
  ∃ cursor,
    config_cursor (handle_text_input "api_key" Curses.KEY_RIGHT a) !! "api_key"
      = Some cursor ∧
    0 ≤ cursor
      ≤ Py.len (get_text (config (handle_text_input "api_key" Curses.KEY_RIGHT a))
                  "api_key").
Proof.
  intros a.
  assert (0 ≤ default 0 (config_cursor a !! "api_key")) as Hcursor
    by (by vm_compute).
  exact (handle_text_input_cursor "api_key" Curses.KEY_RIGHT a
           (or_intror eq_refl) Hcursor).
Defined.

Lemma flip_toggle_twice_witness :
  (flip_toggle "DISABLE_COST_WARNINGS"
     (flip_toggle "DISABLE_COST_WARNINGS" default_config []).1 []).1
  = default_config.
Proof.
  assert (toggles default_config !! "DISABLE_COST_WARNINGS" = Some 1) as Hset
    by (vm_compute; reflexivity).
  exact (flip_toggle_twice "DISABLE_COST_WARNINGS" default_config [] []
           (or_intror Hset)).
Defined.

Lemma load_config_shape_witness :
  File.load_config (File.Escapes UnicodeDecodeError) = Raise UnicodeDecodeError ∧
  ∃ config,
    File.load_config (File.ReadOSError "PermissionError") = Ok config ∧
    slots_ok (models config) ∧ toggles_ok (toggles config).
Proof.
  split.
  - exact (proj2 (proj2 (load_config_shape (File.Escapes UnicodeDecodeError))
                    UnicodeDecodeError) eq_refl).
  - exists (load_config None). split; [reflexivity|].
    exact (proj1 (load_config_shape (File.ReadOSError "PermissionError"))
             (load_config None) eq_refl).
Defined.

Lemma load_config_saved_witness :
  let c := load_config (Some (JDict {[ "api_key" := JStr "secret" ]})) in
  load_config (Some (json_of_config c)) = c.
Proof.
  intros c.
  exact (load_config_saved c (load_config_slots_ok _) (load_config_toggles_ok _)).
Defined.

Lemma fetch_models_records_witness :
  let platform :=
    fixed_platform (Response 200 "")
      (Some (JDict {[ "data" := JList [JDict {[ "id" := JStr "x2";
                                               "owned_by" := JStr "acme" ]};
                                       JDict {[ "id" := JStr "x3" ]};
                                       JStr "x4"] ]})) in
  @fetch_models platform "http://127.0.0.1:8317/" "secret" = Ok [Model "x2" "acme"] ∧
  ∃ data, [Model "x2" "acme"] = omap model_of_item data ∧
          (length [Model "x2" "acme"] ≤ length data)%nat.
Proof.
  intros platform.
  assert (@fetch_models platform "http://127.0.0.1:8317/" "secret"
          = Ok [Model "x2" "acme"]) as Hfetch by (vm_compute; reflexivity).
  split; [exact Hfetch|].
  destruct (@fetch_models_records platform _ _ _ Hfetch)
    as (body & payload & data & _ & _ & _ & Hcatalog & _ & Hlength).
  exists data. split; [exact Hcatalog|exact Hlength].
Defined.

Lemma fetch_models_http_error_witness :
  let platform := fixed_platform (Response 500 "  server error ") None in
  ∃ tail,
    @fetch_models platform "http://127.0.0.1:8317" "secret" =
      Raise (RuntimeError ("HTTP " +:+ Py.str 500 +:+ ": " +:+ tail)) ∧
    tail = Py.strip "  server error ".
Proof.
  intros platform.
  destruct (@fetch_models_http_error platform "http://127.0.0.1:8317" "secret"
              "  server error " 500) as (tail & Hfetch & _ & Htail).
  { right. split; [reflexivity|done]. }
  exists tail. split; [exact Hfetch|].
  apply Htail; [by vm_compute|]. vm_compute. discriminate.
Defined.

Lemma refresh_models_outcome_witness :
  let platform :=
    fixed_platform (Response 200 "")
      (Some (JDict {[ "data" := JList [JDict {[ "id" := JStr "x2";
                                               "owned_by" := JStr "acme" ]}] ]})) in
  let a :=
    with_config (λ config, update_model_id config "opus" (Some "acme") (Some "x1"))
      (init [] (Some (JDict {[ "api_key" := JStr "secret" ]})) [] "pulse") in
  ∃ a', @refresh_models platform a = Ok a' ∧ status_message a' ≠ "".
Proof.
  intros platform a.
  assert (match @refresh_models platform a with
          | Ok _ => True
          | Raise _ => False
          end) as Hok by (vm_compute; exact I).
  destruct (@refresh_models platform a) as [a'|e] eqn:Hrun; [|destruct Hok].
  exists a'. split; [reflexivity|].
  exact (proj1 (@refresh_models_outcome platform a a' Hrun)).
Defined.

Lemma key_press_persisted_witness :
  let platform := fixed_platform (Response 500 "server error") None in
  let a :=
    set_models_by_owner
      (<["openai" := ["gpt"]]> (<["anthropic" := ["claude"]]> ∅))
      (with_config (λ config, update_model_owner config "opus" (Some "anthropic"))
         (init [] None [] "pulse")) in
  ∃ a', @handle_main_key platform 93 a = Ok a' ∧ persisted a a'.
Proof.
  intros platform a.
  assert (match @handle_main_key platform 93 a with
          | Ok _ => True
          | Raise _ => False
          end) as Hok by (vm_compute; exact I).
  destruct (@handle_main_key platform 93 a) as [a'|e] eqn:Hrun; [|destruct Hok].
  exists a'. split; [reflexivity|].
  exact (@key_press_persisted platform 93 a a' (or_introl Hrun)).
Defined.

Lemma key_press_focus_witness :
  let platform := fixed_platform (Response 500 "server error") None in
  let a := init [] None [] "pulse" in
  ∃ a', @handle_main_key platform Curses.KEY_UP a = Ok a' ∧ focus_ok a'.
Proof.
  intros platform a.
  assert (focus_ok a) as Hfocus by (by vm_compute).
  assert (match @handle_main_key platform Curses.KEY_UP a with
          | Ok _ => True
          | Raise _ => False
          end) as Hok by (vm_compute; exact I).
  destruct (@handle_main_key platform Curses.KEY_UP a) as [a'|e] eqn:Hrun;
    [|destruct Hok].
  exists a'. split; [reflexivity|].
  exact (@key_press_focus platform Curses.KEY_UP a a' (or_introl Hrun) Hfocus).
Defined.

Lemma enter_key_outcome_witness :
  let platform :=
    {| urlopen _ _ := URLError "";
       json_loads _ := None;
       os_environ := ∅;
       subprocess_run _ _ := RunOSError "PermissionError" |} in
  let chosen := Entry (Some "acme") (Some "x1") in
  let start := init [] (Some (JDict {[ "api_key" := JStr "secret" ]})) [] "pulse" in
  let a :=
    set_config
      (set_model "haiku" chosen
         (set_model "sonnet" chosen (set_model "opus" chosen (config start))))
      start in
  @handle_main_key platform 10 a = Raise (OSError "PermissionError") ∧
  @handle_main_key platform 10 start =
    Ok (set_status_message
          "OPUS, SONNET, and HAIKU selections are required." start).
Proof.
  intros platform chosen start a.
  pose proof (@enter_key_outcome platform 10 a (or_intror (or_introl eq_refl)))
    as Hrun.
  pose proof (@enter_key_outcome platform 10 start
                (or_intror (or_introl eq_refl))) as Hstart.
  assert (validate_launch_requirements (config a) = None) as Hvalid
    by (vm_compute; reflexivity).
  assert (validate_launch_requirements (config start) =
          Some "OPUS, SONNET, and HAIKU selections are required.") as Hlacks
    by (vm_compute; reflexivity).
  rewrite Hvalid in Hrun. rewrite Hlacks in Hstart.
  split; [exact Hrun|exact Hstart].
Defined.

Lemma cycle_owner_forward_backward_witness :
  let a :=
    set_models_by_owner
      (<["openai" := ["gpt"]]> (<["anthropic" := ["claude"]]> ∅))
      (with_config (λ config, update_model_id config "opus" (Some "anthropic")
                                (Some "claude"))
         (init [] None [] "pulse")) in
  ∃ a1 a2,
    cycle_main_option 1 a = Ok a1 ∧ cycle_main_option (-1) a1 = Ok a2 ∧
    get_entry (config a2) "opus" = Entry (Some "anthropic") None.
Proof.
  intros a.
  assert (getitem MODEL_KEYS (main_focus_row a) = Ok "opus") as Hslot
    by (vm_compute; reflexivity).
  assert (entry_owned_by (get_entry (config a) "opus") = Some "anthropic")
    as Howner by (vm_compute; reflexivity).
  assert (owner_options (models_by_owner a) = ["anthropic"; "openai"])
    as Hoptions by (vm_compute; reflexivity).
  assert ("anthropic" ∈ owner_options (models_by_owner a)) as Hin
    by (rewrite Hoptions; by left).
  assert ("" ∉ owner_options (models_by_owner a)) as Hout.
  { rewrite Hoptions. intros Hbad.
    apply elem_of_cons in Hbad as [Hbad|Hbad]; [discriminate Hbad|].
    apply elem_of_cons in Hbad as [Hbad|Hbad]; [discriminate Hbad|].
    by apply elem_of_nil in Hbad. }
  exact (cycle_owner_forward_backward a "opus" "anthropic" Hslot eq_refl
           Howner Hin Hout).
Defined.

Lemma key_press_slots_paired_witness :
  let platform := fixed_platform (Response 500 "server error") None in
  let a :=
    set_models_by_owner
      (<["openai" := ["gpt"]]> (<["anthropic" := ["claude"]]> ∅))
      (with_config (λ config, update_model_id config "opus" (Some "anthropic")
                                (Some "claude"))
         (init [] None [] "pulse")) in
  ∃ a', @handle_main_key platform 93 a = Ok a' ∧ slots_paired (config a').
Proof.
  intros platform a.
  assert (slots_paired (config a)) as Hpaired.
  { intros slot Hslot.
    apply elem_of_cons in Hslot as [->|Hslot].
    { right. split; [by exists "anthropic"|by exists "claude"]. }
    apply elem_of_cons in Hslot as [->|Hslot]; [by left|].
    apply elem_of_cons in Hslot as [->|Hslot]; [by left|].
    by apply elem_of_nil in Hslot. }
  assert (match @handle_main_key platform 93 a with
          | Ok _ => True
          | Raise _ => False
          end) as Hok by (vm_compute; exact I).
  destruct (@handle_main_key platform 93 a) as [a'|e] eqn:Hrun; [|destruct Hok].
  exists a'. split; [reflexivity|].
  exact (@key_press_slots_paired platform 93 a a' (or_introl Hrun) Hpaired).
Defined.

Lemma run_invariant_witness :
  let platform :=
    fixed_platform (Response 200 "")
      (Some (JDict {[ "data" := JList [JDict {[ "id" := JStr "x2";
                                               "owned_by" := JStr "acme" ]}] ]})) in
  let a := init [] (Some (JDict {[ "api_key" := JStr "secret" ]})) [] "pulse" in
  let keys := [93; -1; 100; 99; 120; 27; 113; 93] in
  let draw := λ _ : App, Ok () in
  ∃ a', @run platform draw true true 5 keys a = Ok a' ∧
        focus_ok a' ∧ index_consistent a' ∧ slots_paired (config a') ∧
        disk a `prefix_of` disk a' ∧ 0 ≤ frame a' ≤ 8.
Proof.
  intros platform a keys draw.
  assert (focus_ok a) as Hfocus by (by vm_compute).
  assert (index_consistent a) as Hindex by reflexivity.
  assert (slots_paired (config a)) as Hpaired.
  { intros slot Hslot.
    apply elem_of_cons in Hslot as [->|Hslot]; [by left|].
    apply elem_of_cons in Hslot as [->|Hslot]; [by left|].
    apply elem_of_cons in Hslot as [->|Hslot]; [by left|].
    by apply elem_of_nil in Hslot. }
  assert (match @run platform draw true true 5 keys a with
          | Ok _ => True
          | Raise _ => False
          end) as Hok by (vm_compute; exact I).
  destruct (@run platform draw true true 5 keys a) as [a'|e] eqn:Hrun;
    [|destruct Hok].
  exists a'. split; [reflexivity|].
  destruct (@run_invariant platform draw true true 5 keys a a' Hrun)
    as (Hf & Hi & Hp & Hd & Hfr).
  split; [exact (Hf Hfocus)|]. split; [exact (Hi Hindex)|].
  split; [exact (Hp Hpaired)|]. split; [exact Hd|exact Hfr].
Defined.

Lemma render_style_rain_cells_witness :
  let plain := init [] None (default [] (LOGOS !! 0%nat)) "rain" in
  let a := set_frame 7 (init_colors true true 5 plain) in
  render_style_rain a (Grid 24 80 ∅) 1 =
    Ok (foldl (paint_rain a 1 (Z.max 0 ((80 - 39) `div` 2)))
              (Grid 24 80 ∅) (glyphs (logo_lines a))) ∧
  (∃ pair_id,
     color_pairs a !! Z.to_nat ((0 - 7 `div` 2) `mod` 5) = Some pair_id ∧
     Curses.bold (rain_attr a 0 1) = false) ∧
  rain_attr plain 0 1 = 0.
Proof.
  intros plain a.
  destruct (render_style_rain_cells (W := grid) a) as (Hcells & _ & Hcolor & _).
  destruct (render_style_rain_cells (W := grid) plain) as (_ & _ & _ & Hplain & _).
  assert (use_color a = true) as Hon by (vm_compute; reflexivity).
  assert (color_pairs a ≠ []) as Hpairs by (vm_compute; done).
  split_and!.
  - assert (py_max (Py.len <$> logo_lines a) = Ok 39) as Hmax
      by (vm_compute; reflexivity).
    rewrite Hcells, Hmax. reflexivity.
  - destruct (Hcolor 0 1 Hon Hpairs) as (pair_id & Hpair & _ & Hbold).
    exists pair_id. split; [exact Hpair|].
    destruct (Curses.bold (rain_attr a 0 1)); [|reflexivity].
    apply proj1 in Hbold. specialize (Hbold eq_refl). vm_compute in Hbold.
    discriminate Hbold.
  - exact (Hplain 0 1 (or_introl eq_refl)).
Defined.
